(** * UGC proof bot: submission workflow, dedupe and reward ledger

    A shallow embedding of [main.py].  Handlers, and the helpers that read
    the store or the clock, are written in a small state-and-exception
    monad over the three Mongo collections, the clock, the replies sent
    and the per-user [context.user_data]; pure helpers ([normalize_url],
    [detect_platform], [sha256_str], ...) are plain functions.  The
    libraries the program calls ([hashlib], [re], [bson], [pymongo],
    [telegram]) are modelled from their documented behaviour.

    A Python [str] is modelled by the [string] of its UTF-8 bytes, so
    that [encode("utf-8")] is the identity, equality and the search for
    an ASCII substring are those of the bytes, and [str.strip] and [len]
    are written out on the encoding.  The case mappings of text that is
    not plain ASCII are those of the interpreter's Unicode database, a
    parameter of the model. *)

From Stdlib Require Import ZArith Ascii String List Bool.
From stdpp Require Import base list strings gmap.
Import ListNotations.
Local Open Scope Z_scope.

(* ===================================================================== *)
(** ** Text: [str.strip], [len], [in], and the ASCII case mappings *)
(* ===================================================================== *)

Module Text.

Definition code (c : ascii) : Z := Z.of_N (N_of_ascii c).

(** *** The ASCII fragment

    [is_space], [lower], [upper], [strip] and the like are Python's
    methods as they act on plain ASCII text.  The program's own calls
    are modelled by [str_strip], [str_len], [str_lower] and [str_upper]
    further down, which cover all text and agree with these on ASCII
    (lemmas [str_strip_ascii], [str_lower_ascii], [str_upper_ascii]);
    the ASCII functions serve the lemmas on links and the hexadecimal
    digits of ids.

    ASCII white space as [str.isspace] sees it: TAB, LF, VT, FF, CR,
    the separators FS, GS, RS, US, and the blank. *)
Definition is_space (c : ascii) : bool :=
  ((9 <=? code c) && (code c <=? 13)) || ((28 <=? code c) && (code c <=? 32)).

Definition is_upper (c : ascii) : bool := (65 <=? code c) && (code c <=? 90).
Definition is_lower (c : ascii) : bool := (97 <=? code c) && (code c <=? 122).

Definition lower_char (c : ascii) : ascii :=
  if is_upper c then ascii_of_N (Z.to_N (code c + 32)) else c.

Definition upper_char (c : ascii) : ascii :=
  if is_lower c then ascii_of_N (Z.to_N (code c - 32)) else c.

Fixpoint smap (f : ascii -> ascii) (s : string) : string :=
  match s with
  | EmptyString => EmptyString
  | String c r => String (f c) (smap f r)
  end.

Definition lower : string -> string := smap lower_char.
Definition upper : string -> string := smap upper_char.

Fixpoint all_space (s : string) : bool :=
  match s with
  | EmptyString => true
  | String c r => is_space c && all_space r
  end.

Fixpoint lstrip (s : string) : string :=
  match s with
  | EmptyString => EmptyString
  | String c r => if is_space c then lstrip r else s
  end.

Fixpoint rstrip (s : string) : string :=
  match s with
  | EmptyString => EmptyString
  | String c r => if all_space s then EmptyString else String c (rstrip r)
  end.

Definition strip (s : string) : string := rstrip (lstrip s).

(** [needle in hay] *)
Fixpoint contains (needle hay : string) : bool :=
  String.prefix needle hay ||
  match hay with
  | EmptyString => false
  | String _ r => contains needle r
  end.

Definition LF : ascii := ascii_of_N 10.
Definition HASH : ascii := "#"%char.

Fixpoint has_char (x : ascii) (s : string) : bool :=
  match s with
  | EmptyString => false
  | String c r => Ascii.eqb c x || has_char x r
  end.

(** *** All text

    Plain ASCII text: every byte is below 128. *)
Fixpoint is_ascii (s : string) : bool :=
  match s with
  | EmptyString => true
  | String c r => (code c <? 128) && is_ascii r
  end.

(** The UTF-8 encoding of a code point. *)
Definition byte (n : Z) : ascii := ascii_of_N (Z.to_N n).

Definition utf8 (cp : Z) : string :=
  if cp <? 128 then String (byte cp) EmptyString
  else if cp <? 2048 then
    String (byte (192 + cp / 64)) (String (byte (128 + cp mod 64)) EmptyString)
  else if cp <? 65536 then
    String (byte (224 + cp / 4096))
      (String (byte (128 + (cp / 64) mod 64))
         (String (byte (128 + cp mod 64)) EmptyString))
  else
    String (byte (240 + cp / 262144))
      (String (byte (128 + (cp / 4096) mod 64))
         (String (byte (128 + (cp / 64) mod 64))
            (String (byte (128 + cp mod 64)) EmptyString))).

(** The code points [str.isspace] holds of: besides the ASCII ones,
    NEL and the no-break space, the Ogham space mark, the spaces
    U+2000 to U+200A, the line and paragraph separators, the narrow
    no-break space, the medium mathematical space and the ideographic
    space. *)
Definition white_space : list Z :=
  [9; 10; 11; 12; 13; 28; 29; 30; 31; 32; 133; 160; 5760;
   8192; 8193; 8194; 8195; 8196; 8197; 8198; 8199; 8200; 8201; 8202;
   8232; 8233; 8239; 8287; 12288].

(** Their encodings on two and on three bytes. *)
Definition white2 (a b : ascii) : bool :=
  existsb (fun cp => String.eqb (utf8 cp) (String a (String b EmptyString))) white_space.

Definition white3 (a b c : ascii) : bool :=
  existsb (fun cp => String.eqb (utf8 cp) (String a (String b (String c EmptyString))))
    white_space.

(** [s.lstrip()]: leading white space is dropped, one code point after
    the other. *)
Fixpoint str_lstrip (s : string) : string :=
  match s with
  | EmptyString => EmptyString
  | String a r =>
      if is_space a then str_lstrip r
      else
        match r with
        | EmptyString => s
        | String b r2 =>
            if white2 a b then str_lstrip r2
            else
              match r2 with
              | EmptyString => s
              | String c r3 => if white3 a b c then str_lstrip r3 else s
              end
        end
  end.

(** The text is white space throughout. *)
Definition all_white (s : string) : bool :=
  match str_lstrip s with EmptyString => true | _ => false end.

(** [s.rstrip()]: the text is cut where its white tail begins. *)
Fixpoint str_rstrip (s : string) : string :=
  match s with
  | EmptyString => EmptyString
  | String c r => if all_white s then EmptyString else String c (str_rstrip r)
  end.

(** [s.strip()] *)
Definition str_strip (s : string) : string := str_rstrip (str_lstrip s).

(** [len(s)]: the code points, that is the bytes that do not continue
    one (those outside 128..191). *)
Fixpoint str_len (s : string) : nat :=
  match s with
  | EmptyString => O
  | String c r =>
      if (128 <=? code c) && (code c <=? 191) then str_len r else S (str_len r)
  end.

End Text.

(* ===================================================================== *)
(** ** [hashlib.sha256]: SHA-256 as in FIPS 180-4 *)
(* ===================================================================== *)

Module SHA256.

Definition w32 (x : Z) : Z := x mod 2 ^ 32.
Definition add32 (x y : Z) : Z := w32 (x + y).
Definition not32 (x : Z) : Z := Z.lxor x (2 ^ 32 - 1).
Definition rotr (n x : Z) : Z :=
  w32 (Z.lor (Z.shiftr x n) (Z.shiftl x (32 - n))).

Definition Ch (x y z : Z) := Z.lxor (Z.land x y) (Z.land (not32 x) z).
Definition Maj (x y z : Z) :=
  Z.lxor (Z.lxor (Z.land x y) (Z.land x z)) (Z.land y z).
Definition Sigma0 x := Z.lxor (Z.lxor (rotr 2 x) (rotr 13 x)) (rotr 22 x).
Definition Sigma1 x := Z.lxor (Z.lxor (rotr 6 x) (rotr 11 x)) (rotr 25 x).
Definition sigma0 x := Z.lxor (Z.lxor (rotr 7 x) (rotr 18 x)) (Z.shiftr x 3).
Definition sigma1 x := Z.lxor (Z.lxor (rotr 17 x) (rotr 19 x)) (Z.shiftr x 10).

(** The round constants are the first 32 fractional bits of the cube
    roots of the first 64 primes, the initial state those of the square
    roots of the first 8; both are computed rather than tabulated. *)
Fixpoint is_prime_by (ds : list Z) (n : Z) : bool :=
  match ds with
  | [] => true
  | d :: r => negb (n mod d =? 0) && is_prime_by r n
  end.

Fixpoint primes_from (fuel : nat) (n : Z) (found : list Z) (want : nat) : list Z :=
  match fuel, want with
  | _, O => rev found
  | O, _ => rev found
  | S fuel', S want' =>
      if is_prime_by found n
      then primes_from fuel' (n + 1) (n :: found) want'
      else primes_from fuel' (n + 1) found want
  end.

Definition primes64 : list Z := Eval vm_compute in primes_from 400 2 [] 64.

Fixpoint icbrt_bits (b : nat) (n r : Z) : Z :=
  match b with
  | O => r
  | S b' =>
      let r' := r + 2 ^ Z.of_nat b' in
      icbrt_bits b' n (if r' * r' * r' <=? n then r' else r)
  end.

Definition icbrt (n : Z) : Z := icbrt_bits 48 n 0.

Definition K : list Z :=
  Eval vm_compute in map (fun p => w32 (icbrt (p * 2 ^ 96))) primes64.
Definition H0 : list Z :=
  Eval vm_compute in map (fun p => w32 (Z.sqrt (p * 2 ^ 64))) (firstn 8 primes64).

(** Padding: a one bit, zeros up to 56 mod 64, the bit length on 64 bits. *)
Definition be_bytes (n : nat) (x : Z) : list Z :=
  map (fun i => (Z.shiftr x (8 * Z.of_nat i)) mod 256) (rev (seq 0 n)).

Definition pad (msg : list Z) : list Z :=
  let len := Z.of_nat (length msg) in
  let zeros := Z.to_nat ((55 - len) mod 64) in
  msg ++ [128] ++ repeat 0 zeros ++ be_bytes 8 (8 * len).

Fixpoint be_word (bs : list Z) (acc : Z) : Z :=
  match bs with
  | [] => acc
  | b :: r => be_word r (acc * 256 + b)
  end.

Fixpoint words (n : nat) (bs : list Z) : list Z :=
  match n with
  | O => []
  | S n' => be_word (firstn 4 bs) 0 :: words n' (skipn 4 bs)
  end.

(** Message schedule; [w] holds the words computed so far, newest first. *)
Fixpoint schedule (n : nat) (w : list Z) : list Z :=
  match n with
  | O => rev w
  | S n' =>
      let x := add32 (add32 (sigma1 (nth 1 w 0)) (nth 6 w 0))
                     (add32 (sigma0 (nth 14 w 0)) (nth 15 w 0)) in
      schedule n' (x :: w)
  end.

Record regs := Regs { ra : Z; rb : Z; rc : Z; rd : Z; re : Z; rf : Z; rg : Z; rh : Z }.

Definition round (s : regs) (kw : Z * Z) : regs :=
  let t1 := add32 (add32 (add32 (rh s) (Sigma1 (re s))) (Ch (re s) (rf s) (rg s)))
                  (add32 (fst kw) (snd kw)) in
  let t2 := add32 (Sigma0 (ra s)) (Maj (ra s) (rb s) (rc s)) in
  Regs (add32 t1 t2) (ra s) (rb s) (rc s) (add32 (rd s) t1) (re s) (rf s) (rg s).

Definition compress (h : regs) (block : list Z) : regs :=
  let w := schedule 48 (rev (words 16 block)) in
  let s := fold_left round (combine K w) h in
  Regs (add32 (ra h) (ra s)) (add32 (rb h) (rb s)) (add32 (rc h) (rc s))
       (add32 (rd h) (rd s)) (add32 (re h) (re s)) (add32 (rf h) (rf s))
       (add32 (rg h) (rg s)) (add32 (rh h) (rh s)).

Fixpoint blocks (n : nat) (h : regs) (bs : list Z) : regs :=
  match n with
  | O => h
  | S n' => blocks n' (compress h (firstn 64 bs)) (skipn 64 bs)
  end.

Definition init : regs :=
  Regs (nth 0 H0 0) (nth 1 H0 0) (nth 2 H0 0) (nth 3 H0 0)
       (nth 4 H0 0) (nth 5 H0 0) (nth 6 H0 0) (nth 7 H0 0).

Definition digest (msg : list Z) : list Z :=
  let p := pad msg in
  let s := blocks (length p / 64)%nat init p in
  [ra s; rb s; rc s; rd s; re s; rf s; rg s; rh s].

Definition hex_digit (n : Z) : ascii :=
  ascii_of_N (Z.to_N (if n <? 10 then 48 + n else 87 + n)).

Fixpoint hex_of (digits : nat) (x : Z) (acc : string) : string :=
  match digits with
  | O => acc
  | S d => hex_of d (x / 16) (String (hex_digit (x mod 16)) acc)
  end.

Fixpoint hex_words (ws : list Z) : string :=
  match ws with
  | [] => EmptyString
  | w :: r => hex_of 8 w (hex_words r)
  end.

Fixpoint bytes_of (s : string) : list Z :=
  match s with
  | EmptyString => []
  | String c r => Text.code c :: bytes_of r
  end.

End SHA256.

(** [hashlib.sha256(b).hexdigest()]; a byte string is a [string]. *)
Definition sha256_bytes (b : string) : string :=
  SHA256.hex_words (SHA256.digest (SHA256.bytes_of b)).

(** [sha256_bytes(s.encode("utf-8"))] *)
Definition sha256_str (s : string) : string := sha256_bytes s.

(* ===================================================================== *)
(** ** The environment *)
(* ===================================================================== *)

Import Text.

(** Times are instants at the store's resolution (milliseconds). *)
Definition Time := Z.

(** What the program takes from its surroundings: the configuration read
    from [os.environ], the clock, the rendering of a stored time, and the
    case mappings of the interpreter's Unicode database. *)
Record Env := {
  T1_DROP_ID : string;
  T2_DROP_ID : string;
  MAX_SUBMISSIONS_PER_DAY : Z;
  clock : nat -> Time;              (* the n-th reading of [datetime.now] *)
  str_datetime : Time -> string;    (* [str] of a stored datetime *)
  unicode_lower : string -> string; (* [str.lower] of text that is not ASCII *)
  unicode_upper : string -> string  (* [str.upper] of text that is not ASCII *)
}.

(** [s.lower()] and [s.upper()]: on plain ASCII text the letters A-Z and
    a-z are mapped; other text is mapped by the Unicode database. *)
Definition str_lower (env : Env) (s : string) : string :=
  if is_ascii s then lower s else unicode_lower env s.

Definition str_upper (env : Env) (s : string) : string :=
  if is_ascii s then upper s else unicode_upper env s.

(* ===================================================================== *)
(** ** Fingerprinting *)
(* ===================================================================== *)

(** [.*$] right after a [#]: the rest of the subject holds no line feed,
    except possibly one as its very last character. *)
Fixpoint dot_star_eol (s : string) : bool :=
  match s with
  | EmptyString => true
  | String c r =>
      if Ascii.eqb c LF
      then match r with EmptyString => true | _ => false end
      else dot_star_eol r
  end.

(** [re.sub(r"#.*$", "", s)]: the leftmost [#] from which [.*$] matches
    is cut away together with what follows it on that line. *)
Fixpoint sub_fragment (s : string) : string :=
  match s with
  | EmptyString => EmptyString
  | String c r =>
      if Ascii.eqb c HASH && dot_star_eol r
      then (if has_char LF r then String LF EmptyString else EmptyString)
      else String c (sub_fragment r)
  end.

Definition normalize_url (url : string) : string :=
  let url := str_strip url in
  let url := sub_fragment url in
  url.

Definition detect_platform (env : Env) (url : string) : option string :=
  let u := str_lower env url in
  if contains "tiktok.com" u then Some "tt"
  else if contains "instagram.com" u then Some "ig"
  else if contains "facebook.com" u || contains "fb.watch" u then Some "fb"
  else None.

(** The digest [submit_got_url] stores as [post_hash]:
    [sha256_str(f"{platform}:{url.lower()}")]. *)
Definition post_hash_of (env : Env) (platform url : string) : string :=
  sha256_str (platform +:+ ":" +:+ str_lower env url).

(** URL fingerprint of a raw link for a platform tag: the link is
    normalized first, as [submit_got_url] does before hashing. *)
Definition fingerprintURL (env : Env) (platform raw : string) : string :=
  post_hash_of env platform (normalize_url raw).

(* ===================================================================== *)
(** ** Documents *)
(* ===================================================================== *)

(** [timedelta(days=1)] *)
Definition one_day : Z := 86400000.

(** A [bson.ObjectId] is twelve bytes; it is represented by its canonical
    rendering, the 24 lower-case hexadecimal digits [str] returns. *)
Record ObjectId := Oid { oid_hex : string }.

Definition oid_eqb (a b : ObjectId) : bool := String.eqb (oid_hex a) (oid_hex b).
Definition str_oid (o : ObjectId) : string := oid_hex o.

Definition is_hex (c : ascii) : bool :=
  ((48 <=? code c) && (code c <=? 57)) ||
  ((97 <=? code c) && (code c <=? 102)) ||
  ((65 <=? code c) && (code c <=? 70)).

Fixpoint all_hex (s : string) : bool :=
  match s with
  | EmptyString => true
  | String c r => is_hex c && all_hex r
  end.

Definition is_lower_hex (c : ascii) : bool :=
  ((48 <=? code c) && (code c <=? 57)) || ((97 <=? code c) && (code c <=? 102)).

Fixpoint all_lower_hex (s : string) : bool :=
  match s with
  | EmptyString => true
  | String c r => is_lower_hex c && all_lower_hex r
  end.

(** Ids the driver can generate. *)
Definition oid_valid (o : ObjectId) : bool :=
  Nat.eqb (String.length (oid_hex o)) 24 && all_lower_hex (oid_hex o).

(** A record of [ugc_submissions]. *)
Record Submission := {
  s_id : ObjectId;
  s_user_id : Z;
  s_usernameLower : string;
  s_platform : string;
  s_post_url : string;
  s_post_hash : string;
  s_ugc_code : string;
  s_caption : string;
  s_proof_sha256 : string;
  s_tier_claimed : string;
  s_status : string;
  s_created_at : Time;
  s_updated_at : Time;
  s_metrics_proof_sha256 : option string;
  s_validated_at : option Time
}.

(** A record of [ugc_codes], issued by the community bot; the fields this
    program reads or writes, any of which but [code] may be absent. *)
Record CodeDoc := {
  c_code : string;
  c_user_id : option Z;
  c_status : option string;
  c_used_at : option Time;
  c_ugc_id : option string
}.

(** A record of [reward_ledger]. *)
Record LedgerEntry := {
  l_user_id : Z;
  l_ugc_id : string;
  l_tier : string;
  l_amount : Z;
  l_drop_id : string;
  l_status : string;
  l_created_at : Time;
  l_claimable_after : Time;
  l_claimed_at : option Time;
  l_voucher_code : option string
}.

(* ===================================================================== *)
(** ** Telegram side: updates, conversation states *)
(* ===================================================================== *)

Inductive ChatType := PRIVATE | GROUP | SUPERGROUP | CHANNEL | SENDER.

Definition is_private (t : ChatType) : bool :=
  match t with PRIVATE => true | _ => false end.

Record User := { user_id : Z; username : option string }.

(** What a handler reads from [update] and [context]: the chat, the
    sender, the message text, the bytes of each size of an attached photo
    (smallest first), and the command arguments. *)
Record Update := {
  effective_chat : option ChatType;
  effective_user : User;
  text : option string;
  photo : list string;
  args : list string
}.

(** [S_PLATFORM_URL, ..., S_METRICS_PROOF = range(6)] *)
Inductive ConvState :=
  S_PLATFORM_URL | S_CODE | S_CAPTION | S_PROOF | S_TIER | S_METRICS_PROOF.

(** What a handler returns: nothing, [ConversationHandler.END], or the
    next conversation state. *)
Inductive Ret := RNone | END | Next (s : ConvState).

(* ===================================================================== *)
(** ** The world and the handler monad *)
(* ===================================================================== *)

Record St := {
  ugc_col : list Submission;
  code_col : list CodeDoc;
  ledger_col : list LedgerEntry;
  ticks : nat;                              (* clock readings taken so far *)
  outbox : list (Z * string);               (* replies sent, oldest first *)
  sessions : gmap Z (gmap string string)    (* [context.user_data] per user *)
}.

Definition with_ugc (f : list Submission -> list Submission) (st : St) : St :=
  {| ugc_col := f (ugc_col st); code_col := code_col st; ledger_col := ledger_col st;
     ticks := ticks st; outbox := outbox st; sessions := sessions st |}.
Definition with_code (f : list CodeDoc -> list CodeDoc) (st : St) : St :=
  {| ugc_col := ugc_col st; code_col := f (code_col st); ledger_col := ledger_col st;
     ticks := ticks st; outbox := outbox st; sessions := sessions st |}.
Definition with_ledger (f : list LedgerEntry -> list LedgerEntry) (st : St) : St :=
  {| ugc_col := ugc_col st; code_col := code_col st; ledger_col := f (ledger_col st);
     ticks := ticks st; outbox := outbox st; sessions := sessions st |}.
Definition with_ticks (f : nat -> nat) (st : St) : St :=
  {| ugc_col := ugc_col st; code_col := code_col st; ledger_col := ledger_col st;
     ticks := f (ticks st); outbox := outbox st; sessions := sessions st |}.
Definition with_outbox (f : list (Z * string) -> list (Z * string)) (st : St) : St :=
  {| ugc_col := ugc_col st; code_col := code_col st; ledger_col := ledger_col st;
     ticks := ticks st; outbox := f (outbox st); sessions := sessions st |}.
Definition with_sessions (f : gmap Z (gmap string string) -> gmap Z (gmap string string))
    (st : St) : St :=
  {| ugc_col := ugc_col st; code_col := code_col st; ledger_col := ledger_col st;
     ticks := ticks st; outbox := outbox st; sessions := f (sessions st) |}.

Inductive Exn :=
| DuplicateKeyError
| InvalidId (s : string)
| KeyError (k : string)
| TypeError.

Inductive Result (A : Type) :=
| Ok (a : A)
| Raise (e : Exn).
Arguments Ok {A} a.
Arguments Raise {A} e.

(** A handler step: writes made before an exception stay made. *)
Definition M (A : Type) : Type := St -> Result A * St.

Definition ret {A} (a : A) : M A := fun st => (Ok a, st).
Definition raise {A} (e : Exn) : M A := fun st => (Raise e, st).
Definition bind {A B} (m : M A) (k : A -> M B) : M B :=
  fun st => match m st with
            | (Ok a, st') => k a st'
            | (Raise e, st') => (Raise e, st')
            end.

Notation "'let*' x ':=' c 'in' k" := (bind c (fun x => k))
  (at level 10, x name, c at level 100, k at level 200).
Notation "'do' c 'in' k" := (bind c (fun _ => k))
  (at level 10, c at level 100, k at level 200).

Definition get_st : M St := fun st => (Ok st, st).
Definition modify (f : St -> St) : M unit := fun st => (Ok tt, f st).

(** [try: ... except DuplicateKeyError:], the caught case being [None]. *)
Definition try_duplicate {A} (m : M A) : M (option A) :=
  fun st => match m st with
            | (Ok a, st') => (Ok (Some a), st')
            | (Raise DuplicateKeyError, st') => (Ok None, st')
            | (Raise e, st') => (Raise e, st')
            end.

(* ===================================================================== *)
(** ** Collection operations (pymongo) *)
(* ===================================================================== *)

(** [find_one(filter)]: the first matching document in natural order. *)
Definition find_one {A} (p : A -> bool) (col : list A) : option A := List.find p col.

(** [update_one(filter, {"$set": ...})]: the first match is rewritten. *)
Fixpoint update_one {A} (p : A -> bool) (f : A -> A) (col : list A) : list A :=
  match col with
  | [] => []
  | x :: r => if p x then f x :: r else x :: update_one p f r
  end.

(** [update_one(filter, {"$setOnInsert": doc}, upsert=True)]: a match is
    left as it is, otherwise [doc] is inserted. *)
Definition upsert_on_insert {A} (p : A -> bool) (doc : A) (col : list A) : list A :=
  if existsb p col then col else col ++ [doc].

(** [count_documents(filter)] *)
Definition count_documents {A} (p : A -> bool) (col : list A) : Z :=
  Z.of_nat (length (List.filter p col)).

(** The two unique indexes of [ugc_submissions] built by
    [ensure_indexes]: [_id] (always there) and (platform, post_hash). *)
Definition same_post (platform post_hash : string) (x : Submission) : bool :=
  String.eqb (s_platform x) platform && String.eqb (s_post_hash x) post_hash.

Definition ugc_conflict (d x : Submission) : bool :=
  oid_eqb (s_id x) (s_id d) || same_post (s_platform d) (s_post_hash d) x.

(** [ugc_col.insert_one(d)], [d] carrying the [_id] the driver drew. *)
Definition insert_one (d : Submission) : M ObjectId :=
  fun st => if existsb (ugc_conflict d) (ugc_col st)
            then (Raise DuplicateKeyError, st)
            else (Ok (s_id d), with_ugc (fun col => col ++ [d]) st).

(** The unique index of [reward_ledger]: (ugc_id, tier). *)
Definition ledger_key (ugc_id tier : string) (e : LedgerEntry) : bool :=
  String.eqb (l_ugc_id e) ugc_id && String.eqb (l_tier e) tier.

Definition owned_by (o : ObjectId) (uid : Z) (x : Submission) : bool :=
  oid_eqb (s_id x) o && (s_user_id x =? uid).

Definition has_id (o : ObjectId) (x : Submission) : bool := oid_eqb (s_id x) o.

Definition has_code (c : string) (d : CodeDoc) : bool := String.eqb (c_code d) c.

(** [ObjectId(s)]: 24 hexadecimal digits, else [InvalidId].  (Arguments
    reach the handlers split on white space, hence hold none.) *)
Definition parse_oid (s : string) : option ObjectId :=
  if Nat.eqb (String.length s) 24 && all_hex s then Some (Oid (lower s)) else None.

Definition _oid (s : string) : M ObjectId :=
  match parse_oid s with
  | Some o => ret o
  | None => raise (InvalidId s)
  end.

(* ===================================================================== *)
(** ** Replies and handlers *)
(* ===================================================================== *)

Definition nl : string := String LF EmptyString.

(** The replies of [submit_got_tier] and [metrics_got_proof] that carry a
    submission id (the f-strings of the source). *)
Definition msg_duplicate (ugc_id : string) : string :=
  "This post was already submitted." +:+ nl +:+
  "UGC ID: " +:+ ugc_id +:+ nl +:+
  "Use /status " +:+ ugc_id.

Definition msg_validated_t1 (ugc_id : string) : string :=
  "✅ Submitted & validated (T1)." +:+ nl +:+
  "UGC ID: " +:+ ugc_id +:+ nl +:+ nl +:+
  "Claim in community bot: /claim".

Definition msg_pending_t2 (ugc_id : string) : string :=
  "✅ Submitted (T2 pending metrics)." +:+ nl +:+
  "UGC ID: " +:+ ugc_id +:+ nl +:+ nl +:+
  "Now upload metrics proof:" +:+ nl +:+
  "/metrics " +:+ ugc_id +:+ nl +:+
  "(Send a screenshot of views/likes/comments/shares.)".

Definition msg_validated_t2 (ugc_id : string) : string :=
  "✅ T2 validated." +:+ nl +:+
  "UGC ID: " +:+ ugc_id +:+ nl +:+ nl +:+
  "Claim in community bot: /claim".

Section Handlers.

Variable env : Env.

Definition now_utc : M Time :=
  fun st => (Ok (clock env (ticks st)), with_ticks S st).

Definition uid_of (u : Update) : Z := user_id (effective_user u).

(** [update.message.reply_text(msg)] *)
Definition reply_text (u : Update) (msg : string) : M unit :=
  modify (with_outbox (fun o => o ++ [(uid_of u, msg)])).

(** [context.user_data] of the sender. *)
Definition user_data (u : Update) (st : St) : gmap string string :=
  default ∅ (sessions st !! uid_of u).

(** [context.user_data[k] = v] *)
Definition ud_set (u : Update) (k v : string) : M unit :=
  modify (fun st => with_sessions (insert (uid_of u) (<[k:=v]> (user_data u st))) st).

(** [context.user_data.get(k)] *)
Definition ud_get (u : Update) (k : string) : M (option string) :=
  fun st => (Ok (user_data u st !! k), st).

(** [context.user_data[k]] *)
Definition ud_item (u : Update) (k : string) : M string :=
  let* v := ud_get u k in
  match v with
  | Some s => ret s
  | None => raise (KeyError k)
  end.

Definition must_dm (u : Update) : M bool :=
  match effective_chat u with
  | Some t =>
      if negb (is_private t)
      then do reply_text u "DM me to submit/claim UGC proof. (Open this bot in private chat.)" in
           ret false
      else ret true
  | None => ret true
  end.

Definition start (u : Update) : M Ret :=
  let* ok := must_dm u in
  if negb ok then ret RNone
  else
    do reply_text u ("UGC Proof Bot" +:+ nl +:+ nl +:+
                     "Commands:" +:+ nl +:+
                     "/submit - submit a post for T1/T2" +:+ nl +:+
                     "/metrics <ugc_id> - attach metrics proof for T2" +:+ nl +:+
                     "/status <ugc_id> - check status" +:+ nl) in
    ret RNone.

Definition in_window (uid : Z) (start : Time) (x : Submission) : bool :=
  (s_user_id x =? uid) && (start <=? s_created_at x).

Definition _daily_submission_count (uid : Z) : M Z :=
  let* now := now_utc in
  let start := now - one_day in
  let* st := get_st in
  ret (count_documents (in_window uid start) (ugc_col st)).

Definition validate_code (uid : Z) (code : string) : M (bool * string) :=
  let code := str_strip code in
  let* st := get_st in
  match find_one (has_code code) (code_col st) with
  | None => ret (false, "Code not found. Get a code from the community bot first.")
  | Some doc =>
      if negb (default (-1) (c_user_id doc) =? uid)
      then ret (false, "This code is not bound to your account.")
      else if match c_status doc with
              | Some s => String.eqb s "used" || String.eqb s "expired"
              | None => false
              end
      then ret (false, "Code already used/expired. Get a new one from the community bot.")
      else ret (true, "OK")
  end.

Definition submit_cmd (u : Update) : M Ret :=
  let* ok := must_dm u in
  if negb ok then ret END
  else
    let uid := uid_of u in
    let* n := _daily_submission_count uid in
    if MAX_SUBMISSIONS_PER_DAY env <=? n
    then do reply_text u "Daily submission limit reached. Try again tomorrow." in
         ret END
    else do reply_text u "Send your post URL (FB/IG/TikTok)." in
         ret (Next S_PLATFORM_URL).

Definition submit_got_url (u : Update) : M Ret :=
  let url := normalize_url (default "" (text u)) in
  match detect_platform env url with
  | None =>
      do reply_text u "Invalid URL. Must be Facebook / Instagram / TikTok link. Send again." in
      ret (Next S_PLATFORM_URL)
  | Some platform =>
      do ud_set u "platform" platform in
      do ud_set u "post_url" url in
      do ud_set u "post_hash" (post_hash_of env platform url) in
      do reply_text u "Send your UGC code (from community bot)." in
      ret (Next S_CODE)
  end.

Definition submit_got_code (u : Update) : M Ret :=
  let code := str_strip (default "" (text u)) in
  let* r := validate_code (uid_of u) code in
  if negb (fst r)
  then do reply_text u (snd r +:+ nl +:+ nl +:+ "Send a valid UGC code.") in
       ret (Next S_CODE)
  else do ud_set u "ugc_code" code in
       do reply_text u "Send your caption text (copy/paste what you posted)." in
       ret (Next S_CAPTION).

Definition submit_got_caption (u : Update) : M Ret :=
  let caption := str_strip (default "" (text u)) in
  if (str_len caption <? 5)%nat
  then do reply_text u "Caption too short. Send again." in
       ret (Next S_CAPTION)
  else do ud_set u "caption" caption in
       do reply_text u "Upload ONE screenshot proof of the post (photo)." in
       ret (Next S_PROOF).

Definition submit_got_proof (u : Update) : M Ret :=
  match last (photo u) with
  | None =>
      do reply_text u "Please upload as a photo (not text). Try again." in
      ret (Next S_PROOF)
  | Some b =>
      let proof_hash := sha256_bytes b in
      do ud_set u "proof_sha256" proof_hash in
      do reply_text u ("Which tier are you claiming?" +:+ nl +:+ "Reply with: T1 or T2") in
      ret (Next S_TIER)
  end.

Definition _create_reward_ledger (uid : Z) (ugc_id tier : string) : M unit :=
  let drop_id := if String.eqb tier "T1" then T1_DROP_ID env else T2_DROP_ID env in
  let amount := if String.eqb tier "T1" then 1 else 5 in
  let* created := now_utc in
  let* claimable := now_utc in
  let doc := {| l_user_id := uid;
                l_ugc_id := ugc_id;
                l_tier := tier;
                l_amount := amount;
                l_drop_id := drop_id;
                l_status := "pending_claim";
                l_created_at := created;
                l_claimable_after := claimable;
                l_claimed_at := None;
                l_voucher_code := None |} in
  (* idempotent *)
  modify (with_ledger (upsert_on_insert (ledger_key ugc_id tier) doc)).

Definition consume_code (used_at : Time) (ugc_id : string) (d : CodeDoc) : CodeDoc :=
  {| c_code := c_code d; c_user_id := c_user_id d;
     c_status := Some "used"; c_used_at := Some used_at; c_ugc_id := Some ugc_id |}.

Definition set_validated (at_ : Time) (x : Submission) : Submission :=
  {| s_id := s_id x; s_user_id := s_user_id x; s_usernameLower := s_usernameLower x;
     s_platform := s_platform x; s_post_url := s_post_url x; s_post_hash := s_post_hash x;
     s_ugc_code := s_ugc_code x; s_caption := s_caption x;
     s_proof_sha256 := s_proof_sha256 x; s_tier_claimed := s_tier_claimed x;
     s_status := "validated";
     s_created_at := s_created_at x; s_updated_at := s_updated_at x;
     s_metrics_proof_sha256 := s_metrics_proof_sha256 x;
     s_validated_at := Some at_ |}.

Definition set_metrics (h : string) (validated updated : Time) (x : Submission) : Submission :=
  {| s_id := s_id x; s_user_id := s_user_id x; s_usernameLower := s_usernameLower x;
     s_platform := s_platform x; s_post_url := s_post_url x; s_post_hash := s_post_hash x;
     s_ugc_code := s_ugc_code x; s_caption := s_caption x;
     s_proof_sha256 := s_proof_sha256 x; s_tier_claimed := s_tier_claimed x;
     s_status := "validated";
     s_created_at := s_created_at x; s_updated_at := updated;
     s_metrics_proof_sha256 := Some h;
     s_validated_at := Some validated |}.

(** [new_id] is the [_id] the driver draws for the inserted document. *)
Definition submit_got_tier (new_id : ObjectId) (u : Update) : M Ret :=
  let tier := str_upper env (str_strip (default "" (text u))) in
  if negb (String.eqb tier "T1" || String.eqb tier "T2")
  then do reply_text u "Invalid. Reply with T1 or T2." in
       ret (Next S_TIER)
  else
    let uid := uid_of u in
    let* platform := ud_item u "platform" in
    let* post_url := ud_item u "post_url" in
    let* post_hash := ud_item u "post_hash" in
    let* ugc_code := ud_item u "ugc_code" in
    let* caption := ud_item u "caption" in
    let* proof_sha256 := ud_item u "proof_sha256" in
    (* Create submission *)
    let* created := now_utc in
    let* updated := now_utc in
    let submission :=
      {| s_id := new_id;
         s_user_id := uid;
         s_usernameLower := str_lower env (default "" (username (effective_user u)));
         s_platform := platform;
         s_post_url := post_url;
         s_post_hash := post_hash;
         s_ugc_code := ugc_code;
         s_caption := caption;
         s_proof_sha256 := proof_sha256;
         s_tier_claimed := tier;
         s_status := "submitted";
         s_created_at := created;
         s_updated_at := updated;
         s_metrics_proof_sha256 := None;
         s_validated_at := None |} in
    let* res := try_duplicate (insert_one submission) in
    match res with
    | None =>
        let* st := get_st in
        match find_one (same_post platform post_hash) (ugc_col st) with
        | None => raise TypeError            (* existing["_id"] on None *)
        | Some existing =>
            let ugc_id := str_oid (s_id existing) in
            do reply_text u (msg_duplicate ugc_id) in
            ret END
        end
    | Some inserted_id =>
        let ugc_id := str_oid inserted_id in
        (* Mark code used immediately (one code = one post). *)
        let* used_at := now_utc in
        do modify (with_code (update_one (has_code ugc_code) (consume_code used_at ugc_id))) in
        (* T1 auto-validate immediately (MVP) and create reward ledger *)
        if String.eqb tier "T1"
        then
          let* validated := now_utc in
          do modify (with_ugc (update_one (has_id inserted_id) (set_validated validated))) in
          do _create_reward_ledger uid ugc_id "T1" in
          do reply_text u (msg_validated_t1 ugc_id) in
          ret END
        else
          (* T2 requires metrics proof *)
          do reply_text u (msg_pending_t2 ugc_id) in
          ret END
    end.

Definition metrics_cmd (u : Update) : M Ret :=
  let* ok := must_dm u in
  if negb ok then ret END
  else
    match args u with
    | [] =>
        do reply_text u "Usage: /metrics <ugc_id>" in
        ret END
    | a :: _ =>
        let ugc_id := str_strip a in
        do ud_set u "metrics_ugc_id" ugc_id in
        do reply_text u "Upload ONE screenshot of the post metrics (photo)." in
        ret (Next S_METRICS_PROOF)
    end.

Definition metrics_got_proof (u : Update) : M Ret :=
  let* got := ud_get u "metrics_ugc_id" in
  match got with
  | None | Some EmptyString =>
      do reply_text u "Missing ugc_id. Use /metrics <ugc_id> again." in
      ret END
  | Some ugc_id =>
      match last (photo u) with
      | None =>
          do reply_text u "Please upload as a photo. Try again." in
          ret (Next S_METRICS_PROOF)
      | Some b =>
          let uid := uid_of u in
          (* ensure submission belongs to user *)
          let* o := _oid ugc_id in
          let* st := get_st in
          match find_one (owned_by o uid) (ugc_col st) with
          | None =>
              do reply_text u "UGC not found for your account." in
              ret END
          | Some sub =>
              let metrics_hash := sha256_bytes b in
              (* Validate T2 now (MVP: proof-based, no scraping) *)
              let* o' := _oid ugc_id in
              let* validated := now_utc in
              let* updated := now_utc in
              do modify (with_ugc (update_one (has_id o')
                                     (set_metrics metrics_hash validated updated))) in
              do _create_reward_ledger uid ugc_id "T2" in
              do reply_text u (msg_validated_t2 ugc_id) in
              ret END
          end
      end
  end.

Definition str_opt_time (t : option Time) : string :=
  match t with
  | None => "None"
  | Some x => str_datetime env x
  end.

Definition status_cmd (u : Update) : M Ret :=
  let* ok := must_dm u in
  if negb ok then ret RNone
  else
    match args u with
    | [] =>
        do reply_text u "Usage: /status <ugc_id>" in
        ret RNone
    | a :: _ =>
        let ugc_id := str_strip a in
        let* o := _oid ugc_id in
        let* st := get_st in
        match find_one (owned_by o (uid_of u)) (ugc_col st) with
        | None =>
            do reply_text u "Not found." in
            ret RNone
        | Some sub =>
            do reply_text u ("UGC " +:+ ugc_id +:+ nl +:+
                             "Platform: " +:+ s_platform sub +:+ nl +:+
                             "Tier: " +:+ s_tier_claimed sub +:+ nl +:+
                             "Status: " +:+ s_status sub +:+ nl +:+
                             "Validated: " +:+ str_opt_time (s_validated_at sub) +:+ nl +:+
                             "Tip: claim rewards in community bot using /claim") in
            ret RNone
        end
    end.

(** One update handled by one handler. *)
Inductive Event :=
| EvStart (u : Update)
| EvSubmit (u : Update)
| EvUrl (u : Update)
| EvCode (u : Update)
| EvCaption (u : Update)
| EvProof (u : Update)
| EvTier (new_id : ObjectId) (u : Update)
| EvMetrics (u : Update)
| EvMetricsProof (u : Update)
| EvStatus (u : Update).

Definition handle (e : Event) : M Ret :=
  match e with
  | EvStart u => start u
  | EvSubmit u => submit_cmd u
  | EvUrl u => submit_got_url u
  | EvCode u => submit_got_code u
  | EvCaption u => submit_got_caption u
  | EvProof u => submit_got_proof u
  | EvTier new_id u => submit_got_tier new_id u
  | EvMetrics u => metrics_cmd u
  | EvMetricsProof u => metrics_got_proof u
  | EvStatus u => status_cmd u
  end.

(** The state after an update, whether its handler returned or raised. *)
Definition step (st : St) (e : Event) : St := snd (handle e st).

Definition run (es : list Event) (st : St) : St := fold_left step es st.

End Handlers.

(* ===================================================================== *)
(** ** Auxiliary definitions used in the statements *)
(* ===================================================================== *)

(** A call of the ledger grant: user, submission id, tier. *)
Definition Call : Type := Z * string * string.

Definition call_key (c : Call) : string * string := (snd (fst c), snd c).

Definition grant (env : Env) (c : Call) (st : St) : St :=
  snd (_create_reward_ledger env (fst (fst c)) (snd (fst c)) (snd c) st).

Definition grants (env : Env) (cs : list Call) (st : St) : St :=
  fold_left (fun s c => grant env c s) cs st.

(** The same character, or the same ASCII letter in the other case. *)
Definition same_letter (c d : ascii) : bool :=
  Ascii.eqb c d
  || (is_upper c && (code d =? code c + 32))
  || (is_lower c && (code d =? code c - 32)).

(** Two texts that differ in letter case only. *)
Fixpoint case_variant (s t : string) : bool :=
  match s, t with
  | EmptyString, EmptyString => true
  | String c r, String d r' => same_letter c d && case_variant r r'
  | _, _ => false
  end.

(** The text ends in a white-space character. *)
Fixpoint ends_space (s : string) : bool :=
  match s with
  | EmptyString => false
  | String c EmptyString => is_space c
  | String _ r => ends_space r
  end.

(** The tier token [submit_got_tier] reads from the message. *)
Definition tier_of (env : Env) (u : Update) : string :=
  str_upper env (str_strip (default "" (text u))).

(** The six staged fields [submit_got_tier] reads from [context.user_data]. *)
Record Staged := {
  d_platform : string;
  d_post_url : string;
  d_post_hash : string;
  d_ugc_code : string;
  d_caption : string;
  d_proof_sha256 : string
}.

Definition has_draft (u : Update) (st : St) (d : Staged) : Prop :=
  user_data u st !! "platform" = Some (d_platform d) /\
  user_data u st !! "post_url" = Some (d_post_url d) /\
  user_data u st !! "post_hash" = Some (d_post_hash d) /\
  user_data u st !! "ugc_code" = Some (d_ugc_code d) /\
  user_data u st !! "caption" = Some (d_caption d) /\
  user_data u st !! "proof_sha256" = Some (d_proof_sha256 d).

(** The document a commit tries to insert when the clock has been read
    [n] times. *)
Definition submission_doc (env : Env) (new_id : ObjectId) (u : Update)
    (d : Staged) (tier : string) (n : nat) : Submission :=
  {| s_id := new_id;
     s_user_id := uid_of u;
     s_usernameLower := str_lower env (default "" (username (effective_user u)));
     s_platform := d_platform d;
     s_post_url := d_post_url d;
     s_post_hash := d_post_hash d;
     s_ugc_code := d_ugc_code d;
     s_caption := d_caption d;
     s_proof_sha256 := d_proof_sha256 d;
     s_tier_claimed := tier;
     s_status := "submitted";
     s_created_at := clock env n;
     s_updated_at := clock env (S n);
     s_metrics_proof_sha256 := None;
     s_validated_at := None |}.

(** The ledger entry refers to the submission with id [o]. *)
Definition refers_to (o : ObjectId) (e : LedgerEntry) : bool :=
  match parse_oid (l_ugc_id e) with
  | Some o' => oid_eqb o' o
  | None => false
  end.

(** The update is a metrics photo that gets attached to submission [o]:
    it is handled by [metrics_got_proof], carries a photo, the id staged
    by [/metrics] denotes [o], and [o] belongs to the sender. *)
Definition attaches_metrics (o : ObjectId) (st : St) (e : Event) : bool :=
  match e with
  | EvMetricsProof u =>
      match user_data u st !! "metrics_ugc_id" with
      | Some s =>
          match parse_oid s, photo u with
          | Some o', _ :: _ =>
              oid_eqb o' o && existsb (owned_by o (uid_of u)) (ugc_col st)
          | _, _ => false
          end
      | None => false
      end
  | _ => false
  end.

(** No update of the run attaches a metrics photo to [o]. *)
Fixpoint quiet (env : Env) (o : ObjectId) (es : list Event) (st : St) : Prop :=
  match es with
  | [] => True
  | e :: r => attaches_metrics o st e = false /\ quiet env o r (step env st e)
  end.

(** Ids drawn by the driver are well formed. *)
Definition event_ok (e : Event) : Prop :=
  match e with
  | EvTier new_id _ => oid_valid new_id = true
  | _ => True
  end.

(** The three collections are the same in both states. *)
Definition same_store (st st' : St) : Prop :=
  ugc_col st' = ugc_col st /\ code_col st' = code_col st /\
  ledger_col st' = ledger_col st.

(** The sender may use the bot in this chat. *)
Definition dm_ok (u : Update) : bool :=
  match effective_chat u with
  | Some t => is_private t
  | None => true
  end.

(** The entry a grant writes when the clock has been read [n] times. *)
Definition ledger_doc (env : Env) (uid : Z) (ugc_id tier : string) (n : nat)
    : LedgerEntry :=
  {| l_user_id := uid;
     l_ugc_id := ugc_id;
     l_tier := tier;
     l_amount := if String.eqb tier "T1" then 1 else 5;
     l_drop_id := if String.eqb tier "T1" then T1_DROP_ID env else T2_DROP_ID env;
     l_status := "pending_claim";
     l_created_at := clock env n;
     l_claimable_after := clock env (S n);
     l_claimed_at := None;
     l_voucher_code := None |}.

(** What one update does to the three collections: nothing; or a commit
    that inserts a submission, consumes its code and, for T1, validates it
    and grants the T1 entry; or a metrics photo attached to an owned
    submission, which validates it and grants the T2 entry. *)
Inductive Effect (env : Env) (st st' : St) : Event -> Prop :=
| eff_none e :
    same_store st st' -> Effect env st st' e
| eff_commit new_id u d t :
    has_draft u st d ->
    tier_of env u = t -> t = "T1" \/ t = "T2" ->
    existsb (ugc_conflict (submission_doc env new_id u d t (ticks st))) (ugc_col st)
      = false ->
    ugc_col st' =
      ugc_col st ++
      [if String.eqb t "T1"
       then set_validated (clock env (3 + ticks st)%nat)
                          (submission_doc env new_id u d t (ticks st))
       else submission_doc env new_id u d t (ticks st)] ->
    code_col st' =
      update_one (has_code (d_ugc_code d))
        (consume_code (clock env (2 + ticks st)%nat) (str_oid new_id)) (code_col st) ->
    ledger_col st' =
      (if String.eqb t "T1"
       then upsert_on_insert (ledger_key (str_oid new_id) "T1")
              (ledger_doc env (uid_of u) (str_oid new_id) "T1" (4 + ticks st)%nat)
              (ledger_col st)
       else ledger_col st) ->
    Effect env st st' (EvTier new_id u)
| eff_attach u s o b x :
    user_data u st !! "metrics_ugc_id" = Some s ->
    parse_oid s = Some o ->
    last (photo u) = Some b ->
    find_one (owned_by o (uid_of u)) (ugc_col st) = Some x ->
    ugc_col st' =
      update_one (has_id o)
        (set_metrics (sha256_bytes b) (clock env (ticks st)) (clock env (S (ticks st))))
        (ugc_col st) ->
    code_col st' = code_col st ->
    ledger_col st' =
      upsert_on_insert (ledger_key s "T2")
        (ledger_doc env (uid_of u) s "T2" (2 + ticks st)%nat) (ledger_col st) ->
    Effect env st st' (EvMetricsProof u).

(** The id of the stored submission for a (platform, fingerprint) key. *)
Definition post_id (platform post_hash : string) (col : list Submission)
    : option ObjectId :=
  option_map s_id (find_one (same_post platform post_hash) col).

(** A text given line by line. *)
Fixpoint lines (l : list string) : string :=
  match l with
  | [] => EmptyString
  | [x] => x
  | x :: r => x +:+ String "010" (lines r)
  end.

(** The reply is one of the three that end a commit, carrying id [i]:
    the duplicate notice, the T1 confirmation or the T2 confirmation. *)
Definition commit_reply (i : ObjectId) (m : string) : Prop :=
  m = lines ["This post was already submitted.";
             "UGC ID: " +:+ str_oid i;
             "Use /status " +:+ str_oid i] \/
  m = lines ["✅ Submitted & validated (T1).";
             "UGC ID: " +:+ str_oid i;
             "";
             "Claim in community bot: /claim"] \/
  m = lines ["✅ Submitted (T2 pending metrics).";
             "UGC ID: " +:+ str_oid i;
             "";
             "Now upload metrics proof:";
             "/metrics " +:+ str_oid i;
             "(Send a screenshot of views/likes/comments/shares.)"].

(** Submissions of a user created within the 24 hours (86400000 ms) that
    end at [now]. *)
Definition submissions_in_last_day (uid : Z) (now : Time) (col : list Submission)
    : Z :=
  Z.of_nat (length (filter (fun x => s_user_id x = uid /\ now - 86400000 <= s_created_at x) col)).

(* ===================================================================== *)
(** ** Store invariants *)
(* ===================================================================== *)

(** The key of the unique index [uq_ugc_platform_posthash]. *)
Definition post_key (x : Submission) : string * string :=
  (s_platform x, s_post_hash x).

(** The key of the unique index [uq_reward_ugc_tier]. *)
Definition entry_key (e : LedgerEntry) : string * string :=
  (l_ugc_id e, l_tier e).

(** Both unique indexes of [ugc_submissions] hold. *)
Definition ugc_indexes_ok (col : list Submission) : Prop :=
  NoDup (map s_id col) /\ NoDup (map post_key col).

(** The unique index of [reward_ledger] holds. *)
Definition ledger_index_ok (col : list LedgerEntry) : Prop :=
  NoDup (map entry_key col).

(** A later version of a stored submission: everything the commit wrote
    but status, update time, validation time and metrics fingerprint is
    the same, and what was validated or stamped stays so. *)
Definition evolves (x x' : Submission) : Prop :=
  s_id x' = s_id x /\ s_user_id x' = s_user_id x /\
  s_usernameLower x' = s_usernameLower x /\
  s_platform x' = s_platform x /\ s_post_url x' = s_post_url x /\
  s_post_hash x' = s_post_hash x /\ s_ugc_code x' = s_ugc_code x /\
  s_caption x' = s_caption x /\ s_proof_sha256 x' = s_proof_sha256 x /\
  s_tier_claimed x' = s_tier_claimed x /\ s_created_at x' = s_created_at x /\
  (s_status x = "validated" -> s_status x' = "validated") /\
  (s_validated_at x <> None -> s_validated_at x' <> None) /\
  (s_metrics_proof_sha256 x <> None -> s_metrics_proof_sha256 x' <> None).

(** A later version of a code record: same code, same binding, and a
    used code is still used. *)
Definition code_evolves (c c' : CodeDoc) : Prop :=
  c_code c' = c_code c /\ c_user_id c' = c_user_id c /\
  (c_status c = Some "used" -> c_status c' = Some "used").

(** A ledger entry as this program writes them: the amount and pool of
    its tier, for a stored submission that belongs to the rewarded user. *)
Definition entry_sound (env : Env) (ugc : list Submission) (e : LedgerEntry) : Prop :=
  ((l_tier e = "T1" /\ l_amount e = 1 /\ l_drop_id e = T1_DROP_ID env) \/
   (l_tier e = "T2" /\ l_amount e = 5 /\ l_drop_id e = T2_DROP_ID env)) /\
  l_status e = "pending_claim" /\
  exists x, In x ugc /\ refers_to (s_id x) e = true /\ s_user_id x = l_user_id e.

(** Every ledger entry is as this program writes them. *)
Definition ledger_sound (env : Env) (st : St) : Prop :=
  Forall (entry_sound env (ugc_col st)) (ledger_col st).

(** The user an update comes from. *)
Definition sender (e : Event) : Z :=
  match e with
  | EvStart u | EvSubmit u | EvUrl u | EvCode u | EvCaption u | EvProof u
  | EvTier _ u | EvMetrics u | EvMetricsProof u | EvStatus u => uid_of u
  end.

(** Updates of the staging steps and of the commands: all but the commit
    and the metrics photo. *)
Definition is_staging (e : Event) : bool :=
  match e with
  | EvTier _ _ | EvMetricsProof _ => false
  | _ => true
  end.

(** The report [status_cmd] sends for a submission (the f-string of the
    source). *)
Definition msg_status (env : Env) (ugc_id : string) (sub : Submission) : string :=
  "UGC " +:+ ugc_id +:+ nl +:+
  "Platform: " +:+ s_platform sub +:+ nl +:+
  "Tier: " +:+ s_tier_claimed sub +:+ nl +:+
  "Status: " +:+ s_status sub +:+ nl +:+
  "Validated: " +:+ str_opt_time env (s_validated_at sub) +:+ nl +:+
  "Tip: claim rewards in community bot using /claim".

(** The data staged for the sender of [u]. *)
Definition staged_for (v : Z) (st : St) : gmap string string :=
  default ∅ (sessions st !! v).

(** The reply [must_dm] sends outside a private chat. *)
Definition msg_dm_only : string :=
  "DM me to submit/claim UGC proof. (Open this bot in private chat.)".

(** The state [st] with one more reply [m] to the sender of [u]. *)
Definition replied (u : Update) (m : string) (st : St) : St :=
  with_outbox (fun o => o ++ [(uid_of u, m)]) st.

(** The update reaches a step of a conversation and makes it ask again:
    the handler returns the state it was entered in. *)
Definition asks_again (env : Env) (st : St) (e : Event) : bool :=
  match e, fst (handle env e st) with
  | EvUrl _, Ok (Next S_PLATFORM_URL)
  | EvCode _, Ok (Next S_CODE)
  | EvCaption _, Ok (Next S_CAPTION)
  | EvProof _, Ok (Next S_PROOF)
  | EvTier _ _, Ok (Next S_TIER)
  | EvMetricsProof _, Ok (Next S_METRICS_PROOF) => true
  | _, _ => false
  end.

(** Every update of the run makes its step ask again. *)
Fixpoint all_ask_again (env : Env) (es : list Event) (st : St) : Prop :=
  match es with
  | [] => True
  | e :: r => asks_again env st e = true /\ all_ask_again env r (step env st e)
  end.

(** The update comes from a chat that is not a private one. *)
Definition in_group (u : Update) : bool :=
  match effective_chat u with
  | Some t => negb (is_private t)
  | None => false
  end.

(* ===================================================================== *)
(** ** A concrete scenario *)
(* ===================================================================== *)

(** The end-to-end scenario: Alice (user 7) holds code [C1], Bob (user 8)
    code [C2]; both stage the same TikTok post, Alice with a fragment,
    Bob in another letter case. *)
Module Scenario.

Definition env : Env :=
  {| T1_DROP_ID := "drop-1usd";
     T2_DROP_ID := "drop-5usd";
     MAX_SUBMISSIONS_PER_DAY := 20;
     clock := fun n => 1700000000000 + Z.of_nat n;
     str_datetime := fun _ => "2023-11-14 22:13:20";
     (* the text of the scenario is ASCII: these two are not consulted *)
     unicode_lower := fun s => s;
     unicode_upper := fun s => s |}.

Definition alice : User := {| user_id := 7; username := Some "Alice" |}.
Definition bob : User := {| user_id := 8; username := None |}.

Definition says (who : User) (t : string) : Update :=
  {| effective_chat := Some PRIVATE; effective_user := who;
     text := Some t; photo := []; args := [] |}.

Definition sends_photo (who : User) (bytes : string) : Update :=
  {| effective_chat := Some PRIVATE; effective_user := who;
     text := None; photo := [bytes]; args := [] |}.

Definition commands (who : User) (arguments : list string) : Update :=
  {| effective_chat := Some PRIVATE; effective_user := who;
     text := None; photo := []; args := arguments |}.

Definition code_for (c : string) (who : User) : CodeDoc :=
  {| c_code := c; c_user_id := Some (user_id who); c_status := Some "unused";
     c_used_at := None; c_ugc_id := None |}.

Definition st0 : St :=
  {| ugc_col := []; code_col := [code_for "C1" alice; code_for "C2" bob];
     ledger_col := []; ticks := 0; outbox := []; sessions := ∅ |}.

Definition id1 : ObjectId := Oid "65a1b2c3d4e5f60718293a01".
Definition id2 : ObjectId := Oid "65a1b2c3d4e5f60718293a02".

Definition staging (who : User) (url code : string) : list Event :=
  [EvSubmit (commands who []);
   EvUrl (says who url);
   EvCode (says who code);
   EvCaption (says who "check this out!!");
   EvProof (sends_photo who "screenshot")].

Definition the_post_hash : string :=
  Eval vm_compute in fingerprintURL env "tt" "https://tiktok.com/@x/video/1".
Definition the_proof_hash : string := Eval vm_compute in sha256_bytes "screenshot".

Definition draft (url code : string) : Staged :=
  {| d_platform := "tt";
     d_post_url := url;
     d_post_hash := the_post_hash;
     d_ugc_code := code;
     d_caption := "check this out!!";
     d_proof_sha256 := the_proof_hash |}.

Definition alice_draft : Staged := draft "https://tiktok.com/@x/video/1" "C1".
Definition bob_draft : Staged := draft "HTTPS://TikTok.com/@x/video/1" "C2".

(** Alice has staged her draft. *)
Definition st_staged : St :=
  Eval vm_compute in
    run env (staging alice "https://tiktok.com/@x/video/1#comment" "C1") st0.

(** Alice has committed it as T1. *)
Definition st_committed : St :=
  Eval vm_compute in step env st_staged (EvTier id1 (says alice "T1")).

(** Bob's staging of the same post, after Alice's commit. *)
Definition bob_staging : list Event :=
  staging bob "HTTPS://TikTok.com/@x/video/1" "C2".


(** Alice has asked to attach metrics to her submission. *)
Definition st_metrics : St :=
  Eval vm_compute in step env st_committed (EvMetrics (commands alice [str_oid id1])).

(** Alice sends the metrics photo, then asks again with the same id
    spelled in capitals and sends another photo. *)
Definition metrics_twice : list Event :=
  [EvMetricsProof (sends_photo alice "metrics");
   EvMetrics (commands alice ["65A1B2C3D4E5F60718293A01"]);
   EvMetricsProof (sends_photo alice "metrics again")].

(** Alice's submission as stored by her commit. *)
Definition alice_record : Submission :=
  Eval vm_compute in
    set_validated (clock env 4)
      (submission_doc env id1 (says alice "T1") alice_draft "T1" 1).

End Scenario.

(* ===================================================================== *)
(** ** The scenario, continued *)
(* ===================================================================== *)

(** Further updates and states of the scenario: a group chat, other
    users' updates between Alice's staging steps, and Alice's metrics
    asked for under the capital spelling of her id. *)
Module Walkthrough.

Import Scenario.

(** The day after Alice's submission was created, to the millisecond,
    with a limit of one submission a day. *)
Definition env_next_day : Env :=
  {| T1_DROP_ID := T1_DROP_ID env;
     T2_DROP_ID := T2_DROP_ID env;
     MAX_SUBMISSIONS_PER_DAY := 1;
     clock := fun n => 1700086400001 + Z.of_nat n;
     str_datetime := str_datetime env;
     unicode_lower := unicode_lower env;
     unicode_upper := unicode_upper env |}.

(** [/status abc] sent by Alice in a group. *)
Definition in_a_group : Update :=
  {| effective_chat := Some SUPERGROUP; effective_user := alice;
     text := None; photo := []; args := ["abc"] |}.

(** What Bob does while Alice stages. *)
Definition bob_starts : list Event := [EvStart (commands bob [])].
Definition bob_sends_link : list Event :=
  [EvSubmit (commands bob []); EvUrl (says bob "https://fb.watch/abc")].

(** Bob's whole submission of the post, after Alice's. *)
Definition bob_commits : list Event := bob_staging ++ [EvTier id2 (says bob "t2")].

(** Alice asks for metrics and sends the photo. *)
Definition alice_metrics : list Event :=
  [EvMetrics (commands alice [str_oid id1]);
   EvMetricsProof (sends_photo alice "metrics")].

(** Six inputs of Alice that are each refused: a link of no known
    platform, an unknown code, a caption of three code points (two
    ideographs and an exclamation mark, seven bytes), text where a photo
    is due twice, and a tier that does not exist. *)
Definition alice_fumbles : list Event :=
  [EvUrl (says alice "https://example.com/post/1");
   EvCode (says alice "C9");
   EvCaption (says alice (utf8 22909 +:+ utf8 30475 +:+ "!"));
   EvProof (says alice "see attachment");
   EvTier id2 (says alice "T3");
   EvMetricsProof (says alice "see attachment")].

(** Alice has her T2 entry and has asked again in capitals. *)
Definition st_respelled : St :=
  Eval vm_compute in
    run env [EvMetricsProof (sends_photo alice "metrics");
             EvMetrics (commands alice ["65A1B2C3D4E5F60718293A01"])] st_metrics.

(** Her record and her T2 entry by then. *)
Definition alice_validated : Submission :=
  Eval vm_compute in
    default alice_record (find_one (has_id id1) (ugc_col st_respelled)).

Definition alice_t2_entry : LedgerEntry :=
  Eval vm_compute in
    default (ledger_doc env 7 (str_oid id1) "T2" 0) (last (ledger_col st_respelled)).

End Walkthrough.

(* ===================================================================== *)
(** ** SHA-256 test vectors *)
(* ===================================================================== *)

Example sha256_empty :
  sha256_str "" = "e3b0c44298fc1c149afbf4c8996fb92427ae41e4649b934ca495991b7852b855".
Proof. vm_compute. reflexivity. Qed.

Example sha256_abc :
  sha256_str "abc" = "ba7816bf8f01cfea414140de5dae2223b00361a396177a9cb410ff61f20015ad".
Proof. vm_compute. reflexivity. Qed.

Example sha256_two_blocks :
  sha256_str "aaaaaaaaaaaaaaaaaaaaaaaaaaaaaaaaaaaaaaaaaaaaaaaaaaaaaaaa"
  = "b35439a4ac6f0948b6d6f9e3c6af0f5f590ce20f1bde7090ef7970686ec6738a".
Proof. vm_compute. reflexivity. Qed.

(* ===================================================================== *)
(** ** The reward ledger *)
(* ===================================================================== *)

Section Ledger.

Variable env : Env.

Lemma existsb_filter_nil {A} (p : A -> bool) (l : list A) :
  existsb p l = false <-> List.filter p l = [].
Proof.
  induction l as [|x l IH]; simpl; [tauto|].
  destruct (p x); simpl; [split; discriminate | exact IH].
Qed.

Lemma ledger_after_grant uid ugc_id tier st :
  exists e,
    ledger_col (snd (_create_reward_ledger env uid ugc_id tier st))
      = upsert_on_insert (ledger_key ugc_id tier) e (ledger_col st) /\
    l_user_id e = uid /\ l_ugc_id e = ugc_id /\ l_tier e = tier /\
    l_status e = "pending_claim" /\
    l_amount e = (if String.eqb tier "T1" then 1 else 5) /\
    l_drop_id e = (if String.eqb tier "T1" then T1_DROP_ID env else T2_DROP_ID env) /\
    l_created_at e = clock env (ticks st) /\
    l_claimable_after e = clock env (S (ticks st)) /\
    l_claimed_at e = None /\ l_voucher_code e = None.
Proof. eexists; repeat split. Qed.

Lemma ledger_key_self e : ledger_key (l_ugc_id e) (l_tier e) e = true.
Proof. unfold ledger_key. now rewrite !String.eqb_refl. Qed.

Lemma ledger_key_other k t k' t' e :
  (k', t') <> (k, t) -> ledger_key k' t' e = true -> ledger_key k t e = false.
Proof.
  unfold ledger_key; intros Hne H.
  apply andb_true_iff in H as [H1 H2].
  apply String.eqb_eq in H1, H2. subst.
  apply andb_false_iff.
  destruct (String.eqb_spec (l_ugc_id e) k); [|now left].
  destruct (String.eqb_spec (l_tier e) t); [|now right].
  subst; contradiction.
Qed.

(** A grant for another key does not change what is recorded for a key. *)
Lemma filter_grant_other k t (c : Call) st :
  call_key c <> (k, t) ->
  List.filter (ledger_key k t) (ledger_col (grant env c st))
  = List.filter (ledger_key k t) (ledger_col st).
Proof.
  destruct c as [[uid k'] t']; unfold call_key, grant; cbn [fst snd]; intros Hne.
  destruct (ledger_after_grant uid k' t' st) as (e & -> & _ & Hk & Ht & _).
  unfold upsert_on_insert.
  destruct (existsb _ _); [reflexivity|].
  rewrite List.filter_app; simpl.
  rewrite (ledger_key_other k t k' t' e Hne).
  - now rewrite app_nil_r.
  - rewrite <- Hk, <- Ht. apply ledger_key_self.
Qed.

(** A grant for a key that has an entry leaves the whole ledger as it is. *)
Lemma grant_present uid k t st :
  existsb (ledger_key k t) (ledger_col st) = true ->
  ledger_col (snd (_create_reward_ledger env uid k t st)) = ledger_col st.
Proof.
  intros H. destruct (ledger_after_grant uid k t st) as (e & -> & _).
  unfold upsert_on_insert. now rewrite H.
Qed.

Lemma filter_grant_present k t (c : Call) st :
  List.filter (ledger_key k t) (ledger_col st) <> [] ->
  List.filter (ledger_key k t) (ledger_col (grant env c st))
  = List.filter (ledger_key k t) (ledger_col st).
Proof.
  intros Hne.
  destruct (decide (call_key c = (k, t))) as [Heq|Hd].
  - destruct c as [[uid k'] t']; unfold call_key in Heq; cbn [fst snd] in Heq.
    injection Heq as -> ->. unfold grant; cbn [fst snd].
    rewrite grant_present; [reflexivity|].
    destruct (existsb _ _) eqn:E; [reflexivity|].
    now apply existsb_filter_nil in E.
  - now apply filter_grant_other.
Qed.

Lemma filter_grants_present k t cs : forall st,
  List.filter (ledger_key k t) (ledger_col st) <> [] ->
  List.filter (ledger_key k t) (ledger_col (grants env cs st))
  = List.filter (ledger_key k t) (ledger_col st).
Proof.
  induction cs as [|c cs IH]; intros st Hne; [reflexivity|].
  unfold grants in *; simpl.
  rewrite IH; rewrite filter_grant_present; auto.
Qed.

Lemma filter_grants_other k t cs : forall st,
  Forall (fun c => call_key c <> (k, t)) cs ->
  List.filter (ledger_key k t) (ledger_col (grants env cs st))
  = List.filter (ledger_key k t) (ledger_col st).
Proof.
  induction cs as [|c cs IH]; intros st Hall; [reflexivity|].
  inversion Hall; subst.
  unfold grants in *; simpl.
  rewrite IH by assumption. now apply filter_grant_other.
Qed.

(** C1.  Ledger grants are idempotent per (submission id, tier).  From a
    ledger without an entry for the key, let any grants for other keys
    run, then the first grant for the key, then any further grants (for
    this key, by whichever user, or for others, in any order).  The first
    grant appends one entry: status [pending_claim], amount 1 and the T1
    pool for tier T1, amount 5 and the T2 pool for tier T2, creation and
    earliest-claim times the two clock readings taken by that call, no
    claim time.  After all the later grants that entry is still the only
    one for the key, and a grant for a key that has an entry leaves the
    ledger as it is. *)
Theorem reward_ledger_idempotent (uid : Z) (ugc_id tier : string)
    (pre post : list Call) (st : St) :
  existsb (ledger_key ugc_id tier) (ledger_col st) = false ->
  Forall (fun c => call_key c <> (ugc_id, tier)) pre ->
  let st1 := grants env pre st in
  let st2 := snd (_create_reward_ledger env uid ugc_id tier st1) in
  let st3 := grants env post st2 in
  exists e : LedgerEntry,
    ledger_col st2 = ledger_col st1 ++ [e] /\
    l_user_id e = uid /\ l_ugc_id e = ugc_id /\ l_tier e = tier /\
    l_status e = "pending_claim" /\
    (tier = "T1" -> l_amount e = 1 /\ l_drop_id e = T1_DROP_ID env) /\
    (tier = "T2" -> l_amount e = 5 /\ l_drop_id e = T2_DROP_ID env) /\
    l_created_at e = clock env (ticks st1) /\
    l_claimable_after e = clock env (S (ticks st1)) /\
    l_claimed_at e = None /\
    List.filter (ledger_key ugc_id tier) (ledger_col st3) = [e] /\
    (forall uid' st',
        existsb (ledger_key ugc_id tier) (ledger_col st') = true ->
        ledger_col (snd (_create_reward_ledger env uid' ugc_id tier st'))
        = ledger_col st').
Proof.
  intros Hfresh Hpre st1 st2 st3.
  assert (Hnone : List.filter (ledger_key ugc_id tier) (ledger_col st1) = []).
  { subst st1. rewrite filter_grants_other by assumption.
    now apply existsb_filter_nil. }
  destruct (ledger_after_grant uid ugc_id tier st1)
    as (e & Hl & Hu & Hk & Ht & Hs & Ha & Hd & Hc & Hca & Hcl & _).
  fold st2 in Hl.
  assert (Hl' : ledger_col st2 = ledger_col st1 ++ [e]).
  { rewrite Hl. unfold upsert_on_insert.
    apply existsb_filter_nil in Hnone. now rewrite Hnone. }
  assert (H2 : List.filter (ledger_key ugc_id tier) (ledger_col st2) = [e]).
  { rewrite Hl', List.filter_app, Hnone; simpl.
    rewrite <- Hk, <- Ht at 1. now rewrite ledger_key_self. }
  exists e.
  repeat match goal with |- _ /\ _ => split end; try assumption.
  - rewrite Ha, Hd. now intros ->.
  - rewrite Ha, Hd. now intros ->.
  - subst st3. rewrite filter_grants_present; rewrite H2; [reflexivity|discriminate].
  - intros uid' st'. apply grant_present.
Qed.

End Ledger.

(* ===================================================================== *)
(** ** Fingerprinting: normalization absorbs padding, fragment and case *)
(* ===================================================================== *)

Section Fingerprint.

Variable env : Env.

Ltac zbool :=
  repeat match goal with
         | |- context [?a <=? ?b] => destruct (Z.leb_spec a b)
         | |- context [?a =? ?b] => destruct (Z.eqb_spec a b)
         | H : context [?a <=? ?b] |- _ => destruct (Z.leb_spec a b)
         | H : context [?a =? ?b] |- _ => destruct (Z.eqb_spec a b)
         end; simpl in *; try discriminate; try lia; try reflexivity.

Lemma ascii_of_code c : ascii_of_N (Z.to_N (code c)) = c.
Proof. unfold code. rewrite N2Z.id. apply ascii_N_embedding. Qed.



Lemma eqb_code c d : Ascii.eqb c d = true -> code c = code d.
Proof. intros H. apply Ascii.eqb_eq in H. now subst. Qed.

Lemma same_letter_cases c d :
  same_letter c d = true ->
  c = d \/ (65 <= code c <= 90 /\ code d = code c + 32)
        \/ (97 <= code c <= 122 /\ code d = code c - 32).
Proof.
  unfold same_letter, is_upper, is_lower.
  destruct (Ascii.eqb_spec c d); [now left|]. simpl. intros H.
  right. apply orb_true_iff in H as [H|H];
    apply andb_true_iff in H as [H1 H2];
    apply andb_true_iff in H1 as [Ha Hb];
    apply Z.leb_le in Ha, Hb; apply Z.eqb_eq in H2; [left|right]; lia.
Qed.















Lemma rstrip_cons c r :
  rstrip (String c r) = if all_space (String c r) then EmptyString else String c (rstrip r).
Proof. reflexivity. Qed.



Lemma lstrip_all_space s : all_space s = true -> lstrip s = EmptyString.
Proof.
  induction s as [|c r IH]; simpl; [reflexivity|].
  intros H. apply andb_true_iff in H as [H1 H2]. rewrite H1. now apply IH.
Qed.







Lemma ends_space_cons c r :
  r <> EmptyString -> ends_space (String c r) = ends_space r.
Proof. destruct r; [congruence|reflexivity]. Qed.

Lemma all_space_ends s :
  s <> EmptyString -> all_space s = true -> ends_space s = true.
Proof.
  induction s as [|c r IH]; [congruence|]. intros _ H.
  simpl in H. apply andb_true_iff in H as [H1 H2].
  destruct r as [|d r']; [exact H1|].
  rewrite ends_space_cons by discriminate. now apply IH.
Qed.

Lemma rstrip_no_ends_space s : ends_space s = false -> rstrip s = s.
Proof.
  induction s as [|c r IH]; [reflexivity|]. intros H.
  rewrite rstrip_cons.
  destruct (all_space (String c r)) eqn:E.
  - rewrite all_space_ends in H; [discriminate|discriminate|assumption].
  - destruct r as [|d r']; [reflexivity|].
    rewrite ends_space_cons in H by discriminate. now rewrite IH.
Qed.








(** Plain ASCII text: no byte starts a longer white space, so that
    [str.strip] is [strip], and the case mappings are the ASCII ones. *)
Lemma white_ascii a b c :
  code a < 128 -> white2 a b = false /\ white3 a b c = false.
Proof.
  destruct a as [[] [] [] [] [] [] [] []]; intros H;
    first [ vm_compute in H; discriminate | split; vm_compute; reflexivity ].
Qed.

Lemma is_ascii_cons c r :
  is_ascii (String c r) = true -> code c < 128 /\ is_ascii r = true.
Proof.
  simpl. intros H. apply andb_true_iff in H as [H1 H2].
  apply Z.ltb_lt in H1. now split.
Qed.



Lemma str_lstrip_ascii s : is_ascii s = true -> str_lstrip s = lstrip s.
Proof.
  induction s as [|a r IH]; [reflexivity|]. intros H.
  apply is_ascii_cons in H as [Ha Hr]. simpl.
  destruct (is_space a); [now apply IH|].
  destruct r as [|b r2]; [reflexivity|].
  rewrite (proj1 (white_ascii a b b Ha)).
  destruct r2 as [|c r3]; [reflexivity|].
  now rewrite (proj2 (white_ascii a b c Ha)).
Qed.

Lemma lstrip_empty s : lstrip s = EmptyString -> all_space s = true.
Proof.
  induction s as [|c r IH]; simpl; [reflexivity|].
  destruct (is_space c); [exact IH|discriminate].
Qed.

Lemma all_white_ascii s : is_ascii s = true -> all_white s = all_space s.
Proof.
  intros H. unfold all_white. rewrite (str_lstrip_ascii s H).
  destruct (all_space s) eqn:E.
  - now rewrite (lstrip_all_space s E).
  - destruct (lstrip s) eqn:El; [|reflexivity].
    apply lstrip_empty in El. congruence.
Qed.

Lemma str_rstrip_ascii s : is_ascii s = true -> str_rstrip s = rstrip s.
Proof.
  induction s as [|c r IH]; [reflexivity|]. intros H.
  rewrite rstrip_cons. cbn [str_rstrip]. rewrite (all_white_ascii _ H).
  apply is_ascii_cons in H as [_ Hr]. now rewrite (IH Hr).
Qed.

Lemma is_ascii_lstrip s : is_ascii s = true -> is_ascii (lstrip s) = true.
Proof.
  induction s as [|c r IH]; [reflexivity|]. intros H. simpl.
  destruct (is_space c); [|exact H].
  apply is_ascii_cons in H as [_ Hr]. now apply IH.
Qed.


Lemma str_strip_ascii s : is_ascii s = true -> str_strip s = strip s.
Proof.
  intros H. unfold str_strip, strip. rewrite (str_lstrip_ascii s H).
  apply str_rstrip_ascii. now apply is_ascii_lstrip.
Qed.





Lemma str_upper_ascii s : is_ascii s = true -> str_upper env s = upper s.
Proof. intros H. unfold str_upper. now rewrite H. Qed.






Lemma case_variant_sym s : forall t, case_variant s t = true -> case_variant t s = true.
Proof.
  induction s as [|c r IH]; intros [|d r'] H; simpl in H; try discriminate; [reflexivity|].
  apply andb_true_iff in H as [H1 H2]. simpl. rewrite (IH r' H2), andb_true_r.
  apply same_letter_cases in H1 as [->|[[Hc Hd]|[Hc Hd]]].
  - unfold same_letter. now rewrite Ascii.eqb_refl.
  - unfold same_letter, is_upper, is_lower.
    replace ((97 <=? code d) && (code d <=? 122)) with true by (symmetry; zbool).
    replace (code c =? code d - 32) with true by (symmetry; zbool).
    now rewrite orb_true_r.
  - unfold same_letter, is_upper, is_lower.
    replace ((65 <=? code d) && (code d <=? 90)) with true by (symmetry; zbool).
    replace (code c =? code d + 32) with true by (symmetry; zbool).
    simpl. now rewrite orb_true_r.
Qed.

End Fingerprint.

(* ===================================================================== *)
(** ** Running the handlers *)
(* ===================================================================== *)

Ltac mrun :=
  cbv [bind ret raise modify get_st reply_text ud_set ud_get ud_item now_utc
       try_duplicate insert_one _create_reward_ledger _oid _daily_submission_count
       validate_code must_dm];
  cbn [fst snd ugc_col code_col ledger_col ticks outbox sessions
       with_ugc with_code with_ledger with_ticks with_outbox with_sessions].

Lemma same_store_refl st : same_store st st.
Proof. now repeat split. Qed.

Lemma find_one_none_existsb {A} (p : A -> bool) col :
  find_one p col = None <-> existsb p col = false.
Proof.
  unfold find_one. induction col as [|x r IH]; simpl; [tauto|].
  destruct (p x); simpl; [split; discriminate|exact IH].
Qed.

Lemma find_one_some_existsb {A} (p : A -> bool) col :
  existsb p col = true -> exists x, find_one p col = Some x /\ p x = true.
Proof.
  unfold find_one. induction col as [|x r IH]; simpl; [discriminate|].
  destruct (p x) eqn:E; simpl; [eauto|exact IH].
Qed.

Lemma find_one_holds {A} (p : A -> bool) col x :
  find_one p col = Some x -> p x = true /\ In x col.
Proof.
  unfold find_one. intros H. apply List.find_some in H. tauto.
Qed.

Lemma update_one_absent {A} (p : A -> bool) f col :
  existsb p col = false -> update_one p f col = col.
Proof.
  induction col as [|x r IH]; simpl; [reflexivity|].
  destruct (p x); simpl; [discriminate|]. intros H. now rewrite IH.
Qed.

Lemma update_one_app_fresh {A} (p : A -> bool) f col x :
  existsb p col = false -> p x = true ->
  update_one p f (col ++ [x]) = col ++ [f x].
Proof.
  induction col as [|y r IH]; simpl; intros H Hx; [now rewrite Hx|].
  destruct (p y); simpl in *; [discriminate|]. now rewrite IH.
Qed.

Lemma oid_eqb_eq a b : oid_eqb a b = true <-> a = b.
Proof.
  unfold oid_eqb. rewrite String.eqb_eq. destruct a, b; simpl.
  split; [now intros ->|now injection 1].
Qed.

Lemma oid_eqb_refl a : oid_eqb a a = true.
Proof. now apply oid_eqb_eq. Qed.

Lemma oid_eqb_neq a b : oid_eqb a b = false <-> a <> b.
Proof.
  rewrite <- oid_eqb_eq. destruct (oid_eqb a b); split; congruence.
Qed.

Lemma conflict_split d col :
  existsb (ugc_conflict d) col = false ->
  existsb (has_id (s_id d)) col = false /\
  existsb (same_post (s_platform d) (s_post_hash d)) col = false.
Proof.
  induction col as [|x r IH]; simpl; [tauto|].
  intros H. apply orb_false_iff in H as [H1 H2].
  unfold ugc_conflict in H1. apply orb_false_iff in H1 as [Ha Hb].
  destruct (IH H2) as [IH1 IH2]. unfold has_id at 1.
  now rewrite Ha, Hb, IH1, IH2.
Qed.

Lemma conflict_of_same_post d col :
  existsb (same_post (s_platform d) (s_post_hash d)) col = true ->
  existsb (ugc_conflict d) col = true.
Proof.
  induction col as [|x r IH]; simpl; [discriminate|].
  intros H. apply orb_true_iff in H as [H|H].
  - unfold ugc_conflict. now rewrite H, orb_true_r.
  - now rewrite (IH H), orb_true_r.
Qed.

Section Exec.

Variable env : Env.

(** The four ways a commit with a complete draft and a valid tier ends. *)
Lemma commit_entry new_id u st d t :
  has_draft u st d -> tier_of env u = t -> t = "T1" \/ t = "T2" ->
  submit_got_tier env new_id u st =
  let sub := submission_doc env new_id u d t (ticks st) in
  let uid := uid_of u in
  let ugc_id := str_oid new_id in
  let n := ticks st in
  if existsb (ugc_conflict sub) (ugc_col st)
  then match find_one (same_post (d_platform d) (d_post_hash d)) (ugc_col st) with
       | Some existing =>
           (Ok END,
            with_outbox (fun o => o ++ [(uid, msg_duplicate (str_oid (s_id existing)))])
              (with_ticks S (with_ticks S st)))
       | None => (Raise TypeError, with_ticks S (with_ticks S st))
       end
  else if String.eqb t "T1"
  then (Ok END,
        with_outbox (fun o => o ++ [(uid, msg_validated_t1 ugc_id)])
          (with_ledger
             (upsert_on_insert (ledger_key ugc_id "T1")
                (ledger_doc env uid ugc_id "T1" (4 + n)))
             (with_ticks S (with_ticks S
                (with_ugc (update_one (has_id new_id) (set_validated (clock env (3 + n)%nat)))
                   (with_ticks S
                      (with_code (update_one (has_code (d_ugc_code d))
                                    (consume_code (clock env (2 + n)%nat) ugc_id))
                         (with_ticks S
                            (with_ugc (fun col => col ++ [sub])
                               (with_ticks S (with_ticks S st)))))))))))
  else (Ok END,
        with_outbox (fun o => o ++ [(uid, msg_pending_t2 ugc_id)])
          (with_code (update_one (has_code (d_ugc_code d))
                        (consume_code (clock env (2 + n)%nat) ugc_id))
             (with_ticks S
                (with_ugc (fun col => col ++ [sub])
                   (with_ticks S (with_ticks S st)))))).
Proof.
  intros (H1 & H2 & H3 & H4 & H5 & H6) Ht Hv.
  unfold submit_got_tier. fold (tier_of env u). rewrite Ht.
  assert (Hn : negb (String.eqb t "T1" || String.eqb t "T2") = false)
    by (destruct Hv as [-> | ->]; reflexivity).
  rewrite Hn. mrun. rewrite H1, H2, H3, H4, H5, H6. mrun.
  unfold submission_doc.
  destruct (existsb _ (ugc_col st)) eqn:E; mrun.
  - destruct (find_one _ _); reflexivity.
  - destruct Hv as [-> | ->]; reflexivity.
Qed.

(** How a metrics photo is handled once an id is staged and a photo sent. *)
Lemma metrics_entry u st s b :
  user_data u st !! "metrics_ugc_id" = Some s -> s <> EmptyString ->
  last (photo u) = Some b ->
  metrics_got_proof env u st =
  match parse_oid s with
  | None => (Raise (InvalidId s), st)
  | Some o =>
      match find_one (owned_by o (uid_of u)) (ugc_col st) with
      | None =>
          (Ok END, with_outbox (fun ob => ob ++ [(uid_of u, "UGC not found for your account.")]) st)
      | Some _ =>
          (Ok END,
           with_outbox (fun ob => ob ++ [(uid_of u, msg_validated_t2 s)])
             (with_ledger
                (upsert_on_insert (ledger_key s "T2")
                   (ledger_doc env (uid_of u) s "T2" (2 + ticks st)))
                (with_ticks S (with_ticks S
                   (with_ugc
                      (update_one (has_id o)
                         (set_metrics (sha256_bytes b) (clock env (ticks st))
                            (clock env (S (ticks st)))))
                      (with_ticks S (with_ticks S st)))))))
      end
  end.
Proof.
  intros Hs Hne Hb. unfold metrics_got_proof. mrun. rewrite Hs.
  destruct s as [|c r]; [congruence|]. rewrite Hb. mrun.
  destruct (parse_oid (String c r)); [|reflexivity].
  destruct (find_one _ _); reflexivity.
Qed.

End Exec.

Section Effects.

Variable env : Env.

Ltac quiet_handler h :=
  intros; unfold h, same_store; mrun;
  repeat case_match; simplify_eq; mrun; repeat split; reflexivity.

Lemma start_same u st : same_store st (snd (start u st)).
Proof. quiet_handler start. Qed.

Lemma submit_cmd_same u st : same_store st (snd (submit_cmd env u st)).
Proof. quiet_handler submit_cmd. Qed.

Lemma submit_got_url_same u st : same_store st (snd (submit_got_url env u st)).
Proof. quiet_handler submit_got_url. Qed.

Lemma submit_got_code_same u st : same_store st (snd (submit_got_code u st)).
Proof. quiet_handler submit_got_code. Qed.

Lemma submit_got_caption_same u st : same_store st (snd (submit_got_caption u st)).
Proof. quiet_handler submit_got_caption. Qed.

Lemma submit_got_proof_same u st : same_store st (snd (submit_got_proof u st)).
Proof. quiet_handler submit_got_proof. Qed.

Lemma metrics_cmd_same u st : same_store st (snd (metrics_cmd u st)).
Proof. quiet_handler metrics_cmd. Qed.

Lemma status_cmd_same u st : same_store st (snd (status_cmd env u st)).
Proof. quiet_handler status_cmd. Qed.

Lemma submit_got_tier_effect new_id u st :
  Effect env st (snd (submit_got_tier env new_id u st)) (EvTier new_id u).
Proof.
  destruct (negb (String.eqb (tier_of env u) "T1" || String.eqb (tier_of env u) "T2")) eqn:Hv.
  { apply eff_none. unfold submit_got_tier. fold (tier_of env u). rewrite Hv.
    mrun. now repeat split. }
  destruct (user_data u st !! "platform") as [p|] eqn:H1;
    [|apply eff_none; unfold submit_got_tier; fold (tier_of env u); rewrite Hv;
      mrun; rewrite H1; now repeat split].
  destruct (user_data u st !! "post_url") as [pu|] eqn:H2;
    [|apply eff_none; unfold submit_got_tier; fold (tier_of env u); rewrite Hv;
      mrun; rewrite H1, H2; now repeat split].
  destruct (user_data u st !! "post_hash") as [h|] eqn:H3;
    [|apply eff_none; unfold submit_got_tier; fold (tier_of env u); rewrite Hv;
      mrun; rewrite H1, H2, H3; now repeat split].
  destruct (user_data u st !! "ugc_code") as [c|] eqn:H4;
    [|apply eff_none; unfold submit_got_tier; fold (tier_of env u); rewrite Hv;
      mrun; rewrite H1, H2, H3, H4; now repeat split].
  destruct (user_data u st !! "caption") as [cap|] eqn:H5;
    [|apply eff_none; unfold submit_got_tier; fold (tier_of env u); rewrite Hv;
      mrun; rewrite H1, H2, H3, H4, H5; now repeat split].
  destruct (user_data u st !! "proof_sha256") as [pr|] eqn:H6;
    [|apply eff_none; unfold submit_got_tier; fold (tier_of env u); rewrite Hv;
      mrun; rewrite H1, H2, H3, H4, H5, H6; now repeat split].
  set (d := {| d_platform := p; d_post_url := pu; d_post_hash := h;
               d_ugc_code := c; d_caption := cap; d_proof_sha256 := pr |}).
  assert (Hd : has_draft u st d) by now repeat split.
  assert (Ht : tier_of env u = "T1" \/ tier_of env u = "T2").
  { apply negb_false_iff, orb_true_iff in Hv as [Hv|Hv];
      apply String.eqb_eq in Hv; auto. }
  rewrite (commit_entry env new_id u st d (tier_of env u) Hd eq_refl Ht). cbv zeta.
  destruct (existsb _ (ugc_col st)) eqn:E.
  - apply eff_none. destruct (find_one _ _); now repeat split.
  - destruct (conflict_split _ _ E) as [Eid _].
    apply (eff_commit env _ _ new_id u d (tier_of env u) Hd eq_refl Ht E);
      destruct (String.eqb (tier_of env u) "T1") eqn:E1; mrun; try reflexivity.
    apply update_one_app_fresh; [exact Eid|].
    unfold has_id. simpl. apply oid_eqb_refl.
Qed.

Lemma metrics_got_proof_effect u st :
  Effect env st (snd (metrics_got_proof env u st)) (EvMetricsProof u).
Proof.
  destruct (user_data u st !! "metrics_ugc_id") as [s|] eqn:Hs;
    [|apply eff_none; unfold metrics_got_proof; mrun; rewrite Hs; now repeat split].
  destruct (string_dec s EmptyString) as [->|Hne];
    [apply eff_none; unfold metrics_got_proof; mrun; rewrite Hs; now repeat split|].
  destruct (last (photo u)) as [b|] eqn:Hb.
  2:{ apply eff_none; unfold metrics_got_proof; mrun; rewrite Hs.
      destruct s; [congruence|]. rewrite Hb. now repeat split. }
  rewrite (metrics_entry env u st s b Hs Hne Hb).
  destruct (parse_oid s) as [o|] eqn:Ho; [|apply eff_none; now repeat split].
  destruct (find_one _ _) as [x|] eqn:Hx; [|apply eff_none; now repeat split].
  now apply (eff_attach env _ _ u s o b x).
Qed.

(** Every update acts on the store in one of the three ways of [Effect]. *)
Lemma step_effect e st : Effect env st (step env st e) e.
Proof.
  unfold step. destruct e; simpl handle;
    try (apply eff_none;
         first [ apply start_same | apply submit_cmd_same | apply submit_got_url_same
               | apply submit_got_code_same | apply submit_got_caption_same
               | apply submit_got_proof_same | apply metrics_cmd_same
               | apply status_cmd_same ]).
  - apply submit_got_tier_effect.
  - apply metrics_got_proof_effect.
Qed.

End Effects.

(* ===================================================================== *)
(** ** Duplicate submissions *)
(* ===================================================================== *)

Lemma find_one_app {A} (p : A -> bool) l l' :
  find_one p (l ++ l') =
  match find_one p l with Some x => Some x | None => find_one p l' end.
Proof.
  unfold find_one. induction l as [|y r IH]; simpl; [reflexivity|].
  destruct (p y); [reflexivity|exact IH].
Qed.

Section Dedupe.

Variable env : Env.

Lemma post_id_app_l p h col col' i :
  post_id p h col = Some i -> post_id p h (col ++ col') = Some i.
Proof.
  unfold post_id. intros H. rewrite find_one_app.
  destruct (find_one (same_post p h) col) as [x|]; [exact H|discriminate].
Qed.

Lemma post_id_update_one p h q f col :
  (forall y, s_id (f y) = s_id y /\ same_post p h (f y) = same_post p h y) ->
  post_id p h (update_one q f col) = post_id p h col.
Proof.
  intros Hf. unfold post_id, find_one.
  induction col as [|y r IH]; simpl; [reflexivity|].
  destruct (q y); simpl.
  - destruct (Hf y) as [Hi Hs]. rewrite Hs.
    destruct (same_post p h y); simpl; [now rewrite Hi|reflexivity].
  - destruct (same_post p h y); [reflexivity|exact IH].
Qed.

Lemma set_metrics_keeps p h m t1 t2 y :
  s_id (set_metrics m t1 t2 y) = s_id y /\
  same_post p h (set_metrics m t1 t2 y) = same_post p h y.
Proof. now split. Qed.

(** The stored id for a key never changes once there is one. *)
Lemma effect_post_id st st' e p h i :
  Effect env st st' e ->
  post_id p h (ugc_col st) = Some i -> post_id p h (ugc_col st') = Some i.
Proof.
  intros [e0 (Hu & _) | new_id u d t _ _ _ _ Hu _ _ | u s o b x _ _ _ _ Hu _ _] H.
  - now rewrite Hu.
  - rewrite Hu. now apply post_id_app_l.
  - rewrite Hu, post_id_update_one; [exact H|]. intros y. apply set_metrics_keeps.
Qed.

Lemma run_post_id es : forall st p h i,
  post_id p h (ugc_col st) = Some i ->
  post_id p h (ugc_col (run env es st)) = Some i.
Proof.
  induction es as [|e es IH]; intros st p h i H; [exact H|].
  unfold run in *; simpl. apply IH.
  apply (effect_post_id st _ e); [apply step_effect|exact H].
Qed.

Lemma post_id_existsb p h col i :
  post_id p h col = Some i -> existsb (same_post p h) col = true.
Proof.
  unfold post_id. intros H.
  destruct (existsb (same_post p h) col) eqn:E; [reflexivity|].
  apply find_one_none_existsb in E. now rewrite E in H.
Qed.

(** A commit whose key is already stored: nothing but the reply. *)
Lemma commit_duplicate new_id u st d i :
  has_draft u st d -> tier_of env u = "T1" \/ tier_of env u = "T2" ->
  post_id (d_platform d) (d_post_hash d) (ugc_col st) = Some i ->
  submit_got_tier env new_id u st =
  (Ok END,
   with_outbox (fun o => o ++ [(uid_of u, msg_duplicate (str_oid i))])
     (with_ticks S (with_ticks S st))).
Proof.
  intros Hd Ht Hi.
  rewrite (commit_entry env new_id u st d (tier_of env u) Hd eq_refl Ht). cbv zeta.
  rewrite (conflict_of_same_post (submission_doc env new_id u d (tier_of env u) (ticks st)))
    by (simpl; now apply (post_id_existsb _ _ _ i)).
  unfold post_id in Hi. destruct (find_one _ _) as [x|]; [|discriminate].
  simpl in Hi. now injection Hi as ->.
Qed.

(** A commit that ends (rather than raising) leaves its key stored under
    the id its reply carries. *)
Lemma commit_reports_id new_id u st d :
  has_draft u st d -> tier_of env u = "T1" \/ tier_of env u = "T2" ->
  fst (submit_got_tier env new_id u st) = Ok END ->
  exists i m,
    post_id (d_platform d) (d_post_hash d)
      (ugc_col (snd (submit_got_tier env new_id u st))) = Some i /\
    last (outbox (snd (submit_got_tier env new_id u st))) = Some (uid_of u, m) /\
    commit_reply i m.
Proof.
  intros Hd Ht.
  rewrite (commit_entry env new_id u st d (tier_of env u) Hd eq_refl Ht). cbv zeta.
  destruct (existsb _ (ugc_col st)) eqn:E.
  - destruct (find_one _ _) as [x|] eqn:Ex; [|discriminate]. intros _.
    exists (s_id x), (msg_duplicate (str_oid (s_id x))). mrun.
    unfold post_id. rewrite Ex. repeat split; [apply last_snoc|now left].
  - destruct (conflict_split _ _ E) as [Eid Epost]. simpl in Epost.
    assert (Hfind : forall x, s_id x = new_id ->
              same_post (d_platform d) (d_post_hash d) x = true ->
              post_id (d_platform d) (d_post_hash d) (ugc_col st ++ [x]) = Some new_id).
    { intros x Hx Hs. unfold post_id. rewrite find_one_app.
      apply find_one_none_existsb in Epost. rewrite Epost.
      unfold find_one. simpl. rewrite Hs. simpl. now rewrite Hx. }
    intros _. destruct (String.eqb (tier_of env u) "T1") eqn:E1; mrun.
    + exists new_id, (msg_validated_t1 (str_oid new_id)).
      repeat split; [|apply last_snoc|right; now left].
      rewrite update_one_app_fresh; [|exact Eid|apply oid_eqb_refl].
      apply Hfind; [reflexivity|]. unfold same_post; simpl.
      now rewrite !String.eqb_refl.
    + exists new_id, (msg_pending_t2 (str_oid new_id)).
      repeat split; [|apply last_snoc|right; now right].
      apply Hfind; [reflexivity|]. unfold same_post; simpl.
      now rewrite !String.eqb_refl.
Qed.

(** C4.  A commit that hits the duplicate case, that is, whose (platform,
    fingerprint) key is already stored, ends the conversation with the
    duplicate notice that carries the id of the stored submission, and
    changes none of the three collections: the code of the draft is not
    consumed (it stays as it was, so [unused] if it was), no ledger entry
    is created, and the stored submission is not modified. *)
Theorem duplicate_commit_changes_nothing (new_id : ObjectId) (u : Update)
    (st : St) (d : Staged) :
  has_draft u st d ->
  tier_of env u = "T1" \/ tier_of env u = "T2" ->
  existsb (same_post (d_platform d) (d_post_hash d)) (ugc_col st) = true ->
  exists existing : Submission,
    find_one (same_post (d_platform d) (d_post_hash d)) (ugc_col st) = Some existing /\
    fst (insert_one (submission_doc env new_id u d (tier_of env u) (ticks st)) st)
      = Raise DuplicateKeyError /\
    fst (submit_got_tier env new_id u st) = Ok END /\
    outbox (snd (submit_got_tier env new_id u st))
      = outbox st ++
        [(uid_of u,
          lines ["This post was already submitted.";
                 "UGC ID: " +:+ str_oid (s_id existing);
                 "Use /status " +:+ str_oid (s_id existing)])] /\
    ugc_col (snd (submit_got_tier env new_id u st)) = ugc_col st /\
    code_col (snd (submit_got_tier env new_id u st)) = code_col st /\
    ledger_col (snd (submit_got_tier env new_id u st)) = ledger_col st /\
    (forall doc, find_one (has_code (d_ugc_code d)) (code_col st) = Some doc ->
       c_status doc = Some "unused" ->
       exists doc', find_one (has_code (d_ugc_code d))
                      (code_col (snd (submit_got_tier env new_id u st))) = Some doc' /\
                    c_status doc' = Some "unused").
Proof.
  intros Hd Ht Hex.
  destruct (find_one_some_existsb _ _ Hex) as (x & Hx & _).
  exists x. split; [exact Hx|].
  assert (Hi : post_id (d_platform d) (d_post_hash d) (ugc_col st) = Some (s_id x))
    by (unfold post_id; now rewrite Hx).
  rewrite (commit_duplicate new_id u st d (s_id x) Hd Ht Hi). mrun.
  rewrite (conflict_of_same_post (submission_doc env new_id u d (tier_of env u) (ticks st)))
    by exact Hex.
  repeat split; try reflexivity.
  intros doc Hdoc Hs. now exists doc.
Qed.

(** C2.  Two completed commits for one (platform, fingerprint) key, by
    whichever users and with whatever happens in between: the second
    creates no submission; its insert fails on the uniqueness key; and its
    reply is the duplicate notice carrying the very id the first commit
    replied with, which is the id stored for the key. *)
Theorem second_commit_reports_first_id (id1 id2 : ObjectId) (u1 u2 : Update)
    (d1 d2 : Staged) (es : list Event) (st : St) :
  has_draft u1 st d1 ->
  tier_of env u1 = "T1" \/ tier_of env u1 = "T2" ->
  fst (submit_got_tier env id1 u1 st) = Ok END ->
  let st1 := snd (submit_got_tier env id1 u1 st) in
  let st2 := run env es st1 in
  has_draft u2 st2 d2 ->
  tier_of env u2 = "T1" \/ tier_of env u2 = "T2" ->
  d_platform d2 = d_platform d1 ->
  d_post_hash d2 = d_post_hash d1 ->
  exists (i : ObjectId) (m : string),
    last (outbox st1) = Some (uid_of u1, m) /\ commit_reply i m /\
    post_id (d_platform d1) (d_post_hash d1) (ugc_col st1) = Some i /\
    post_id (d_platform d1) (d_post_hash d1) (ugc_col st2) = Some i /\
    fst (insert_one (submission_doc env id2 u2 d2 (tier_of env u2) (ticks st2)) st2)
      = Raise DuplicateKeyError /\
    fst (submit_got_tier env id2 u2 st2) = Ok END /\
    ugc_col (snd (submit_got_tier env id2 u2 st2)) = ugc_col st2 /\
    outbox (snd (submit_got_tier env id2 u2 st2))
      = outbox st2 ++
        [(uid_of u2,
          lines ["This post was already submitted.";
                 "UGC ID: " +:+ str_oid i;
                 "Use /status " +:+ str_oid i])].
Proof.
  intros Hd1 Ht1 Hend st1 st2 Hd2 Ht2 Hp Hh.
  destruct (commit_reports_id id1 u1 st d1 Hd1 Ht1 Hend) as (i & m & Hi & Hm & Hr).
  fold st1 in Hi, Hm.
  assert (Hi2 : post_id (d_platform d1) (d_post_hash d1) (ugc_col st2) = Some i)
    by (subst st2; now apply run_post_id).
  exists i, m. repeat split; try assumption.
  - unfold insert_one.
    rewrite (conflict_of_same_post (submission_doc env id2 u2 d2 (tier_of env u2) (ticks st2)));
      [reflexivity|].
    simpl. rewrite Hp, Hh. now apply (post_id_existsb _ _ _ i).
  - rewrite (commit_duplicate id2 u2 st2 d2 i Hd2 Ht2); [reflexivity|].
    now rewrite Hp, Hh.
  - rewrite (commit_duplicate id2 u2 st2 d2 i Hd2 Ht2); [reflexivity|].
    now rewrite Hp, Hh.
  - rewrite (commit_duplicate id2 u2 st2 d2 i Hd2 Ht2); [reflexivity|].
    now rewrite Hp, Hh.
Qed.

End Dedupe.

(* ===================================================================== *)
(** ** Tiers, metrics proofs and ownership *)
(* ===================================================================== *)

Lemma lower_hex_char c : is_lower_hex c = true -> is_hex c = true /\ lower_char c = c.
Proof.
  unfold is_lower_hex, is_hex, lower_char, is_upper. intros H. split.
  - now rewrite H.
  - replace ((65 <=? code c) && (code c <=? 90)) with false; [reflexivity|].
    symmetry. apply andb_false_iff.
    apply orb_true_iff in H as [H|H]; apply andb_true_iff in H as [H1 H2];
      apply Z.leb_le in H1, H2; [left|right]; apply Z.leb_gt; lia.
Qed.

Lemma lower_hex_string s : all_lower_hex s = true -> all_hex s = true /\ lower s = s.
Proof.
  induction s as [|c r IH]; simpl; [now split|]. intros H.
  apply andb_true_iff in H as [H1 H2].
  destruct (lower_hex_char c H1) as [Ha Hb], (IH H2) as [Hc Hd].
  unfold lower in *. simpl. now rewrite Ha, Hb, Hc, Hd.
Qed.

(** [ObjectId(str(o))] is [o]. *)
Lemma parse_oid_str o : oid_valid o = true -> parse_oid (str_oid o) = Some o.
Proof.
  unfold oid_valid, parse_oid, str_oid. destruct o as [s]; simpl. intros H.
  apply andb_true_iff in H as [H1 H2].
  destruct (lower_hex_string s H2) as [Ha Hb]. now rewrite H1, Ha, Hb.
Qed.

Lemma parse_oid_nonempty s o : parse_oid s = Some o -> s <> EmptyString.
Proof. intros H ->. discriminate. Qed.

Lemma key_refers s t o e :
  parse_oid s = Some o -> ledger_key s t e = true -> refers_to o e = true.
Proof.
  unfold ledger_key, refers_to. intros Hs H.
  apply andb_true_iff in H as [H _]. apply String.eqb_eq in H.
  rewrite H, Hs. apply oid_eqb_refl.
Qed.

Lemma no_key_if_unreferred s t o col :
  parse_oid s = Some o -> existsb (refers_to o) col = false ->
  existsb (ledger_key s t) col = false.
Proof.
  intros Hs. induction col as [|e r IH]; simpl; [reflexivity|]. intros H.
  apply orb_false_iff in H as [H1 H2]. rewrite (IH H2), orb_false_r.
  destruct (ledger_key s t e) eqn:E; [|reflexivity].
  now rewrite (key_refers s t o e Hs E) in H1.
Qed.

Lemma existsb_upsert {A} (q k : A -> bool) d col :
  existsb q col = false -> q d = false ->
  existsb q (upsert_on_insert k d col) = false.
Proof.
  intros H Hd. unfold upsert_on_insert. destruct (existsb k col); [exact H|].
  rewrite existsb_app, H. simpl. now rewrite Hd.
Qed.

Lemma in_upsert {A} (k : A -> bool) d col x :
  In x col -> In x (upsert_on_insert k d col).
Proof.
  unfold upsert_on_insert. destruct (existsb k col); [auto|].
  intros H. apply in_or_app. now left.
Qed.

Lemma find_owned o uid col x :
  find_one (has_id o) col = Some x -> s_user_id x = uid ->
  find_one (owned_by o uid) col = Some x.
Proof.
  unfold find_one, owned_by, has_id. intros H Hu.
  induction col as [|y r IH]; simpl in *; [discriminate|].
  destruct (oid_eqb (s_id y) o); simpl.
  - injection H as ->. now rewrite Hu, Z.eqb_refl.
  - now apply IH.
Qed.

Lemma find_update_same (p : Submission -> bool) f col x :
  (forall y, p (f y) = p y) ->
  find_one p col = Some x -> find_one p (update_one p f col) = Some (f x).
Proof.
  intros Hf. unfold find_one.
  induction col as [|y r IH]; simpl; [discriminate|].
  destruct (p y) eqn:E; simpl.
  - intros [= ->]. now rewrite Hf, E.
  - rewrite E. exact IH.
Qed.

Lemma find_update_other (p q : Submission -> bool) f col :
  (forall y, p (f y) = p y) -> (forall y, q y = true -> p y = false) ->
  find_one p (update_one q f col) = find_one p col.
Proof.
  intros Hf Hq. unfold find_one.
  induction col as [|y r IH]; simpl; [reflexivity|].
  destruct (q y) eqn:E; simpl.
  - now rewrite Hf, (Hq y E).
  - destruct (p y); [reflexivity|exact IH].
Qed.

Lemma other_id o o' y : o' <> o -> has_id o' y = true -> has_id o y = false.
Proof.
  unfold has_id. intros Hne H. apply oid_eqb_eq in H. apply oid_eqb_neq. congruence.
Qed.

Lemma in_ids_unique (col : list Submission) x y :
  NoDup (map s_id col) -> In x col -> In y col -> s_id x = s_id y -> x = y.
Proof.
  induction col as [|z r IH]; simpl; [tauto|].
  intros Hnd Hx Hy Heq. apply NoDup_cons in Hnd as [Hz Hr].
  destruct Hx as [->|Hx], Hy as [->|Hy]; auto.
  - exfalso. apply Hz. rewrite Heq. apply list_elem_of_In, in_map, Hy.
  - exfalso. apply Hz. rewrite <- Heq. apply list_elem_of_In, in_map, Hx.
Qed.

Section Tiers.

Variable env : Env.

(** An update that does not attach a metrics photo to [o] leaves the
    record with id [o] exactly as it is. *)
Lemma effect_keeps_record st st' e o x :
  Effect env st st' e -> attaches_metrics o st e = false ->
  find_one (has_id o) (ugc_col st) = Some x ->
  find_one (has_id o) (ugc_col st') = Some x.
Proof.
  intros [e0 (Hu & _) | new_id u d t _ _ _ _ Hu _ _ | u s o' b x' Hs Ho Hb Hx Hu _ _] Hq H.
  - now rewrite Hu.
  - rewrite Hu, find_one_app. now rewrite H.
  - rewrite Hu. rewrite find_update_other; [exact H|reflexivity|].
    intros y. apply other_id. intros ->.
    simpl in Hq. rewrite Hs, Ho in Hq.
    destruct (photo u) as [|b0 bs]; [discriminate|].
    rewrite oid_eqb_refl in Hq. simpl in Hq.
    apply find_one_none_existsb in Hq. congruence.
Qed.

(** ... and grants nothing for [o]. *)
Lemma effect_keeps_unrewarded st st' e o x :
  Effect env st st' e -> event_ok e -> attaches_metrics o st e = false ->
  find_one (has_id o) (ugc_col st) = Some x ->
  existsb (refers_to o) (ledger_col st) = false ->
  existsb (refers_to o) (ledger_col st') = false.
Proof.
  intros [e0 (_ & _ & Hl) | new_id u d t _ _ _ Hc _ _ Hl | u s o' b x' Hs Ho Hb Hx _ _ Hl]
    Hok Hq H Hno.
  - now rewrite Hl.
  - rewrite Hl. destruct (String.eqb t "T1"); [|exact Hno].
    apply existsb_upsert; [exact Hno|].
    unfold refers_to; simpl. simpl in Hok. rewrite (parse_oid_str new_id Hok).
    apply oid_eqb_neq. intros ->.
    destruct (conflict_split _ _ Hc) as [Hid _]. simpl in Hid.
    apply find_one_none_existsb in Hid. congruence.
  - rewrite Hl. apply existsb_upsert; [exact Hno|].
    unfold refers_to; simpl. rewrite Ho.
    simpl in Hq. rewrite Hs, Ho in Hq.
    destruct (photo u) as [|b0 bs]; [discriminate|].
    destruct (oid_eqb o' o) eqn:E; [|reflexivity].
    apply oid_eqb_eq in E. subst o'. simpl in Hq.
    apply find_one_none_existsb in Hq. congruence.
Qed.

Lemma run_keeps o x es : forall st,
  Forall event_ok es -> quiet env o es st ->
  find_one (has_id o) (ugc_col st) = Some x ->
  existsb (refers_to o) (ledger_col st) = false ->
  find_one (has_id o) (ugc_col (run env es st)) = Some x /\
  existsb (refers_to o) (ledger_col (run env es st)) = false.
Proof.
  induction es as [|e es IH]; intros st Hok Hq Hx Hno; [now split|].
  inversion Hok as [|? ? He Hes]; subst. destruct Hq as [Hq1 Hq2].
  unfold run in *; simpl. apply IH; try assumption.
  - apply (effect_keeps_record st _ e); [apply step_effect|assumption..].
  - apply (effect_keeps_unrewarded st _ e o x); [apply step_effect|assumption..].
Qed.

(** A metrics photo for a submission of the sender: what it writes. *)
Lemma attach_writes u st s o b x :
  user_data u st !! "metrics_ugc_id" = Some s ->
  parse_oid s = Some o ->
  last (photo u) = Some b ->
  find_one (has_id o) (ugc_col st) = Some x ->
  s_user_id x = uid_of u ->
  fst (metrics_got_proof env u st) = Ok END /\
  find_one (has_id o) (ugc_col (snd (metrics_got_proof env u st)))
    = Some (set_metrics (sha256_bytes b) (clock env (ticks st))
              (clock env (S (ticks st))) x) /\
  ledger_col (snd (metrics_got_proof env u st))
    = upsert_on_insert (ledger_key s "T2")
        (ledger_doc env (uid_of u) s "T2" (2 + ticks st)) (ledger_col st).
Proof.
  intros Hs Ho Hb Hx Hu.
  rewrite (metrics_entry env u st s b Hs (parse_oid_nonempty s o Ho) Hb), Ho.
  rewrite (find_owned o (uid_of u) _ x Hx Hu). mrun.
  repeat split. now apply find_update_same.
Qed.

(** C3.  Tier split.  Take a commit whose insert succeeds, the id drawn
    being well formed and not yet referred to by the ledger.
    - Tier T1: the commit itself stores the submission as [validated] with
      its validation time stamped, and appends a ledger entry of amount 1
      (T1 pool) for it; no metrics step is involved.
    - Tier T2: the commit stores the submission as [submitted], without
      validation time or metrics fingerprint, and grants nothing.  Through
      any later updates, as long as none attaches a metrics photo to it,
      the record stays exactly so and no ledger entry refers to it.  When
      its owner then sends a metrics photo for it, the record gets the
      photo's fingerprint, status [validated] and a validation time, and a
      ledger entry of amount 5 (T2 pool) is appended. *)
Theorem tier_split (new_id : ObjectId) (u : Update) (st : St) (d : Staged) :
  has_draft u st d ->
  oid_valid new_id = true ->
  existsb (ugc_conflict (submission_doc env new_id u d (tier_of env u) (ticks st)))
    (ugc_col st) = false ->
  existsb (refers_to new_id) (ledger_col st) = false ->
  let st1 := snd (submit_got_tier env new_id u st) in
  (tier_of env u = "T1" ->
   fst (submit_got_tier env new_id u st) = Ok END /\
   exists x e,
     ugc_col st1 = ugc_col st ++ [x] /\
     s_id x = new_id /\ s_user_id x = uid_of u /\ s_tier_claimed x = "T1" /\
     s_status x = "validated" /\
     s_validated_at x = Some (clock env (3 + ticks st)%nat) /\
     ledger_col st1 = ledger_col st ++ [e] /\
     l_ugc_id e = str_oid new_id /\ l_tier e = "T1" /\ l_amount e = 1 /\
     l_user_id e = uid_of u /\ l_drop_id e = T1_DROP_ID env /\
     l_status e = "pending_claim") /\
  (tier_of env u = "T2" ->
   fst (submit_got_tier env new_id u st) = Ok END /\
   exists x,
     ugc_col st1 = ugc_col st ++ [x] /\
     s_id x = new_id /\ s_user_id x = uid_of u /\ s_tier_claimed x = "T2" /\
     s_status x = "submitted" /\ s_validated_at x = None /\
     s_metrics_proof_sha256 x = None /\
     ledger_col st1 = ledger_col st /\
     forall es, Forall event_ok es -> quiet env new_id es st1 ->
       let st2 := run env es st1 in
       find_one (has_id new_id) (ugc_col st2) = Some x /\
       existsb (refers_to new_id) (ledger_col st2) = false /\
       forall u' s b,
         uid_of u' = uid_of u ->
         user_data u' st2 !! "metrics_ugc_id" = Some s ->
         parse_oid s = Some new_id ->
         last (photo u') = Some b ->
         let st3 := snd (metrics_got_proof env u' st2) in
         fst (metrics_got_proof env u' st2) = Ok END /\
         exists x' e,
           find_one (has_id new_id) (ugc_col st3) = Some x' /\
           s_metrics_proof_sha256 x' = Some (sha256_bytes b) /\
           s_status x' = "validated" /\
           s_validated_at x' = Some (clock env (ticks st2)) /\
           ledger_col st3 = ledger_col st2 ++ [e] /\
           l_ugc_id e = s /\ l_tier e = "T2" /\ l_amount e = 5 /\
           l_user_id e = uid_of u /\ l_drop_id e = T2_DROP_ID env /\
           l_status e = "pending_claim").
Proof.
  intros Hd Hvalid Hc Hno st1.
  destruct (conflict_split _ _ Hc) as [Hid Hpost]. simpl in Hid.
  split; intros Ht.
  - subst st1. rewrite Ht in Hc.
    rewrite (commit_entry env new_id u st d "T1" Hd Ht (or_introl eq_refl)).
    cbv zeta. rewrite Hc. change (String.eqb "T1" "T1") with true. mrun.
    split; [reflexivity|].
    eexists _, _. split.
    { apply update_one_app_fresh; [exact Hid|apply oid_eqb_refl]. }
    unfold upsert_on_insert.
    rewrite (no_key_if_unreferred (str_oid new_id) "T1" new_id _
               (parse_oid_str new_id Hvalid) Hno).
    repeat split.
  - subst st1. rewrite Ht in Hc.
    rewrite (commit_entry env new_id u st d "T2" Hd Ht (or_intror eq_refl)).
    cbv zeta. rewrite Hc. change (String.eqb "T2" "T1") with false. mrun.
    split; [reflexivity|].
    eexists. split; [reflexivity|].
    repeat match goal with |- _ /\ _ => split end; try reflexivity.
    intros es Hok Hq.
    match goal with |- context [run env es ?s1] => set (st2 := run env es s1) end.
    assert (Hk : find_one (has_id new_id) (ugc_col st2)
                 = Some (submission_doc env new_id u d "T2" (ticks st)) /\
                 existsb (refers_to new_id) (ledger_col st2) = false).
    { subst st2. eapply run_keeps; try eassumption; mrun.
      rewrite find_one_app.
      apply find_one_none_existsb in Hid. rewrite Hid.
      unfold find_one, has_id; simpl. now rewrite oid_eqb_refl. }
    destruct Hk as [Hx Hno2].
    split; [exact Hx|]. split; [exact Hno2|].
    intros u' s b Hu' Hs Ho Hb.
    destruct (attach_writes u' st2 s new_id b _ Hs Ho Hb Hx (eq_sym Hu'))
      as (Hend & Hf & Hl).
    split; [exact Hend|].
    eexists _, _. split; [exact Hf|]. rewrite Hl.
    unfold upsert_on_insert.
    rewrite (no_key_if_unreferred s "T2" new_id _ Ho Hno2).
    rewrite Hu'. repeat split.
Qed.

(** C9.  The metrics step asks nothing of the target record but that it
    belongs to the sender: whatever its claimed tier and status, the
    photo's fingerprint is stored on it, it is marked [validated] with a
    fresh validation time, and a T2 ledger entry is granted for the id as
    staged (appended with amount 5 and the T2 pool unless that key has
    one).  No earlier entry is touched, so a submission that already has
    a T1 entry ends up with both a T1 and a T2 entry. *)
Theorem metrics_only_checks_ownership (u : Update) (st : St) (s b : string)
    (o : ObjectId) (x : Submission) :
  user_data u st !! "metrics_ugc_id" = Some s ->
  parse_oid s = Some o ->
  last (photo u) = Some b ->
  find_one (has_id o) (ugc_col st) = Some x ->
  s_user_id x = uid_of u ->
  let st' := snd (metrics_got_proof env u st) in
  fst (metrics_got_proof env u st) = Ok END /\
  (exists x',
      find_one (has_id o) (ugc_col st') = Some x' /\
      s_metrics_proof_sha256 x' = Some (sha256_bytes b) /\
      s_status x' = "validated" /\
      s_validated_at x' = Some (clock env (ticks st)) /\
      s_tier_claimed x' = s_tier_claimed x /\
      s_user_id x' = s_user_id x) /\
  (exists e2,
      In e2 (ledger_col st') /\ l_ugc_id e2 = s /\ l_tier e2 = "T2" /\
      refers_to o e2 = true /\
      (existsb (ledger_key s "T2") (ledger_col st) = false ->
       ledger_col st' = ledger_col st ++ [e2] /\
       l_amount e2 = 5 /\ l_drop_id e2 = T2_DROP_ID env /\
       l_status e2 = "pending_claim" /\ l_user_id e2 = uid_of u) /\
      (forall e1, In e1 (ledger_col st) -> refers_to o e1 = true ->
                  l_tier e1 = "T1" ->
                  In e1 (ledger_col st') /\ e1 <> e2)) /\
  (forall e1, In e1 (ledger_col st) -> In e1 (ledger_col st')).
Proof.
  intros Hs Ho Hb Hx Hu st'.
  destruct (attach_writes u st s o b x Hs Ho Hb Hx Hu) as (Hend & Hf & Hl).
  fold st' in Hf, Hl.
  split; [exact Hend|]. split; [|split].
  - eexists. split; [exact Hf|]. repeat split.
  - rewrite Hl. unfold upsert_on_insert.
    destruct (existsb (ledger_key s "T2") (ledger_col st)) eqn:E.
    + destruct (find_one_some_existsb _ _ E) as (e2 & He2 & Hk).
      apply find_one_holds in He2 as [_ Hin].
      pose proof (key_refers s "T2" o e2 Ho Hk) as Hr.
      unfold ledger_key in Hk. apply andb_true_iff in Hk as [Hk1 Hk2].
      apply String.eqb_eq in Hk1, Hk2.
      exists e2. repeat split; try assumption; try discriminate.
      intros ->. congruence.
    + exists (ledger_doc env (uid_of u) s "T2" (2 + ticks st)).
      repeat split.
      * apply in_or_app. right. now left.
      * unfold refers_to; simpl. rewrite Ho. apply oid_eqb_refl.
      * apply in_or_app. now left.
      * intros ->. simpl in *. discriminate.
  - intros e1 H1. rewrite Hl. now apply in_upsert.
Qed.

(** C7.  Ownership isolation.  A well-formed id that denotes a submission
    of another user is answered exactly like a well-formed id that
    denotes no submission: [/status] replies "Not found.", the metrics
    step replies that no such submission exists for the account, and in
    both cases nothing is written: no update, no ledger entry. *)
Theorem lookups_are_owner_scoped (u : Update) (st : St) (s : string) (o : ObjectId) :
  parse_oid s = Some o ->
  existsb (has_id o) (ugc_col st) = false \/
  (NoDup (map s_id (ugc_col st)) /\
   exists x, In x (ugc_col st) /\ s_id x = o /\ s_user_id x <> uid_of u) ->
  find_one (owned_by o (uid_of u)) (ugc_col st) = None /\
  (dm_ok u = true -> (exists a rest, args u = a :: rest /\ str_strip a = s) ->
   status_cmd env u st =
   (Ok RNone, with_outbox (fun ob => ob ++ [(uid_of u, "Not found.")]) st)) /\
  (user_data u st !! "metrics_ugc_id" = Some s -> photo u <> [] ->
   metrics_got_proof env u st =
   (Ok END,
    with_outbox (fun ob => ob ++ [(uid_of u, "UGC not found for your account.")]) st)).
Proof.
  intros Ho Hcase.
  assert (Hnone : find_one (owned_by o (uid_of u)) (ugc_col st) = None).
  { apply find_one_none_existsb.
    destruct (existsb (owned_by o (uid_of u)) (ugc_col st)) eqn:E; [|reflexivity].
    exfalso. destruct (find_one_some_existsb _ _ E) as (y & Hy & Hown).
    apply find_one_holds in Hy as [_ Hin].
    unfold owned_by in Hown. apply andb_true_iff in Hown as [Hid Huid].
    apply Z.eqb_eq in Huid.
    destruct Hcase as [Habs | (Hnd & x & Hx & Hxo & Hxu)].
    - assert (existsb (has_id o) (ugc_col st) = true); [|congruence].
      apply existsb_exists. exists y. now split.
    - apply oid_eqb_eq in Hid.
      assert (y = x) by (apply (in_ids_unique (ugc_col st)); congruence).
      subst y. contradiction. }
  split; [exact Hnone|]. split.
  - intros Hdm (a & rest & Ha & Hstrip).
    unfold status_cmd. mrun. unfold dm_ok in Hdm.
    destruct (effective_chat u) as [c|]; [rewrite Hdm|]; cbn [negb]; mrun;
      rewrite Ha, Hstrip, Ho; mrun; now rewrite Hnone.
  - intros Hs Hp.
    destruct (last (photo u)) as [b|] eqn:Hb.
    + rewrite (metrics_entry env u st s b Hs (parse_oid_nonempty s o Ho) Hb), Ho.
      now rewrite Hnone.
    + apply last_None in Hb. contradiction.
Qed.

End Tiers.

(* ===================================================================== *)
(** ** Code validation, rate limit, id parsing *)
(* ===================================================================== *)

Section Policies.

Variable env : Env.

(** C5.  Code validation checks in order and reports the first failure:
    no record for the (trimmed) code: not found; else the record is bound
    to another user: not bound to the account, whatever its status; else
    its status is [used] or [expired]: already used; else success.  The
    store is only read. *)
Theorem validate_code_order (uid : Z) (code : string) (st : St) :
  snd (validate_code uid code st) = st /\
  (find_one (has_code (str_strip code)) (code_col st) = None ->
   fst (validate_code uid code st)
   = Ok (false, "Code not found. Get a code from the community bot first.")) /\
  (forall doc,
     find_one (has_code (str_strip code)) (code_col st) = Some doc ->
     (default (-1) (c_user_id doc) <> uid ->
      fst (validate_code uid code st)
      = Ok (false, "This code is not bound to your account.")) /\
     (default (-1) (c_user_id doc) = uid ->
      c_status doc = Some "used" \/ c_status doc = Some "expired" ->
      fst (validate_code uid code st)
      = Ok (false, "Code already used/expired. Get a new one from the community bot.")) /\
     (default (-1) (c_user_id doc) = uid ->
      c_status doc <> Some "used" -> c_status doc <> Some "expired" ->
      fst (validate_code uid code st) = Ok (true, "OK"))).
Proof.
  unfold validate_code. mrun. split; [|split].
  - destruct (find_one _ _) as [doc|]; [|reflexivity].
    destruct (negb _); [reflexivity|].
    destruct (c_status doc) as [s|]; [|reflexivity].
    destruct (_ || _); reflexivity.
  - now intros ->.
  - intros doc ->. repeat split.
    + intros Hne. apply Z.eqb_neq in Hne. now rewrite Hne.
    + intros Heq Hs. apply Z.eqb_eq in Heq. rewrite Heq. simpl.
      destruct Hs as [-> | ->]; reflexivity.
    + intros Heq Hu He. apply Z.eqb_eq in Heq. rewrite Heq. simpl.
      destruct (c_status doc) as [s|]; [|reflexivity].
      destruct (String.eqb_spec s "used"); [congruence|].
      destruct (String.eqb_spec s "expired"); [congruence|]. reflexivity.
Qed.

Lemma count_in_window uid now col :
  count_documents (in_window uid (now - one_day)) col
  = submissions_in_last_day uid now col.
Proof.
  unfold count_documents, submissions_in_last_day, one_day. f_equal.
  induction col as [|x r IH]; [reflexivity|].
  rewrite filter_cons. simpl. unfold in_window at 1.
  destruct (decide _) as [[H1 H2]|Hn].
  - apply Z.eqb_eq in H1. apply Z.leb_le in H2. rewrite H1, H2. simpl. now rewrite IH.
  - destruct (Z.eqb_spec (s_user_id x) uid); simpl; [|exact IH].
    destruct (Z.leb_spec (now - 86400000) (s_created_at x)); [tauto|exact IH].
Qed.

Lemma submit_cmd_run u st :
  dm_ok u = true ->
  submit_cmd env u st =
  if MAX_SUBMISSIONS_PER_DAY env
     <=? submissions_in_last_day (uid_of u) (clock env (ticks st)) (ugc_col st)
  then (Ok END,
        with_outbox (fun o => o ++ [(uid_of u, "Daily submission limit reached. Try again tomorrow.")])
          (with_ticks S st))
  else (Ok (Next S_PLATFORM_URL),
        with_outbox (fun o => o ++ [(uid_of u, "Send your post URL (FB/IG/TikTok).")])
          (with_ticks S st)).
Proof.
  intros Hdm. rewrite <- count_in_window.
  unfold submit_cmd, dm_ok in *. mrun.
  destruct (effective_chat u) as [c|]; [rewrite Hdm|]; cbn [negb]; mrun;
    destruct (_ <=? _); reflexivity.
Qed.

Lemma window_count_app uid now l1 l2 :
  submissions_in_last_day uid now (l1 ++ l2)
  = submissions_in_last_day uid now l1 + submissions_in_last_day uid now l2.
Proof.
  unfold submissions_in_last_day. rewrite filter_app, length_app. lia.
Qed.

Lemma window_count_one uid t x :
  submissions_in_last_day uid t [x]
  = if (s_user_id x =? uid) && (t - 86400000 <=? s_created_at x) then 1 else 0.
Proof.
  rewrite <- count_in_window. unfold count_documents, in_window, one_day. simpl.
  destruct (_ && _); reflexivity.
Qed.

Lemma window_count_ext uid t t' l :
  (forall y, In y l -> s_user_id y = uid ->
             (t - 86400000 <= s_created_at y <-> t' - 86400000 <= s_created_at y)) ->
  submissions_in_last_day uid t l = submissions_in_last_day uid t' l.
Proof.
  unfold submissions_in_last_day. intros H. f_equal.
  induction l as [|x r IH]; [reflexivity|].
  rewrite !filter_cons.
  assert (Hr : length (filter (fun x => s_user_id x = uid /\ t - 86400000 <= s_created_at x) r)
             = length (filter (fun x => s_user_id x = uid /\ t' - 86400000 <= s_created_at x) r)).
  { apply IH. intros y Hy. apply H. now right. }
  specialize (H x (or_introl eq_refl)).
  destruct (decide _) as [[H1 H2]|Hn], (decide _) as [[H3 H4]|Hn']; simpl;
    try (now rewrite Hr); exfalso; tauto.
Qed.

(** C6.  Rate limit.  In a chat where the bot may be used, [/submit] is
    refused with the limit notice, ending the conversation, exactly when
    the user's submissions created within the 24 hours up to the clock
    reading (those created at most 86400000 ms before it, the bound
    included) number at least [MAX_SUBMISSIONS_PER_DAY]; below that the
    conversation goes on to the URL step.  The count is recomputed from the store, so
    when the oldest submission in the window has left it while the others
    are still inside, the count is lower by exactly one. *)
Theorem rate_limit (u : Update) (st : St) :
  dm_ok u = true ->
  let n := submissions_in_last_day (uid_of u) (clock env (ticks st)) (ugc_col st) in
  (MAX_SUBMISSIONS_PER_DAY env <= n <->
   fst (submit_cmd env u st) = Ok END /\
   last (outbox (snd (submit_cmd env u st)))
   = Some (uid_of u, "Daily submission limit reached. Try again tomorrow.")) /\
  (n < MAX_SUBMISSIONS_PER_DAY env ->
   fst (submit_cmd env u st) = Ok (Next S_PLATFORM_URL) /\
   last (outbox (snd (submit_cmd env u st)))
   = Some (uid_of u, "Send your post URL (FB/IG/TikTok).")) /\
  same_store st (snd (submit_cmd env u st)) /\
  (forall l1 x l2 t t',
     ugc_col st = l1 ++ x :: l2 ->
     s_user_id x = uid_of u ->
     t <= t' ->
     t - 86400000 <= s_created_at x < t' - 86400000 ->
     (forall y, In y (l1 ++ l2) -> s_user_id y = uid_of u ->
                t - 86400000 <= s_created_at y -> t' - 86400000 <= s_created_at y) ->
     submissions_in_last_day (uid_of u) t' (ugc_col st)
     = submissions_in_last_day (uid_of u) t (ugc_col st) - 1).
Proof.
  intros Hdm n. rewrite (submit_cmd_run u st Hdm). fold n.
  repeat match goal with |- _ /\ _ => split end.
  - split.
    + intros H. apply Z.leb_le in H. rewrite H. mrun.
      split; [reflexivity|apply last_snoc].
    + destruct (Z.leb_spec (MAX_SUBMISSIONS_PER_DAY env) n); [trivial|].
      intros [Hend _]. discriminate.
  - intros H. apply Z.leb_gt in H. rewrite H. mrun. split; [reflexivity|apply last_snoc].
  - destruct (_ <=? _); now repeat split.
  - intros l1 x l2 t t' Hcol Hx Ht [Hin Hout] Hothers. rewrite Hcol.
    change (x :: l2) with ([x] ++ l2). rewrite !window_count_app.
    assert (H1 : forall l, (forall y, In y l -> In y (l1 ++ l2)) ->
                   submissions_in_last_day (uid_of u) t' l
                   = submissions_in_last_day (uid_of u) t l).
    { intros l Hl. apply window_count_ext. intros y Hy Hu. split; [lia|].
      apply Hothers; auto. }
    rewrite (H1 l1) by (intros y Hy; apply in_or_app; now left).
    rewrite (H1 l2) by (intros y Hy; apply in_or_app; now right).
    rewrite !window_count_one, Hx, Z.eqb_refl. simpl.
    destruct (Z.leb_spec (t' - 86400000) (s_created_at x)); [lia|].
    destruct (Z.leb_spec (t - 86400000) (s_created_at x)); lia.
Qed.

Lemma staged_after_metrics_cmd (who : User) (a : string) (b : list string) st :
  user_data {| effective_chat := Some PRIVATE; effective_user := who;
               text := None; photo := b; args := [] |}
    (snd (metrics_cmd {| effective_chat := Some PRIVATE; effective_user := who;
                         text := None; photo := []; args := [a] |} st))
    !! "metrics_ugc_id" = Some (str_strip a).
Proof.
  unfold metrics_cmd. mrun.
  cbn [effective_chat effective_user args is_private negb]. mrun.
  unfold user_data at 1.
  cbn [sessions with_outbox with_sessions]. unfold uid_of. cbn [effective_user].
  rewrite lookup_insert_eq. cbn [default]. apply lookup_insert_eq.
Qed.

(** C10 (what the code does).  A malformed id is not turned into a reply:
    in a private chat [/status abc] raises [InvalidId] out of the handler
    and sends nothing; so does the photo that follows [/metrics abc]. *)
Theorem malformed_id_raises (st : St) (who : User) (b : string) :
  status_cmd env
    {| effective_chat := Some PRIVATE; effective_user := who;
       text := None; photo := []; args := ["abc"] |} st
  = (Raise (InvalidId "abc"), st) /\
  let st1 := snd (metrics_cmd
                    {| effective_chat := Some PRIVATE; effective_user := who;
                       text := None; photo := []; args := ["abc"] |} st) in
  metrics_got_proof env
    {| effective_chat := Some PRIVATE; effective_user := who;
       text := None; photo := [b]; args := [] |} st1
  = (Raise (InvalidId "abc"), st1).
Proof.
  split; [reflexivity|]. intros st1.
  now rewrite (metrics_entry env _ st1 "abc" b (staged_after_metrics_cmd who "abc" [b] st)).
Qed.

End Policies.

(* ===================================================================== *)
(** ** The fingerprint of a link *)
(* ===================================================================== *)

Lemma user_data_set u m st :
  user_data u (with_sessions (insert (uid_of u) m) st) = m.
Proof.
  unfold user_data. cbn [sessions with_sessions]. now rewrite lookup_insert_eq.
Qed.

Lemma user_data_outbox u f st : user_data u (with_outbox f st) = user_data u st.
Proof. reflexivity. Qed.

Section Links.

Variable env : Env.



End Links.


Example fingerprint_of_padded_link :
  fingerprintURL Scenario.env "tt" ("  HTTPS://TikTok.com/@x/video/1#Comment " +:+ nl)
  = "fdb708e8ae13cf2946171fde4d120d4f81beda89ba2381cc9f56840c596c42f7".
Proof. vm_compute. reflexivity. Qed.

Example fingerprint_after_blank_fragment :
  fingerprintURL Scenario.env "tt" "https://tiktok.com/@x/video/1 #fyp"
  = "173fcc0ee5d85d6961aa8c713f978b7d7d1872d7f76718f07106248b098e773d".
Proof. vm_compute. reflexivity. Qed.

Example fingerprint_two_line_fragment :
  fingerprintURL Scenario.env "tt" ("https://tiktok.com/@x/video/1#a" +:+ nl +:+ "b")
  = "441c622f3a49846b773287fc3affd7aff174a125c8917a391b0ded214f85449e".
Proof. vm_compute. reflexivity. Qed.

(** Trimming and counting follow Unicode: a no-break space and an em
    space around a link are trimmed like blanks, and a caption of three
    ideographs counts three, not nine. *)
Example strip_unicode_white_space :
  str_strip (utf8 160 +:+ utf8 8195 +:+ "https://tiktok.com/@x" +:+ utf8 12288 +:+ " ")
  = "https://tiktok.com/@x".
Proof. vm_compute. reflexivity. Qed.

Example len_counts_code_points :
  str_len (utf8 22909 +:+ utf8 30475 +:+ "!") = 3%nat.
Proof. vm_compute. reflexivity. Qed.

(* ===================================================================== *)
(** ** What every run keeps *)
(* ===================================================================== *)

Lemma map_update_one {A B} (g : A -> B) (p : A -> bool) (f : A -> A) col :
  (forall x, g (f x) = g x) -> map g (update_one p f col) = map g col.
Proof.
  intros Hg. induction col as [|x r IH]; simpl; [reflexivity|].
  destruct (p x); simpl; [now rewrite Hg|now rewrite IH].
Qed.

Lemma not_in_ids i col :
  existsb (has_id i) col = false -> ~ In i (map s_id col).
Proof.
  induction col as [|x r IH]; simpl; [tauto|]. intros H.
  apply orb_false_iff in H as [H1 H2]. intros [Heq|Hin]; [|now apply IH].
  unfold has_id in H1. rewrite Heq, oid_eqb_refl in H1. discriminate.
Qed.

Lemma not_in_post_keys p h col :
  existsb (same_post p h) col = false -> ~ In (p, h) (map post_key col).
Proof.
  induction col as [|x r IH]; simpl; [tauto|]. intros H.
  apply orb_false_iff in H as [H1 H2]. intros [Heq|Hin]; [|now apply IH].
  unfold post_key in Heq. injection Heq as Hp Hh.
  unfold same_post in H1. rewrite Hp, Hh, !String.eqb_refl in H1. discriminate.
Qed.

Lemma not_in_entry_keys k t col :
  existsb (ledger_key k t) col = false -> ~ In (k, t) (map entry_key col).
Proof.
  induction col as [|x r IH]; simpl; [tauto|]. intros H.
  apply orb_false_iff in H as [H1 H2]. intros [Heq|Hin]; [|now apply IH].
  unfold entry_key in Heq. injection Heq as Hp Hh.
  unfold ledger_key in H1. rewrite Hp, Hh, !String.eqb_refl in H1. discriminate.
Qed.

Lemma NoDup_snoc_fresh {A} (l : list A) (x : A) :
  NoDup l -> ~ In x l -> NoDup (l ++ [x]).
Proof.
  intros Hl Hx. apply NoDup_app. split; [exact Hl|].
  split; [|apply NoDup_singleton].
  intros y Hy Hy'. apply list_elem_of_singleton in Hy'. subst y.
  apply Hx. now apply list_elem_of_In.
Qed.

Lemma NoDup_upsert (k t : string) (d : LedgerEntry) col :
  entry_key d = (k, t) ->
  NoDup (map entry_key col) ->
  NoDup (map entry_key (upsert_on_insert (ledger_key k t) d col)).
Proof.
  intros Hd Hnd. unfold upsert_on_insert.
  destruct (existsb (ledger_key k t) col) eqn:E; [exact Hnd|].
  rewrite map_app. simpl. apply NoDup_snoc_fresh; [exact Hnd|].
  rewrite Hd. now apply not_in_entry_keys.
Qed.

Lemma evolves_refl x : evolves x x.
Proof. unfold evolves. tauto. Qed.

Lemma evolves_trans x y z : evolves x y -> evolves y z -> evolves x z.
Proof.
  unfold evolves. intros H1 H2.
  decompose [and] H1. decompose [and] H2.
  repeat split; try congruence; auto.
Qed.

Lemma code_evolves_refl c : code_evolves c c.
Proof. unfold code_evolves. tauto. Qed.

Lemma code_evolves_trans a b c : code_evolves a b -> code_evolves b c -> code_evolves a c.
Proof.
  unfold code_evolves. intros (H1 & H2 & H3) (H4 & H5 & H6).
  repeat split; try congruence; auto.
Qed.

Lemma Forall2_update_one {A} (R : A -> A -> Prop) (p : A -> bool) (f : A -> A) col :
  (forall x, R x x) -> (forall x, R x (f x)) -> Forall2 R col (update_one p f col).
Proof.
  intros Hr Hf. induction col as [|x r IH]; simpl; [constructor|].
  destruct (p x); constructor; auto.
  clear IH. induction r; constructor; auto.
Qed.

Lemma Forall2_refl_list {A} (R : A -> A -> Prop) (l : list A) :
  (forall x, R x x) -> Forall2 R l l.
Proof. intros Hr. induction l; constructor; auto. Qed.

Lemma Forall2_trans_list {A} (R : A -> A -> Prop) :
  (forall x y z, R x y -> R y z -> R x z) ->
  forall l1 l2 l3, Forall2 R l1 l2 -> Forall2 R l2 l3 -> Forall2 R l1 l3.
Proof.
  intros Ht l1 l2 l3 H12. revert l3.
  induction H12 as [|x y l1 l2 Hxy _ IH]; intros l3 H23; inversion H23; subst;
    constructor; eauto.
Qed.

Lemma find_one_Forall2 {A} (R : A -> A -> Prop) (p : A -> bool) l l' x :
  Forall2 R l l' -> (forall a a', R a a' -> p a' = p a) ->
  find_one p l = Some x -> exists x', find_one p l' = Some x' /\ R x x'.
Proof.
  intros HF Hp. unfold find_one.
  induction HF as [|a a' l l' Ha _ IH]; simpl; [discriminate|].
  rewrite (Hp a a' Ha). destruct (p a); [|exact IH].
  intros [= ->]. eauto.
Qed.

Lemma code_evolves_has_code c a a' : code_evolves a a' -> has_code c a' = has_code c a.
Proof. intros (H & _). unfold has_code. now rewrite H. Qed.

Section Invariants.

Variable env : Env.

Lemma run_cons e es st : run env (e :: es) st = run env es (step env st e).
Proof. reflexivity. Qed.

Lemma effect_ugc_indexes st st' e :
  Effect env st st' e -> ugc_indexes_ok (ugc_col st) -> ugc_indexes_ok (ugc_col st').
Proof.
  intros [e0 (Hu & _) | new_id u d t _ _ _ Hc Hu _ _ | u s o b x _ _ _ _ Hu _ _]
    [Hid Hpost].
  - rewrite Hu. now split.
  - destruct (conflict_split _ _ Hc) as [Ei Ep]. simpl in Ei, Ep.
    rewrite Hu. unfold ugc_indexes_ok. rewrite !map_app. simpl.
    split; apply NoDup_snoc_fresh; try assumption.
    + destruct (String.eqb t "T1"); simpl; now apply not_in_ids.
    + destruct (String.eqb t "T1"); unfold post_key; simpl; now apply not_in_post_keys.
  - rewrite Hu. unfold ugc_indexes_ok.
    rewrite !map_update_one by reflexivity. now split.
Qed.

(** X1.  The unique indexes of [ugc_submissions] ([_id], and (platform,
    post_hash) built by [ensure_indexes]) hold after every run of updates
    from a store in which they hold: no commit ever stores a second record
    for an id or for a post. *)
Theorem ugc_indexes_kept (es : list Event) (st : St) :
  ugc_indexes_ok (ugc_col st) -> ugc_indexes_ok (ugc_col (run env es st)).
Proof.
  revert st. induction es as [|e es IH]; intros st H; [exact H|].
  rewrite run_cons. apply IH.
  exact (effect_ugc_indexes st _ e (step_effect env e st) H).
Qed.

Lemma effect_ledger_index st st' e :
  Effect env st st' e -> ledger_index_ok (ledger_col st) -> ledger_index_ok (ledger_col st').
Proof.
  unfold ledger_index_ok.
  intros [e0 (_ & _ & Hl) | new_id u d t _ _ _ _ _ _ Hl | u s o b x _ _ _ _ _ _ Hl] H.
  - now rewrite Hl.
  - rewrite Hl. destruct (String.eqb t "T1"); [|exact H].
    now apply NoDup_upsert.
  - rewrite Hl. now apply NoDup_upsert.
Qed.

(** X2.  The unique index of [reward_ledger] on (ugc_id, tier) holds after
    every run from a ledger in which it holds. *)
Theorem ledger_index_kept (es : list Event) (st : St) :
  ledger_index_ok (ledger_col st) -> ledger_index_ok (ledger_col (run env es st)).
Proof.
  revert st. induction es as [|e es IH]; intros st H; [exact H|].
  rewrite run_cons. apply IH.
  exact (effect_ledger_index st _ e (step_effect env e st) H).
Qed.

Lemma effect_ledger_grows st st' e :
  Effect env st st' e -> exists added, ledger_col st' = ledger_col st ++ added.
Proof.
  intros [e0 (_ & _ & Hl) | new_id u d t _ _ _ _ _ _ Hl | u s o b x _ _ _ _ _ _ Hl];
    rewrite Hl.
  - exists []. now rewrite app_nil_r.
  - destruct (String.eqb t "T1"); [|exists []; now rewrite app_nil_r].
    unfold upsert_on_insert. destruct (existsb _ _); [exists []; now rewrite app_nil_r|].
    eauto.
  - unfold upsert_on_insert. destruct (existsb _ _); [exists []; now rewrite app_nil_r|].
    eauto.
Qed.

(** X3.  The ledger is append-only: whatever updates are handled, the
    entries there were are still there, unchanged and in place, followed
    by the new ones. *)
Theorem ledger_append_only (es : list Event) (st : St) :
  exists added, ledger_col (run env es st) = ledger_col st ++ added.
Proof.
  revert st. induction es as [|e es IH]; intros st.
  - exists []. now rewrite app_nil_r.
  - rewrite run_cons. destruct (IH (step env st e)) as (k & Hk).
    destruct (effect_ledger_grows st _ e (step_effect env e st)) as (k' & Hk').
    rewrite Hk, Hk', <- app_assoc. eauto.
Qed.

Lemma set_metrics_evolves m t1 t2 x : evolves x (set_metrics m t1 t2 x).
Proof. unfold evolves. simpl. repeat split; auto; discriminate. Qed.

Lemma effect_submissions st st' e :
  Effect env st st' e ->
  exists kept added, ugc_col st' = kept ++ added /\ Forall2 evolves (ugc_col st) kept.
Proof.
  intros [e0 (Hu & _) | new_id u d t _ _ _ _ Hu _ _ | u s o b x _ _ _ _ Hu _ _];
    rewrite Hu.
  - exists (ugc_col st), []. rewrite app_nil_r. split; [reflexivity|].
    apply Forall2_refl_list, evolves_refl.
  - eexists _, _. split; [reflexivity|]. apply Forall2_refl_list, evolves_refl.
  - eexists _, []. rewrite app_nil_r. split; [reflexivity|].
    apply Forall2_update_one; [apply evolves_refl|apply set_metrics_evolves].
Qed.

(** X4.  Submissions are never deleted, reordered or re-keyed: after any
    run, the records there were are still there in place, each with the
    same id, owner, platform, link, fingerprint, code, caption, proof,
    claimed tier and creation time; one that was validated is still
    validated.  New records come after them. *)
Theorem submissions_only_evolve (es : list Event) (st : St) :
  exists kept added,
    ugc_col (run env es st) = kept ++ added /\
    Forall2 evolves (ugc_col st) kept.
Proof.
  revert st. induction es as [|e es IH]; intros st.
  - exists (ugc_col st), []. rewrite app_nil_r. split; [reflexivity|].
    apply Forall2_refl_list, evolves_refl.
  - rewrite run_cons. destruct (IH (step env st e)) as (l & k & Hk & Hl).
    destruct (effect_submissions st _ e (step_effect env e st)) as (l' & k' & Hk' & Hl').
    rewrite Hk' in Hl.
    apply Forall2_app_inv_l in Hl as (l1 & l2 & H1 & H2 & ->).
    exists l1, (l2 ++ k). rewrite Hk, <- app_assoc. split; [reflexivity|].
    eapply Forall2_trans_list; [exact evolves_trans|exact Hl'|exact H1].
Qed.

Lemma consume_code_evolves t i c : code_evolves c (consume_code t i c).
Proof. unfold code_evolves. simpl. auto. Qed.

Lemma effect_codes st st' e :
  Effect env st st' e -> Forall2 code_evolves (code_col st) (code_col st').
Proof.
  intros [e0 (_ & Hc & _) | new_id u d t _ _ _ _ _ Hc _ | u s o b x _ _ _ _ _ Hc _];
    rewrite Hc; try (apply Forall2_refl_list, code_evolves_refl).
  apply Forall2_update_one; [apply code_evolves_refl|apply consume_code_evolves].
Qed.

(** A code found used stays found and used along a run. *)
Lemma run_used_code c es : forall st doc,
  find_one (has_code c) (code_col st) = Some doc -> c_status doc = Some "used" ->
  exists doc', find_one (has_code c) (code_col (run env es st)) = Some doc' /\
               c_status doc' = Some "used".
Proof.
  induction es as [|e es IH]; intros st doc Hf Hs; [eauto|].
  rewrite run_cons.
  destruct (find_one_Forall2 code_evolves (has_code c) _ _ doc
              (effect_codes st _ e (step_effect env e st))
              (code_evolves_has_code c) Hf) as (doc1 & Hf1 & (_ & _ & Hused)).
  exact (IH _ doc1 Hf1 (Hused Hs)).
Qed.

(** X5.  The code collection is only ever marked: after any run it holds
    the same codes with the same bindings in the same order, none added
    or removed, and a code that was used is still used. *)
Theorem codes_only_get_used (es : list Event) (st : St) :
  Forall2 code_evolves (code_col st) (code_col (run env es st)).
Proof.
  revert st. induction es as [|e es IH]; intros st.
  - apply Forall2_refl_list, code_evolves_refl.
  - rewrite run_cons.
    eapply Forall2_trans_list; [exact code_evolves_trans| |apply IH].
    exact (effect_codes st _ e (step_effect env e st)).
Qed.

Lemma in_update_one {A} (p : A -> bool) (f : A -> A) col x :
  In x col -> exists x', In x' (update_one p f col) /\ (x' = x \/ x' = f x).
Proof.
  induction col as [|y r IH]; simpl; [tauto|]. intros [->|Hin].
  - destruct (p x); eexists; split; [left; reflexivity|auto|left; reflexivity|auto].
  - destruct (p y).
    + exists x. split; [now right|now left].
    + destruct (IH Hin) as (x' & Hx' & Hor). exists x'. split; [now right|exact Hor].
Qed.

Lemma entry_sound_mono ugc ugc' e :
  (forall x, In x ugc -> exists x', In x' ugc' /\ s_id x' = s_id x /\ s_user_id x' = s_user_id x) ->
  entry_sound env ugc e -> entry_sound env ugc' e.
Proof.
  intros Hm (Ht & Hs & x & Hin & Hr & Hu).
  destruct (Hm x Hin) as (x' & Hin' & Hi & Hu').
  split; [exact Ht|]. split; [exact Hs|].
  exists x'. rewrite Hi, Hu'. auto.
Qed.

Lemma effect_ledger_sound st st' e :
  Effect env st st' e -> event_ok e -> ledger_sound env st -> ledger_sound env st'.
Proof.
  unfold ledger_sound.
  intros [e0 (Hu & _ & Hl) | new_id u d t _ _ Ht _ Hu _ Hl | u s o b x _ Ho _ Hx Hu _ Hl]
    Hok H.
  - now rewrite Hu, Hl.
  - assert (Hold : Forall (entry_sound env (ugc_col st')) (ledger_col st)).
    { eapply Forall_impl; [exact H|]. intros e1. apply entry_sound_mono.
      intros y Hy. exists y. rewrite Hu. split; [apply in_or_app; now left|auto]. }
    rewrite Hl. destruct (String.eqb t "T1") eqn:E; [|exact Hold].
    unfold upsert_on_insert. destruct (existsb _ _); [exact Hold|].
    apply Forall_app. split; [exact Hold|]. constructor; [|constructor].
    unfold entry_sound.
    split; [left; split; [|split]; reflexivity|]. split; [reflexivity|].
    eexists. split; [rewrite Hu; apply in_or_app; right; left; reflexivity|].
    simpl in Hok. unfold refers_to. simpl.
    rewrite (parse_oid_str new_id Hok), oid_eqb_refl. now split.
  - assert (Hkeep : forall y, In y (ugc_col st) ->
              exists y', In y' (ugc_col st') /\ s_id y' = s_id y /\ s_user_id y' = s_user_id y).
    { intros y Hy. rewrite Hu.
      destruct (in_update_one (has_id o)
                  (set_metrics (sha256_bytes b) (clock env (ticks st))
                     (clock env (S (ticks st)))) _ y Hy) as (y' & Hy' & Hor).
      exists y'. split; [exact Hy'|]. destruct Hor as [->| ->]; split; reflexivity. }
    assert (Hold : Forall (entry_sound env (ugc_col st')) (ledger_col st)).
    { eapply Forall_impl; [exact H|]. intros e1. now apply entry_sound_mono. }
    rewrite Hl. unfold upsert_on_insert. destruct (existsb _ _); [exact Hold|].
    apply Forall_app. split; [exact Hold|]. constructor; [|constructor].
    unfold entry_sound.
    split; [right; split; [|split]; reflexivity|]. split; [reflexivity|].
    apply find_one_holds in Hx as [Hown Hin].
    unfold owned_by in Hown. apply andb_true_iff in Hown as [Hid Huid].
    apply oid_eqb_eq in Hid. apply Z.eqb_eq in Huid.
    destruct (Hkeep x Hin) as (x' & Hin' & Hi' & Hu').
    exists x'. split; [exact Hin'|]. unfold refers_to. simpl.
    rewrite Ho, Hi', Hid, oid_eqb_refl. split; [reflexivity|]. congruence.
Qed.

(** X6.  Rewards are sound.  If every ledger entry has the amount and
    pool of its tier (1 and the T1 pool, or 5 and the T2 pool), is
    pending, and refers to a stored submission owned by the rewarded
    user, then so does every entry after any run of updates (ids drawn by
    the driver being well formed): nothing is ever granted for a
    submission that does not exist or to somebody who does not own it. *)
Theorem rewards_stay_sound (es : list Event) (st : St) :
  Forall event_ok es -> ledger_sound env st -> ledger_sound env (run env es st).
Proof.
  revert st. induction es as [|e es IH]; intros st Hok H; [exact H|].
  inversion Hok; subst. rewrite run_cons. apply IH; [assumption|].
  now apply (effect_ledger_sound st _ e (step_effect env e st)).
Qed.

(** X7.  Abandoned sessions leave no trace in the store: updates handled
    by the commands and the staging steps (anything but the commit and
    the metrics photo) change none of the three collections. *)
Theorem staging_leaves_store (es : list Event) (st : St) :
  forallb is_staging es = true -> same_store st (run env es st).
Proof.
  revert st. induction es as [|e es IH]; intros st H; [apply same_store_refl|].
  simpl in H. apply andb_true_iff in H as [He Hes]. rewrite run_cons.
  destruct (IH (step env st e) Hes) as (H1 & H2 & H3).
  assert (Hs : same_store st (step env st e)).
  { unfold step. destruct e; simpl in He; try discriminate; simpl handle;
      first [ apply start_same | apply submit_cmd_same | apply submit_got_url_same
            | apply submit_got_code_same | apply submit_got_caption_same
            | apply submit_got_proof_same | apply metrics_cmd_same
            | apply status_cmd_same ]. }
  destruct Hs as (H4 & H5 & H6). unfold same_store. rewrite H1, H2, H3. auto.
Qed.

Ltac all_handlers :=
  unfold step, handle, start, submit_cmd, submit_got_url, submit_got_code,
    submit_got_caption, submit_got_proof, metrics_cmd, status_cmd;
  mrun.

(** A commit asks again, or raises [KeyError] without a trace, or has a
    complete draft to work on. *)
Lemma commit_cases (new_id : ObjectId) (u : Update) (st : St) :
  submit_got_tier env new_id u st
  = (Ok (Next S_TIER),
     with_outbox (fun o => o ++ [(uid_of u, "Invalid. Reply with T1 or T2.")]) st) \/
  (exists k, submit_got_tier env new_id u st = (Raise (KeyError k), st)) \/
  ((tier_of env u = "T1" \/ tier_of env u = "T2") /\ exists d, has_draft u st d).
Proof.
  destruct (negb (String.eqb (tier_of env u) "T1" || String.eqb (tier_of env u) "T2")) eqn:Hv.
  { left. unfold submit_got_tier. fold (tier_of env u). now rewrite Hv. }
  assert (Ht : tier_of env u = "T1" \/ tier_of env u = "T2").
  { apply negb_false_iff, orb_true_iff in Hv as [Hv|Hv];
      apply String.eqb_eq in Hv; auto. }
  right.
  destruct (user_data u st !! "platform") as [p|] eqn:H1.
  2:{ left. eexists. unfold submit_got_tier. fold (tier_of env u). rewrite Hv. mrun.
      now rewrite H1. }
  destruct (user_data u st !! "post_url") as [pu|] eqn:H2.
  2:{ left. eexists. unfold submit_got_tier. fold (tier_of env u). rewrite Hv. mrun.
      now rewrite H1, H2. }
  destruct (user_data u st !! "post_hash") as [h|] eqn:H3.
  2:{ left. eexists. unfold submit_got_tier. fold (tier_of env u). rewrite Hv. mrun.
      now rewrite H1, H2, H3. }
  destruct (user_data u st !! "ugc_code") as [c|] eqn:H4.
  2:{ left. eexists. unfold submit_got_tier. fold (tier_of env u). rewrite Hv. mrun.
      now rewrite H1, H2, H3, H4. }
  destruct (user_data u st !! "caption") as [cap|] eqn:H5.
  2:{ left. eexists. unfold submit_got_tier. fold (tier_of env u). rewrite Hv. mrun.
      now rewrite H1, H2, H3, H4, H5. }
  destruct (user_data u st !! "proof_sha256") as [pr|] eqn:H6.
  2:{ left. eexists. unfold submit_got_tier. fold (tier_of env u). rewrite Hv. mrun.
      now rewrite H1, H2, H3, H4, H5, H6. }
  right. split; [exact Ht|].
  exists {| d_platform := p; d_post_url := pu; d_post_hash := h;
            d_ugc_code := c; d_caption := cap; d_proof_sha256 := pr |}.
  now repeat split.
Qed.

(** X10.  A commit is tried only on a complete draft.  With a tier token
    other than T1 or T2 the step asks again and changes nothing else; with
    a valid token but a staged field missing it raises [KeyError] for the
    first missing one (in the order platform, post_url, post_hash,
    ugc_code, caption, proof_sha256) before reading the clock or touching
    the store, leaving the state exactly as it was; otherwise all six
    fields are there. *)
Theorem commit_needs_complete_draft (new_id : ObjectId) (u : Update) (st : St) :
  (tier_of env u <> "T1" /\ tier_of env u <> "T2" /\
   submit_got_tier env new_id u st
   = (Ok (Next S_TIER),
      with_outbox (fun o => o ++ [(uid_of u, "Invalid. Reply with T1 or T2.")]) st)) \/
  ((tier_of env u = "T1" \/ tier_of env u = "T2") /\
   exists present k later,
     present ++ k :: later
     = ["platform"; "post_url"; "post_hash"; "ugc_code"; "caption"; "proof_sha256"] /\
     Forall (fun k' => user_data u st !! k' <> None) present /\
     user_data u st !! k = None /\
     submit_got_tier env new_id u st = (Raise (KeyError k), st)) \/
  ((tier_of env u = "T1" \/ tier_of env u = "T2") /\ exists d, has_draft u st d).
Proof.
  destruct (negb (String.eqb (tier_of env u) "T1" || String.eqb (tier_of env u) "T2")) eqn:Hv.
  { left. apply negb_true_iff, orb_false_iff in Hv as [H1 H2].
    apply String.eqb_neq in H1, H2. split; [exact H1|]. split; [exact H2|].
    unfold submit_got_tier. fold (tier_of env u).
    apply String.eqb_neq in H1, H2. rewrite H1, H2. reflexivity. }
  assert (Ht : tier_of env u = "T1" \/ tier_of env u = "T2").
  { apply negb_false_iff, orb_true_iff in Hv as [Hv|Hv];
      apply String.eqb_eq in Hv; auto. }
  right.
  destruct (user_data u st !! "platform") as [p|] eqn:H1;
    [|left; split; [exact Ht|]; exists [], "platform"; eexists;
      split; [reflexivity|]; split; [constructor|];
      split; [exact H1|]; unfold submit_got_tier; fold (tier_of env u); rewrite Hv;
      mrun; now rewrite H1].
  destruct (user_data u st !! "post_url") as [pu|] eqn:H2;
    [|left; split; [exact Ht|]; exists ["platform"], "post_url"; eexists;
      split; [reflexivity|]; split; [repeat constructor; congruence|];
      split; [exact H2|]; unfold submit_got_tier; fold (tier_of env u); rewrite Hv;
      mrun; now rewrite H1, H2].
  destruct (user_data u st !! "post_hash") as [h|] eqn:H3;
    [|left; split; [exact Ht|]; exists ["platform"; "post_url"], "post_hash"; eexists;
      split; [reflexivity|]; split; [repeat constructor; congruence|];
      split; [exact H3|]; unfold submit_got_tier; fold (tier_of env u); rewrite Hv;
      mrun; now rewrite H1, H2, H3].
  destruct (user_data u st !! "ugc_code") as [c|] eqn:H4;
    [|left; split; [exact Ht|];
      exists ["platform"; "post_url"; "post_hash"], "ugc_code"; eexists;
      split; [reflexivity|]; split; [repeat constructor; congruence|];
      split; [exact H4|]; unfold submit_got_tier; fold (tier_of env u); rewrite Hv;
      mrun; now rewrite H1, H2, H3, H4].
  destruct (user_data u st !! "caption") as [cap|] eqn:H5;
    [|left; split; [exact Ht|];
      exists ["platform"; "post_url"; "post_hash"; "ugc_code"], "caption"; eexists;
      split; [reflexivity|]; split; [repeat constructor; congruence|];
      split; [exact H5|]; unfold submit_got_tier; fold (tier_of env u); rewrite Hv;
      mrun; now rewrite H1, H2, H3, H4, H5].
  destruct (user_data u st !! "proof_sha256") as [pr|] eqn:H6;
    [|left; split; [exact Ht|];
      exists ["platform"; "post_url"; "post_hash"; "ugc_code"; "caption"], "proof_sha256";
      eexists;
      split; [reflexivity|]; split; [repeat constructor; congruence|];
      split; [exact H6|]; unfold submit_got_tier; fold (tier_of env u); rewrite Hv;
      mrun; now rewrite H1, H2, H3, H4, H5, H6].
  right. split; [exact Ht|].
  exists {| d_platform := p; d_post_url := pu; d_post_hash := h;
            d_ugc_code := c; d_caption := cap; d_proof_sha256 := pr |}.
  now repeat split.
Qed.

(** The three ways the metrics step goes before it looks the id up. *)
Lemma metrics_cases u st :
  (metrics_got_proof env u st
   = (Ok END, with_outbox (fun o => o ++ [(uid_of u, "Missing ugc_id. Use /metrics <ugc_id> again.")]) st)) \/
  (metrics_got_proof env u st
   = (Ok (Next S_METRICS_PROOF),
      with_outbox (fun o => o ++ [(uid_of u, "Please upload as a photo. Try again.")]) st)) \/
  (exists s b, user_data u st !! "metrics_ugc_id" = Some s /\ s <> EmptyString /\
               last (photo u) = Some b).
Proof.
  destruct (user_data u st !! "metrics_ugc_id") as [s|] eqn:Hs;
    [|left; unfold metrics_got_proof; mrun; now rewrite Hs].
  destruct (string_dec s EmptyString) as [->|Hne];
    [left; unfold metrics_got_proof; mrun; now rewrite Hs|].
  destruct (last (photo u)) as [b|] eqn:Hb.
  - right. right. now exists s, b.
  - right. left. unfold metrics_got_proof. mrun. rewrite Hs.
    destruct s; [congruence|]. now rewrite Hb.
Qed.

(** X8.  One reply per update: a handler that returns has sent exactly
    one message, to the sender of the update; a handler that raises
    ([KeyError], [InvalidId], [TypeError]) has sent none. *)
Theorem one_reply_per_update (e : Event) (st : St) :
  match fst (handle env e st) with
  | Ok _ => exists m, outbox (step env st e) = outbox st ++ [(sender e, m)]
  | Raise _ => outbox (step env st e) = outbox st
  end.
Proof.
  destruct e;
    try (all_handlers; repeat case_match; simplify_eq; mrun;
         solve [reflexivity | eexists; reflexivity]).
  - unfold step, handle, sender.
    destruct (commit_cases new_id u st)
      as [-> | [(k & ->) | (Ht & d & Hd)]];
      [mrun; eexists; reflexivity|reflexivity|].
    rewrite (commit_entry env new_id u st d (tier_of env u) Hd eq_refl Ht). cbv zeta.
    destruct (existsb _ _); [destruct (find_one _ _)|destruct (String.eqb _ _)];
      mrun; solve [reflexivity | eexists; reflexivity].
  - unfold step, handle, sender.
    destruct (metrics_cases u st) as [-> | [-> | (s & b & Hs & Hne & Hb)]];
      [mrun; eexists; reflexivity..|].
    rewrite (metrics_entry env u st s b Hs Hne Hb).
    destruct (parse_oid s); [destruct (find_one _ _)|];
      mrun; solve [reflexivity | eexists; reflexivity].
Qed.

Lemma step_sessions_private (e : Event) (st : St) (v : Z) :
  v <> sender e -> sessions (step env st e) !! v = sessions st !! v.
Proof.
  intros Hv.
  destruct e;
    try (all_handlers; repeat case_match; simplify_eq; mrun;
         simpl in Hv; rewrite ?lookup_insert_ne by congruence; reflexivity).
  - unfold step, handle.
    destruct (commit_cases new_id u st)
      as [-> | [(k & ->) | (Ht & d & Hd)]];
      [reflexivity..|].
    rewrite (commit_entry env new_id u st d (tier_of env u) Hd eq_refl Ht). cbv zeta.
    destruct (existsb _ _); [destruct (find_one _ _)|destruct (String.eqb _ _)];
      reflexivity.
  - unfold step, handle.
    destruct (metrics_cases u st) as [-> | [-> | (s & b & Hs & Hne & Hb)]];
      [reflexivity..|].
    rewrite (metrics_entry env u st s b Hs Hne Hb).
    destruct (parse_oid s); [destruct (find_one _ _)|]; reflexivity.
Qed.

(** X9.  Sessions are private: a run of updates none of which comes from
    user [v] leaves the data staged for [v] ([context.user_data]) as it
    was. *)
Theorem sessions_are_private (es : list Event) (st : St) (v : Z) :
  Forall (fun e => sender e <> v) es ->
  sessions (run env es st) !! v = sessions st !! v.
Proof.
  revert st. induction es as [|e es IH]; intros st H; [reflexivity|].
  inversion H; subst. rewrite run_cons, IH by assumption.
  apply step_sessions_private. congruence.
Qed.

End Invariants.

(* ===================================================================== *)
(** ** How the steps compose *)
(* ===================================================================== *)

Section Flows.

Variable env : Env.

Lemma user_data_staged u st : user_data u st = staged_for (uid_of u) st.
Proof. reflexivity. Qed.

Lemma staged_for_run es st v :
  Forall (fun e => sender e <> v) es ->
  staged_for v (run env es st) = staged_for v st.
Proof.
  revert st. induction es as [|e es IH]; intros st H; [reflexivity|].
  inversion H; subst. rewrite run_cons, IH by assumption.
  unfold staged_for. rewrite step_sessions_private; [reflexivity|congruence].
Qed.

Lemma url_step_stages u st p :
  detect_platform env (normalize_url (default "" (text u))) = Some p ->
  staged_for (uid_of u) (step env st (EvUrl u))
  = <["post_hash" := post_hash_of env p (normalize_url (default "" (text u)))]>
      (<["post_url" := normalize_url (default "" (text u))]>
         (<["platform" := p]> (staged_for (uid_of u) st))).
Proof.
  intros Hp. unfold step, handle, submit_got_url. rewrite Hp. mrun.
  rewrite <- !user_data_staged. rewrite user_data_outbox, !user_data_set.
  reflexivity.
Qed.

Lemma code_step_stages u st :
  fst (submit_got_code u st) = Ok (Next S_CAPTION) ->
  staged_for (uid_of u) (step env st (EvCode u))
  = <["ugc_code" := str_strip (default "" (text u))]> (staged_for (uid_of u) st).
Proof.
  unfold step, handle, submit_got_code. mrun.
  repeat case_match; simplify_eq; mrun; try discriminate; intros _;
    rewrite <- !user_data_staged; now rewrite user_data_outbox, !user_data_set.
Qed.

Lemma caption_step_stages u st :
  fst (submit_got_caption u st) = Ok (Next S_PROOF) ->
  staged_for (uid_of u) (step env st (EvCaption u))
  = <["caption" := str_strip (default "" (text u))]> (staged_for (uid_of u) st).
Proof.
  unfold step, handle, submit_got_caption. mrun.
  repeat case_match; simplify_eq; mrun; try discriminate; intros _;
    rewrite <- !user_data_staged; now rewrite user_data_outbox, !user_data_set.
Qed.

Lemma proof_step_stages u st b :
  last (photo u) = Some b ->
  staged_for (uid_of u) (step env st (EvProof u))
  = <["proof_sha256" := sha256_bytes b]> (staged_for (uid_of u) st).
Proof.
  intros Hb. unfold step, handle, submit_got_proof. rewrite Hb. mrun.
  rewrite <- !user_data_staged. now rewrite user_data_outbox, !user_data_set.
Qed.

(** X11.  The four staging steps build a complete draft.  When a user's
    link is accepted, then a code of theirs, then a caption, then a photo,
    with any updates of other users handled in between, the user's staged
    data holds the platform tag, the normalized link, its fingerprint, the
    trimmed code, the trimmed caption and the digest of the last (largest)
    photo size; so the commit that follows finds all six fields. *)
Theorem staging_builds_draft (u1 u2 u3 u4 u5 : Update) (es1 es2 es3 es4 : list Event)
    (st : St) (p b : string) (v : Z) :
  uid_of u1 = v -> uid_of u2 = v -> uid_of u3 = v -> uid_of u4 = v -> uid_of u5 = v ->
  Forall (fun e => sender e <> v) (es1 ++ es2 ++ es3 ++ es4) ->
  detect_platform env (normalize_url (default "" (text u1))) = Some p ->
  let st1 := run env es1 (step env st (EvUrl u1)) in
  fst (submit_got_code u2 st1) = Ok (Next S_CAPTION) ->
  let st2 := run env es2 (step env st1 (EvCode u2)) in
  fst (submit_got_caption u3 st2) = Ok (Next S_PROOF) ->
  let st3 := run env es3 (step env st2 (EvCaption u3)) in
  last (photo u4) = Some b ->
  let st4 := run env es4 (step env st3 (EvProof u4)) in
  has_draft u5 st4
    {| d_platform := p;
       d_post_url := normalize_url (default "" (text u1));
       d_post_hash := fingerprintURL env p (default "" (text u1));
       d_ugc_code := str_strip (default "" (text u2));
       d_caption := str_strip (default "" (text u3));
       d_proof_sha256 := sha256_bytes b |}.
Proof.
  intros H1 H2 H3 H4 H5 Hothers Hp st1 Hcode st2 Hcap st3 Hb st4.
  apply Forall_app in Hothers as [Ho1 Hothers].
  apply Forall_app in Hothers as [Ho2 Hothers].
  apply Forall_app in Hothers as [Ho3 Ho4].
  assert (E : staged_for v st4
              = <["proof_sha256" := sha256_bytes b]>
                  (<["caption" := str_strip (default "" (text u3))]>
                     (<["ugc_code" := str_strip (default "" (text u2))]>
                        (<["post_hash" := post_hash_of env p (normalize_url (default "" (text u1)))]>
                           (<["post_url" := normalize_url (default "" (text u1))]>
                              (<["platform" := p]> (staged_for v st))))))).
  { subst st4. rewrite staged_for_run by assumption.
    rewrite <- H4 at 1. rewrite (proof_step_stages u4 st3 b Hb), H4.
    subst st3. rewrite staged_for_run by assumption.
    rewrite <- H3 at 1. rewrite (caption_step_stages u3 st2 Hcap), H3.
    subst st2. rewrite staged_for_run by assumption.
    rewrite <- H2 at 1. rewrite (code_step_stages u2 st1 Hcode), H2.
    subst st1. rewrite staged_for_run by assumption.
    rewrite <- H1 at 1. rewrite (url_step_stages u1 st p Hp), H1. reflexivity. }
  unfold has_draft. rewrite user_data_staged, H5, E. simpl.
  repeat split.
  - do 5 (rewrite lookup_insert_ne by discriminate). apply lookup_insert_eq.
  - do 4 (rewrite lookup_insert_ne by discriminate). apply lookup_insert_eq.
  - do 3 (rewrite lookup_insert_ne by discriminate). apply lookup_insert_eq.
  - do 2 (rewrite lookup_insert_ne by discriminate). apply lookup_insert_eq.
  - do 1 (rewrite lookup_insert_ne by discriminate). apply lookup_insert_eq.
  - apply lookup_insert_eq.
Qed.

Lemma find_update_first {A} (p : A -> bool) (f : A -> A) col :
  (forall a, p (f a) = p a) ->
  find_one p (update_one p f col) = option_map f (find_one p col).
Proof.
  intros Hf. unfold find_one.
  induction col as [|a r IH]; simpl; [reflexivity|].
  destruct (p a) eqn:E; simpl; [now rewrite Hf, E|now rewrite E].
Qed.

(** What [validate_code] answers for a code whose record says [used]. *)
Lemma used_code_refused uid c st doc :
  find_one (has_code (str_strip c)) (code_col st) = Some doc ->
  c_status doc = Some "used" ->
  fst (validate_code uid c st) = Ok (false, "This code is not bound to your account.") \/
  fst (validate_code uid c st)
  = Ok (false, "Code already used/expired. Get a new one from the community bot.").
Proof.
  intros Hf Hs. unfold validate_code. mrun. rewrite Hf.
  destruct (negb _); [now left|]. rewrite Hs. now right.
Qed.

(** X12.  A code is single-use.  Once a commit has stored a submission
    whose staged (trimmed) code has a record, [validate_code] refuses that
    code to every user, the one it is bound to included, after any further
    updates: either as not bound to the account or as already used. *)
Theorem consumed_code_is_refused (new_id : ObjectId) (u : Update) (st : St)
    (d : Staged) (es : list Event) (uid : Z) :
  has_draft u st d ->
  tier_of env u = "T1" \/ tier_of env u = "T2" ->
  existsb (ugc_conflict (submission_doc env new_id u d (tier_of env u) (ticks st)))
    (ugc_col st) = false ->
  str_strip (d_ugc_code d) = d_ugc_code d ->
  existsb (has_code (d_ugc_code d)) (code_col st) = true ->
  let st' := run env es (snd (submit_got_tier env new_id u st)) in
  fst (validate_code uid (d_ugc_code d) st')
  = Ok (false, "This code is not bound to your account.") \/
  fst (validate_code uid (d_ugc_code d) st')
  = Ok (false, "Code already used/expired. Get a new one from the community bot.").
Proof.
  intros Hd Ht Hc Hstrip Hex st'.
  destruct (find_one_some_existsb _ _ Hex) as (doc & Hdoc & _).
  assert (H1 : exists doc1,
             find_one (has_code (d_ugc_code d))
               (code_col (snd (submit_got_tier env new_id u st))) = Some doc1 /\
             c_status doc1 = Some "used").
  { rewrite (commit_entry env new_id u st d (tier_of env u) Hd eq_refl Ht). cbv zeta.
    rewrite Hc. eexists.
    destruct (String.eqb (tier_of env u) "T1"); mrun;
      (rewrite find_update_first by reflexivity); rewrite Hdoc; split; reflexivity. }
  destruct H1 as (doc1 & Hf1 & Hs1).
  destruct (run_used_code env (d_ugc_code d) es _ doc1 Hf1 Hs1) as (doc2 & Hf2 & Hs2).
  apply (used_code_refused uid (d_ugc_code d) st' doc2); [|exact Hs2].
  now rewrite Hstrip.
Qed.

(** X13.  The code is not looked at again at commit.  Whatever the code
    collection holds by then (the staged code used meanwhile, expired,
    bound to somebody else, or gone), the commit of a complete draft ends
    the same way, stores the same submissions, grants the same rewards
    and sends the same reply. *)
Theorem commit_ignores_code_records (new_id : ObjectId) (u : Update) (st : St)
    (d : Staged) (codes : list CodeDoc) :
  has_draft u st d ->
  tier_of env u = "T1" \/ tier_of env u = "T2" ->
  let r := submit_got_tier env new_id u st in
  let r' := submit_got_tier env new_id u (with_code (fun _ => codes) st) in
  fst r' = fst r /\
  ugc_col (snd r') = ugc_col (snd r) /\
  ledger_col (snd r') = ledger_col (snd r) /\
  outbox (snd r') = outbox (snd r).
Proof.
  intros Hd Ht r r'. subst r r'.
  assert (Hd' : has_draft u (with_code (fun _ => codes) st) d) by exact Hd.
  rewrite (commit_entry env new_id u st d (tier_of env u) Hd eq_refl Ht).
  rewrite (commit_entry env new_id u _ d (tier_of env u) Hd' eq_refl Ht).
  cbv zeta. mrun.
  destruct (existsb _ (ugc_col st)).
  - destruct (find_one _ _); now repeat split.
  - destruct (String.eqb _ _); now repeat split.
Qed.

Lemma set_validated_evolves t x : evolves x (set_validated t x).
Proof. unfold evolves. simpl. repeat split; auto; discriminate. Qed.

Lemma find_one_snoc_fresh o col d :
  find_one (has_id o) col = None -> s_id d = o ->
  find_one (has_id o) (col ++ [d]) = Some d.
Proof.
  intros H <-. rewrite find_one_app, H. unfold find_one, has_id. simpl.
  now rewrite oid_eqb_refl.
Qed.

Lemma effect_find_id st st' e o x :
  Effect env st st' e ->
  find_one (has_id o) (ugc_col st) = Some x ->
  exists x', find_one (has_id o) (ugc_col st') = Some x' /\ evolves x x'.
Proof.
  intros [e0 (Hu & _) | new_id u d t _ _ _ _ Hu _ _ | u s o' b x0 _ _ _ _ Hu _ _] H;
    rewrite Hu.
  - exists x. split; [exact H|apply evolves_refl].
  - exists x. rewrite find_one_app, H. split; [reflexivity|apply evolves_refl].
  - destruct (oid_eqb o' o) eqn:E.
    + apply oid_eqb_eq in E. subst o'.
      rewrite find_update_first by reflexivity. rewrite H. simpl.
      eexists. split; [reflexivity|apply set_metrics_evolves].
    + apply oid_eqb_neq in E.
      rewrite find_update_other; [|reflexivity|intros y; now apply other_id].
      exists x. split; [exact H|apply evolves_refl].
Qed.

Lemma run_find_id es : forall st o x,
  find_one (has_id o) (ugc_col st) = Some x ->
  exists x', find_one (has_id o) (ugc_col (run env es st)) = Some x' /\ evolves x x'.
Proof.
  induction es as [|e es IH]; intros st o x H.
  - exists x. split; [exact H|apply evolves_refl].
  - rewrite run_cons.
    destruct (effect_find_id st _ e o x (step_effect env e st) H) as (x1 & H1 & E1).
    destruct (IH _ o x1 H1) as (x2 & H2 & E2).
    exists x2. split; [exact H2|]. now apply (evolves_trans x x1 x2).
Qed.

Lemma lower_hex_no_space s :
  all_lower_hex s = true -> lstrip s = s /\ ends_space s = false.
Proof.
  induction s as [|c r IH]; simpl; [now split|]. intros H.
  apply andb_true_iff in H as [Hc Hr]. destruct (IH Hr) as [_ He].
  assert (Hs : is_space c = false).
  { unfold is_lower_hex in Hc. unfold is_space.
    apply orb_true_iff in Hc as [Hc|Hc]; apply andb_true_iff in Hc as [H1 H2];
      apply Z.leb_le in H1, H2;
      apply orb_false_iff; split; apply andb_false_iff;
      first [left; apply Z.leb_gt; lia | right; apply Z.leb_gt; lia]. }
  split; [now rewrite Hs|]. destruct r; [exact Hs|exact He].
Qed.

Lemma lower_hex_is_ascii s : all_lower_hex s = true -> is_ascii s = true.
Proof.
  induction s as [|c r IH]; simpl; [reflexivity|]. intros H.
  apply andb_true_iff in H as [Hc Hr]. rewrite (IH Hr), andb_true_r.
  apply Z.ltb_lt. unfold is_lower_hex in Hc.
  apply orb_true_iff in Hc as [Hc|Hc]; apply andb_true_iff in Hc as [_ Hc];
    apply Z.leb_le in Hc; lia.
Qed.

(** Trimming leaves lower-case hexadecimal text as it is. *)
Lemma strip_lower_hex s : all_lower_hex s = true -> str_strip s = s.
Proof.
  intros H. rewrite (str_strip_ascii s (lower_hex_is_ascii s H)).
  destruct (lower_hex_no_space _ H) as [Hl He].
  unfold strip. rewrite Hl. now apply rstrip_no_ends_space.
Qed.

Lemma strip_str_oid o : oid_valid o = true -> str_strip (str_oid o) = str_oid o.
Proof.
  unfold oid_valid, str_oid. intros H. apply andb_true_iff in H as [_ H].
  now apply strip_lower_hex.
Qed.

(** X14.  The id a commit replies with is good for [/status].  After a
    commit that stored a submission under a well-formed id, and whatever
    updates follow, [/status <id>] sent by the same user in a private
    chat reports that submission: the stored record, unchanged in its
    identifying fields and claimed tier, with its current status. *)
Theorem status_finds_committed (new_id : ObjectId) (u u' : Update) (st : St)
    (d : Staged) (es : list Event) (rest : list string) :
  has_draft u st d ->
  tier_of env u = "T1" \/ tier_of env u = "T2" ->
  existsb (ugc_conflict (submission_doc env new_id u d (tier_of env u) (ticks st)))
    (ugc_col st) = false ->
  oid_valid new_id = true ->
  dm_ok u' = true ->
  uid_of u' = uid_of u ->
  args u' = str_oid new_id :: rest ->
  let st' := run env es (snd (submit_got_tier env new_id u st)) in
  exists x,
    evolves (submission_doc env new_id u d (tier_of env u) (ticks st)) x /\
    find_one (has_id new_id) (ugc_col st') = Some x /\
    status_cmd env u' st'
    = (Ok RNone,
       with_outbox (fun o => o ++ [(uid_of u', msg_status env (str_oid new_id) x)]) st').
Proof.
  intros Hd Ht Hc Hv Hdm Hu Ha st'.
  destruct (conflict_split _ _ Hc) as [Hid _]. simpl in Hid.
  assert (H1 : exists x1,
             find_one (has_id new_id) (ugc_col (snd (submit_got_tier env new_id u st)))
             = Some x1 /\
             evolves (submission_doc env new_id u d (tier_of env u) (ticks st)) x1).
  { rewrite (commit_entry env new_id u st d (tier_of env u) Hd eq_refl Ht). cbv zeta.
    rewrite Hc. apply find_one_none_existsb in Hid.
    destruct (String.eqb (tier_of env u) "T1"); mrun.
    - rewrite find_update_first by reflexivity.
      rewrite (find_one_snoc_fresh new_id _
                (submission_doc env new_id u d (tier_of env u) (ticks st)) Hid eq_refl).
      eexists. split; [reflexivity|apply set_validated_evolves].
    - rewrite (find_one_snoc_fresh new_id _
                (submission_doc env new_id u d (tier_of env u) (ticks st)) Hid eq_refl).
      eexists. split; [reflexivity|apply evolves_refl]. }
  destruct H1 as (x1 & Hf1 & E1).
  destruct (run_find_id es _ new_id x1 Hf1) as (x & Hf & E). fold st' in Hf.
  exists x. split; [now apply (evolves_trans _ x1 x)|]. split; [exact Hf|].
  assert (Hown : find_one (owned_by new_id (uid_of u')) (ugc_col st') = Some x).
  { apply find_owned; [exact Hf|].
    destruct (evolves_trans _ x1 x E1 E) as (_ & Hux & _). rewrite Hux, Hu. reflexivity. }
  unfold status_cmd. mrun. unfold dm_ok in Hdm.
  destruct (effective_chat u') as [c|]; [rewrite Hdm|]; cbn [negb]; mrun;
    rewrite Ha, (strip_str_oid new_id Hv), (parse_oid_str new_id Hv); mrun;
    now rewrite Hown.
Qed.

End Flows.

(* ===================================================================== *)
(** ** Edge behaviour of the handlers *)
(* ===================================================================== *)

Section Edges.

Variable env : Env.

(** X15.  Outside a private chat the four commands do nothing but send
    the notice of [must_dm]: no collection is read or written, nothing
    is staged, no conversation is entered, and [/status] does not even
    parse its argument, so a malformed id raises nothing there. *)
Theorem commands_refuse_group_chats (u : Update) (st : St) :
  in_group u = true ->
  start u st = (Ok RNone, replied u msg_dm_only st) /\
  submit_cmd env u st = (Ok END, replied u msg_dm_only st) /\
  metrics_cmd u st = (Ok END, replied u msg_dm_only st) /\
  status_cmd env u st = (Ok RNone, replied u msg_dm_only st).
Proof.
  unfold in_group. intros H.
  destruct (effective_chat u) as [t|] eqn:Ec; [|discriminate].
  repeat match goal with |- _ /\ _ => split end.
  - unfold start. mrun. now rewrite Ec, H.
  - unfold submit_cmd. mrun. now rewrite Ec, H.
  - unfold metrics_cmd. mrun. now rewrite Ec, H.
  - unfold status_cmd. mrun. now rewrite Ec, H.
Qed.

Lemma with_outbox_nil st : st = with_outbox (fun o => o ++ []) st.
Proof. destruct st. unfold with_outbox. simpl. now rewrite app_nil_r. Qed.

Lemma with_outbox_app x ms st :
  with_outbox (fun o => o ++ ms) (with_outbox (fun o => o ++ [x]) st)
  = with_outbox (fun o => o ++ x :: ms) st.
Proof. unfold with_outbox. simpl. now rewrite <- app_assoc. Qed.

(** A step that asks again has done nothing but reply. *)
Lemma asks_again_replies e st :
  asks_again env st e = true ->
  exists m, step env st e = with_outbox (fun o => o ++ [(sender e, m)]) st.
Proof.
  unfold asks_again, step. destruct e; try discriminate; simpl handle; simpl sender.
  - unfold submit_got_url. mrun. destruct (detect_platform env _); mrun;
      [discriminate|eauto].
  - assert (Hv : exists b m, validate_code (uid_of u) (str_strip (default "" (text u))) st
                             = (Ok (b, m), st)).
    { unfold validate_code. mrun. repeat case_match; eauto. }
    destruct Hv as (b & m & Hv).
    unfold submit_got_code. cbv [bind]. rewrite Hv. cbn [fst snd].
    destruct b; cbn [negb]; mrun; [discriminate|eauto].
  - unfold submit_got_caption. mrun.
    destruct (str_len _ <? 5)%nat; mrun; [eauto|discriminate].
  - unfold submit_got_proof. mrun.
    destruct (last (photo u)); mrun; [discriminate|eauto].
  - destruct (commit_cases env new_id u st) as [-> | [(k & ->) | (Ht & d & Hd)]];
      [eauto|discriminate|].
    rewrite (commit_entry env new_id u st d (tier_of env u) Hd eq_refl Ht). cbv zeta.
    destruct (existsb _ _); [destruct (find_one _ _)|destruct (String.eqb _ _)];
      mrun; discriminate.
  - destruct (metrics_cases env u st) as [-> | [-> | (s & b & Hs & Hne & Hb)]];
      [discriminate|eauto|].
    rewrite (metrics_entry env u st s b Hs Hne Hb).
    destruct (parse_oid s); [destruct (find_one _ _)|]; mrun; discriminate.
Qed.

(** X16.  Rejected input changes nothing but the replies.  Take any run
    of updates each of which reaches a step of a conversation and makes
    it ask again (link of no known platform, code refused, caption too
    short, no photo, tier token other than T1 and T2, metrics photo
    missing).  After the run the state is what it was: the drafts, the
    three collections and the clock are untouched, and the replies sent
    are one more per update, each to its sender. *)
Theorem rejected_input_stages_nothing (es : list Event) (st : St) :
  all_ask_again env es st ->
  exists ms,
    run env es st = with_outbox (fun o => o ++ ms) st /\
    map fst ms = map sender es.
Proof.
  revert st. induction es as [|e es IH]; intros st H.
  - exists []. split; [apply with_outbox_nil|reflexivity].
  - destruct H as [He Hes].
    destruct (asks_again_replies e st He) as (m & Hm).
    destruct (IH _ Hes) as (ms & Hr & Hs).
    exists ((sender e, m) :: ms). split; [|simpl; now rewrite Hs].
    change (run env (e :: es) st) with (run env es (step env st e)).
    rewrite Hr, Hm. apply with_outbox_app.
Qed.

Lemma upper_hex_char c :
  is_lower_hex c = true ->
  is_hex (upper_char c) = true /\ lower_char (upper_char c) = c.
Proof.
  intros H.
  assert (Hr : 48 <= code c <= 57 \/ 97 <= code c <= 102).
  { unfold is_lower_hex in H.
    apply orb_true_iff in H as [H|H]; apply andb_true_iff in H as [H1 H2];
      apply Z.leb_le in H1, H2; lia. }
  assert (Hc : In (code c) [48;49;50;51;52;53;54;55;56;57;97;98;99;100;101;102]).
  { simpl. lia. }
  rewrite <- (ascii_of_code c). simpl in Hc.
  repeat (destruct Hc as [Hc|Hc]; [rewrite <- Hc; vm_compute; split; reflexivity|]).
  destruct Hc.
Qed.

Lemma upper_hex_string s :
  all_lower_hex s = true ->
  String.length (upper s) = String.length s /\
  all_hex (upper s) = true /\ lower (upper s) = s.
Proof.
  induction s as [|c r IH]; [now repeat split|]. intros H. simpl in H.
  apply andb_true_iff in H as [H1 H2].
  destruct (upper_hex_char c H1) as [Ha Hb], (IH H2) as (Hc & Hd & He).
  unfold upper, lower in *. simpl. now rewrite Ha, Hb, Hc, Hd, He.
Qed.

(** [ObjectId] reads the upper-case spelling of an id as the same id. *)
Lemma parse_oid_upper o : oid_valid o = true -> parse_oid (upper (str_oid o)) = Some o.
Proof.
  unfold oid_valid, parse_oid, str_oid. destruct o as [s]; simpl. intros H.
  apply andb_true_iff in H as [H1 H2].
  destruct (upper_hex_string s H2) as (Ha & Hb & Hc). now rewrite Ha, H1, Hb, Hc.
Qed.

(** X17.  The T2 reward is keyed by the id as typed, not by the
    submission.  Let a submission of the sender already hold a T2 ledger
    entry under its id as the bot prints it.  If the id staged by
    [/metrics] is the same id in upper case (which [ObjectId] accepts),
    the photo step appends a second T2 entry of amount 5 for the same
    submission. *)
Theorem t2_reward_is_per_spelling (u : Update) (st : St) (b : string)
    (o : ObjectId) (x : Submission) (e0 : LedgerEntry) :
  oid_valid o = true ->
  upper (str_oid o) <> str_oid o ->
  user_data u st !! "metrics_ugc_id" = Some (upper (str_oid o)) ->
  last (photo u) = Some b ->
  find_one (has_id o) (ugc_col st) = Some x ->
  s_user_id x = uid_of u ->
  In e0 (ledger_col st) ->
  ledger_key (str_oid o) "T2" e0 = true ->
  Forall (fun e => l_ugc_id e <> upper (str_oid o)) (ledger_col st) ->
  exists e1,
    ledger_col (snd (metrics_got_proof env u st)) = ledger_col st ++ [e1] /\
    refers_to o e0 = true /\ l_tier e0 = "T2" /\
    refers_to o e1 = true /\ l_tier e1 = "T2" /\
    l_amount e1 = 5 /\ l_user_id e1 = uid_of u /\ e1 <> e0.
Proof.
  intros Hv Hne Hs Hb Hx Hu Hin Hk Hfresh.
  pose proof (parse_oid_upper o Hv) as Hp.
  destruct (attach_writes env u st _ o b x Hs Hp Hb Hx Hu) as (_ & _ & Hl).
  assert (Hno : existsb (ledger_key (upper (str_oid o)) "T2") (ledger_col st) = false).
  { apply not_true_iff_false. intros Hex. apply existsb_exists in Hex as (e & He & Hke).
    rewrite Forall_forall in Hfresh. apply list_elem_of_In in He.
    unfold ledger_key in Hke. apply andb_true_iff in Hke as [Hke _].
    apply String.eqb_eq in Hke. exact (Hfresh e He Hke). }
  exists (ledger_doc env (uid_of u) (upper (str_oid o)) "T2" (2 + ticks st)).
  split; [rewrite Hl; unfold upsert_on_insert; now rewrite Hno|].
  pose proof Hk as Hk'. unfold ledger_key in Hk'.
  apply andb_true_iff in Hk' as [Hk1 Hk2]. apply String.eqb_eq in Hk1, Hk2.
  repeat match goal with |- _ /\ _ => split end.
  - exact (key_refers _ "T2" o e0 (parse_oid_str o Hv) Hk).
  - exact Hk2.
  - unfold refers_to. simpl. rewrite Hp. apply oid_eqb_refl.
  - reflexivity.
  - reflexivity.
  - reflexivity.
  - intros E. apply Hne. transitivity (l_ugc_id e0); [now rewrite <- E|exact Hk1].
Qed.

Lemma hex_digit_lower n : 0 <= n < 16 -> is_lower_hex (SHA256.hex_digit n) = true.
Proof.
  intros H.
  assert (Hc : In n [0;1;2;3;4;5;6;7;8;9;10;11;12;13;14;15]) by (simpl; lia).
  simpl in Hc.
  repeat (destruct Hc as [Hc|Hc]; [rewrite <- Hc; reflexivity|]).
  destruct Hc.
Qed.

Lemma hex_of_format d : forall x acc,
  String.length (SHA256.hex_of d x acc) = (d + String.length acc)%nat /\
  (all_lower_hex acc = true -> all_lower_hex (SHA256.hex_of d x acc) = true).
Proof.
  induction d as [|d IH]; intros x acc; [now split|]. simpl.
  destruct (IH (x / 16) (String (SHA256.hex_digit (x mod 16)) acc)) as [Hl Hh].
  split.
  - rewrite Hl. simpl. lia.
  - intros Ha. apply Hh. simpl. rewrite Ha.
    rewrite hex_digit_lower; [reflexivity|]. apply Z.mod_pos_bound. lia.
Qed.

Lemma hex_words_format ws :
  String.length (SHA256.hex_words ws) = (8 * length ws)%nat /\
  all_lower_hex (SHA256.hex_words ws) = true.
Proof.
  induction ws as [|w r [IH1 IH2]]; [now split|].
  cbn [SHA256.hex_words].
  destruct (hex_of_format 8 w (SHA256.hex_words r)) as [Hl Hh].
  split; [rewrite Hl, IH1; simpl; lia|exact (Hh IH2)].
Qed.

(** X18.  Every fingerprint is 64 lower-case hexadecimal digits, for
    whatever bytes or text it is taken of; so the post fingerprint staged
    by the URL step never holds a blank or an upper-case letter, and
    trimming or lower-casing it changes nothing. *)
Theorem fingerprints_are_64_hex (b platform url : string) :
  String.length (sha256_bytes b) = 64%nat /\
  all_lower_hex (sha256_bytes b) = true /\
  String.length (fingerprintURL env platform url) = 64%nat /\
  all_lower_hex (fingerprintURL env platform url) = true /\
  str_strip (fingerprintURL env platform url) = fingerprintURL env platform url /\
  str_lower env (fingerprintURL env platform url) = fingerprintURL env platform url.
Proof.
  assert (H : forall m, String.length (sha256_bytes m) = 64%nat /\
                        all_lower_hex (sha256_bytes m) = true).
  { intros m. unfold sha256_bytes.
    destruct (hex_words_format (SHA256.digest (SHA256.bytes_of m))) as [Hl Hh].
    split; [rewrite Hl; reflexivity|exact Hh]. }
  destruct (H b) as [H1 H2].
  assert (Hf : exists m, fingerprintURL env platform url = sha256_bytes m).
  { eexists. reflexivity. }
  destruct Hf as (m & ->). destruct (H m) as [H3 H4].
  repeat match goal with |- _ /\ _ => split end; try assumption.
  - now apply strip_lower_hex.
  - unfold str_lower. rewrite (lower_hex_is_ascii _ H4). now apply lower_hex_string.
Qed.

End Edges.

(* ===================================================================== *)
(** ** The theorems at work on the scenario *)
(* ===================================================================== *)

Module Witness.

Import Scenario.
Import Walkthrough.

Ltac by_eval := vm_compute; reflexivity.
Ltac draft_by_eval := unfold has_draft; repeat split; by_eval.

(** Grants for Alice's submission, between grants for another one: one
    T1 entry, of amount 1, whoever retries. *)
Lemma reward_ledger_idempotent_witness :
  exists e,
    List.filter (ledger_key (str_oid id1) "T1")
      (ledger_col
         (grants env [(7, str_oid id1, "T1"); (8, str_oid id1, "T1"); (7, str_oid id1, "T2")]
            (snd (_create_reward_ledger env 7 (str_oid id1) "T1"
                    (grants env [(8, str_oid id2, "T2")] st0))))) = [e] /\
    l_amount e = 1 /\ l_drop_id e = "drop-1usd".
Proof.
  assert (H1 : existsb (ledger_key (str_oid id1) "T1") (ledger_col st0) = false)
    by by_eval.
  assert (H2 : Forall (fun c => call_key c <> (str_oid id1, "T1")) [(8, str_oid id2, "T2")])
    by (repeat constructor; discriminate).
  destruct (reward_ledger_idempotent env 7 (str_oid id1) "T1"
              [(8, str_oid id2, "T2")]
              [(7, str_oid id1, "T1"); (8, str_oid id1, "T1"); (7, str_oid id1, "T2")]
              st0 H1 H2)
    as (e & _ & _ & _ & _ & _ & Ht1 & _ & _ & _ & _ & Hf & _).
  exists e. split; [exact Hf|]. exact (Ht1 eq_refl).
Defined.

(** Bob commits the post Alice has committed: he is told Alice's id. *)
Lemma second_commit_reports_first_id_witness :
  exists i m,
    last (outbox (snd (submit_got_tier env id1 (says alice "T1") st_staged)))
      = Some (7, m) /\
    commit_reply i m /\
    outbox (snd (submit_got_tier env id2 (says bob "t2")
                   (run env bob_staging (snd (submit_got_tier env id1 (says alice "T1") st_staged)))))
    = outbox (run env bob_staging (snd (submit_got_tier env id1 (says alice "T1") st_staged)))
      ++ [(8, lines ["This post was already submitted.";
                     "UGC ID: " +:+ str_oid i;
                     "Use /status " +:+ str_oid i])].
Proof.
  assert (H1 : has_draft (says alice "T1") st_staged alice_draft) by draft_by_eval.
  assert (H2 : tier_of env (says alice "T1") = "T1" \/ tier_of env (says alice "T1") = "T2")
    by (left; by_eval).
  assert (H3 : fst (submit_got_tier env id1 (says alice "T1") st_staged) = Ok END)
    by by_eval.
  assert (H4 : has_draft (says bob "t2")
                 (run env bob_staging (snd (submit_got_tier env id1 (says alice "T1") st_staged)))
                 bob_draft) by draft_by_eval.
  assert (H5 : tier_of env (says bob "t2") = "T1" \/ tier_of env (says bob "t2") = "T2")
    by (right; by_eval).
  assert (H6 : d_platform bob_draft = d_platform alice_draft) by by_eval.
  assert (H7 : d_post_hash bob_draft = d_post_hash alice_draft) by by_eval.
  destruct (second_commit_reports_first_id env id1 id2 (says alice "T1") (says bob "t2")
              alice_draft bob_draft bob_staging st_staged H1 H2 H3 H4 H5 H6 H7)
    as (i & m & Ha & Hb & _ & _ & _ & _ & _ & Hc).
  exists i, m. split; [exact Ha|]. split; [exact Hb|exact Hc].
Defined.

(** Alice's staged draft committed as T2 is stored as submitted. *)
Lemma tier_split_witness :
  fst (submit_got_tier env id1 (says alice " t2 ") st_staged) = Ok END /\
  exists x,
    ugc_col (snd (submit_got_tier env id1 (says alice " t2 ") st_staged))
      = ugc_col st_staged ++ [x] /\
    s_status x = "submitted" /\
    ledger_col (snd (submit_got_tier env id1 (says alice " t2 ") st_staged))
      = ledger_col st_staged.
Proof.
  assert (H1 : has_draft (says alice " t2 ") st_staged alice_draft) by draft_by_eval.
  assert (H2 : oid_valid id1 = true) by by_eval.
  assert (H3 : existsb (ugc_conflict
                          (submission_doc env id1 (says alice " t2 ") alice_draft
                             (tier_of env (says alice " t2 ")) (ticks st_staged)))
                 (ugc_col st_staged) = false) by by_eval.
  assert (H4 : existsb (refers_to id1) (ledger_col st_staged) = false) by by_eval.
  assert (H5 : tier_of env (says alice " t2 ") = "T2") by by_eval.
  destruct (tier_split env id1 (says alice " t2 ") st_staged alice_draft H1 H2 H3 H4)
    as [_ HT2].
  destruct (HT2 H5) as (Hend & x & Hu & _ & _ & _ & Hs & _ & _ & Hl & _).
  split; [exact Hend|]. exists x. split; [exact Hu|]. split; [exact Hs|exact Hl].
Defined.

(** Alice commits her draft a second time. *)
Lemma duplicate_commit_changes_nothing_witness :
  exists existing,
    find_one (same_post (d_platform alice_draft) (d_post_hash alice_draft))
      (ugc_col st_committed) = Some existing /\
    outbox (snd (submit_got_tier env id2 (says alice "T2") st_committed))
      = outbox st_committed ++
        [(7, lines ["This post was already submitted.";
                    "UGC ID: " +:+ str_oid (s_id existing);
                    "Use /status " +:+ str_oid (s_id existing)])] /\
    code_col (snd (submit_got_tier env id2 (says alice "T2") st_committed))
      = code_col st_committed /\
    ledger_col (snd (submit_got_tier env id2 (says alice "T2") st_committed))
      = ledger_col st_committed.
Proof.
  assert (H1 : has_draft (says alice "T2") st_committed alice_draft) by draft_by_eval.
  assert (H2 : tier_of env (says alice "T2") = "T1" \/ tier_of env (says alice "T2") = "T2")
    by (right; by_eval).
  assert (H3 : existsb (same_post (d_platform alice_draft) (d_post_hash alice_draft))
                 (ugc_col st_committed) = true) by by_eval.
  destruct (duplicate_commit_changes_nothing env id2 (says alice "T2") st_committed
              alice_draft H1 H2 H3)
    as (x & Hx & _ & _ & Ho & _ & Hc & Hl & _).
  exists x. split; [exact Hx|]. split; [exact Ho|]. split; [exact Hc|exact Hl].
Defined.

(** Alice's code, once consumed by her commit, is refused to her. *)
Lemma validate_code_order_witness :
  fst (validate_code 7 "C1" st_committed)
  = Ok (false, "Code already used/expired. Get a new one from the community bot.").
Proof.
  assert (H1 : find_one (has_code (str_strip "C1")) (code_col st_committed)
               = Some (consume_code 1700000000003 (str_oid id1) (code_for "C1" alice)))
    by by_eval.
  assert (H2 : default (-1) (c_user_id (consume_code 1700000000003 (str_oid id1)
                                          (code_for "C1" alice))) = 7) by by_eval.
  destruct (validate_code_order 7 "C1" st_committed) as (_ & _ & H).
  destruct (H _ H1) as (_ & Hused & _).
  exact (Hused H2 (or_introl eq_refl)).
Defined.

(** The day after Alice's submission, with a limit of one: 24 hours to
    the millisecond after it was created she is still refused, one
    millisecond later she may start another. *)
Lemma rate_limit_witness :
  (fst (submit_cmd env_next_day (commands alice []) (with_ticks (fun _ => 0%nat) st_committed))
   = Ok END /\
   last (outbox (snd (submit_cmd env_next_day (commands alice [])
                        (with_ticks (fun _ => 0%nat) st_committed))))
   = Some (7, "Daily submission limit reached. Try again tomorrow.")) /\
  fst (submit_cmd env_next_day (commands alice []) (with_ticks (fun _ => 1%nat) st_committed))
  = Ok (Next S_PLATFORM_URL).
Proof.
  assert (H1 : dm_ok (commands alice []) = true) by by_eval.
  assert (H2 : MAX_SUBMISSIONS_PER_DAY env_next_day
               <= submissions_in_last_day (uid_of (commands alice []))
                    (clock env_next_day (ticks (with_ticks (fun _ => 0%nat) st_committed)))
                    (ugc_col (with_ticks (fun _ => 0%nat) st_committed)))
    by (vm_compute; discriminate).
  assert (H3 : submissions_in_last_day (uid_of (commands alice []))
                 (clock env_next_day (ticks (with_ticks (fun _ => 1%nat) st_committed)))
                 (ugc_col (with_ticks (fun _ => 1%nat) st_committed))
               < MAX_SUBMISSIONS_PER_DAY env_next_day) by by_eval.
  destruct (rate_limit env_next_day (commands alice [])
              (with_ticks (fun _ => 0%nat) st_committed) H1) as (Hat & _).
  destruct (rate_limit env_next_day (commands alice [])
              (with_ticks (fun _ => 1%nat) st_committed) H1) as (_ & Hbelow & _).
  split; [exact (proj1 Hat H2)|exact (proj1 (Hbelow H3))].
Defined.

(** Bob asks for the status of Alice's submission. *)
Lemma lookups_are_owner_scoped_witness :
  status_cmd env (commands bob [str_oid id1]) st_committed
  = (Ok RNone, with_outbox (fun ob => ob ++ [(uid_of (commands bob [str_oid id1]), "Not found.")])
                 st_committed).
Proof.
  assert (H1 : parse_oid (str_oid id1) = Some id1) by by_eval.
  assert (H2 : NoDup (map s_id (ugc_col st_committed)))
    by (vm_compute; apply NoDup_singleton).
  assert (H3 : In alice_record (ugc_col st_committed))
    by (vm_compute; left; reflexivity).
  assert (H4 : s_id alice_record = id1) by by_eval.
  assert (H5 : s_user_id alice_record <> uid_of (commands bob [str_oid id1]))
    by (vm_compute; discriminate).
  assert (H6 : dm_ok (commands bob [str_oid id1]) = true) by by_eval.
  assert (H7 : exists a rest, args (commands bob [str_oid id1]) = a :: rest /\
                              str_strip a = str_oid id1)
    by (exists (str_oid id1), []; split; by_eval).
  destruct (lookups_are_owner_scoped env (commands bob [str_oid id1]) st_committed
              (str_oid id1) id1 H1
              (or_intror (conj H2 (ex_intro _ alice_record (conj H3 (conj H4 H5))))))
    as (_ & H & _).
  exact (H H6 H7).
Defined.


(** Alice attaches metrics to her validated T1 submission: it now has a
    T1 and a T2 entry. *)
Lemma metrics_only_checks_ownership_witness :
  fst (metrics_got_proof env (sends_photo alice "metrics") st_metrics) = Ok END /\
  exists e1 e2,
    In e1 (ledger_col (snd (metrics_got_proof env (sends_photo alice "metrics") st_metrics))) /\
    In e2 (ledger_col (snd (metrics_got_proof env (sends_photo alice "metrics") st_metrics))) /\
    l_tier e1 = "T1" /\ l_tier e2 = "T2" /\
    refers_to id1 e1 = true /\ refers_to id1 e2 = true.
Proof.
  assert (H1 : user_data (sends_photo alice "metrics") st_metrics !! "metrics_ugc_id"
               = Some (str_oid id1)) by by_eval.
  assert (H2 : parse_oid (str_oid id1) = Some id1) by by_eval.
  assert (H3 : last (photo (sends_photo alice "metrics")) = Some "metrics") by by_eval.
  assert (H4 : find_one (has_id id1) (ugc_col st_metrics) = Some alice_record) by by_eval.
  assert (H5 : s_user_id alice_record = uid_of (sends_photo alice "metrics")) by by_eval.
  destruct (metrics_only_checks_ownership env (sends_photo alice "metrics") st_metrics
              (str_oid id1) "metrics" id1 alice_record H1 H2 H3 H4 H5)
    as (Hend & _ & (e2 & Hin2 & _ & Ht2 & Hr2 & _ & Hboth) & _).
  assert (Hi : In (ledger_doc env 7 (str_oid id1) "T1" 5) (ledger_col st_metrics))
    by (vm_compute; left; reflexivity).
  assert (Hr : refers_to id1 (ledger_doc env 7 (str_oid id1) "T1" 5) = true) by by_eval.
  assert (Ht : l_tier (ledger_doc env 7 (str_oid id1) "T1" 5) = "T1") by by_eval.
  destruct (Hboth _ Hi Hr Ht) as [Hin1 _].
  split; [exact Hend|].
  exists (ledger_doc env 7 (str_oid id1) "T1" 5), e2.
  split; [exact Hin1|]. split; [exact Hin2|]. split; [exact Ht|].
  split; [exact Ht2|]. split; [exact Hr|exact Hr2].
Defined.

(** The ledger key is the id as text: the metrics step passes it on as
    typed, so the capital spelling of Alice's id gets a T2 entry of its
    own next to the one for the usual spelling. *)
Example t2_granted_per_spelling :
  map (fun e => (l_ugc_id e, l_tier e, l_amount e, refers_to id1 e))
      (ledger_col (run env metrics_twice st_metrics))
  = [("65a1b2c3d4e5f60718293a01", "T1", 1, true);
     ("65a1b2c3d4e5f60718293a01", "T2", 5, true);
     ("65A1B2C3D4E5F60718293A01", "T2", 5, true)].
Proof. vm_compute. reflexivity. Qed.

(** Bob submits the post Alice has committed: still one record per id
    and per post. *)
Lemma ugc_indexes_kept_witness :
  ugc_indexes_ok (ugc_col (run env bob_commits st_committed)).
Proof.
  assert (H : ugc_indexes_ok (ugc_col st_committed))
    by (split; vm_compute; apply NoDup_singleton).
  exact (ugc_indexes_kept env bob_commits st_committed H).
Defined.

(** Alice attaches metrics twice, in two spellings: one entry per key. *)
Lemma ledger_index_kept_witness :
  ledger_index_ok (ledger_col (run env metrics_twice st_metrics)).
Proof.
  assert (H : ledger_index_ok (ledger_col st_metrics))
    by (vm_compute; apply NoDup_singleton).
  exact (ledger_index_kept env metrics_twice st_metrics H).
Defined.

(** Alice's T1 entry is sound, and so is the ledger after her metrics
    and Bob's submission. *)
Lemma rewards_stay_sound_witness :
  ledger_sound env (run env (alice_metrics ++ bob_commits) st_committed).
Proof.
  assert (H1 : Forall event_ok (alice_metrics ++ bob_commits))
    by (repeat constructor).
  assert (H2 : ledger_sound env st_committed).
  { constructor; [|constructor].
    split; [left; repeat split; by_eval|]. split; [by_eval|].
    exists alice_record. split; [vm_compute; left; reflexivity|]. split; by_eval. }
  exact (rewards_stay_sound env (alice_metrics ++ bob_commits) st_committed H1 H2).
Defined.

(** Alice stages a draft and never commits it. *)
Lemma staging_leaves_store_witness :
  same_store st0 (run env (staging alice "https://tiktok.com/@x/video/1#comment" "C1") st0).
Proof.
  assert (H : forallb is_staging (staging alice "https://tiktok.com/@x/video/1#comment" "C1")
              = true) by by_eval.
  exact (staging_leaves_store env _ st0 H).
Defined.

(** Bob's staging leaves Alice's staged draft alone. *)
Lemma sessions_are_private_witness :
  sessions (run env bob_staging st_staged) !! 7 = sessions st_staged !! 7.
Proof.
  assert (H : Forall (fun e => sender e <> 7) bob_staging)
    by (repeat (constructor; [vm_compute; discriminate|]); constructor).
  exact (sessions_are_private env bob_staging st_staged 7 H).
Defined.

(** Alice stages her post while Bob starts and sends a link of his. *)
Lemma staging_builds_draft_witness :
  has_draft (says alice "T1")
    (run env []
       (step env
          (run env bob_sends_link
             (step env
                (run env []
                   (step env
                      (run env bob_starts
                         (step env st0
                            (EvUrl (says alice "https://tiktok.com/@x/video/1#comment"))))
                      (EvCode (says alice " C1 "))))
                (EvCaption (says alice "check this out!!"))))
          (EvProof (sends_photo alice "screenshot"))))
    {| d_platform := "tt";
       d_post_url := normalize_url
                       (default "" (text (says alice "https://tiktok.com/@x/video/1#comment")));
       d_post_hash := fingerprintURL env "tt"
                        (default "" (text (says alice "https://tiktok.com/@x/video/1#comment")));
       d_ugc_code := str_strip (default "" (text (says alice " C1 ")));
       d_caption := str_strip (default "" (text (says alice "check this out!!")));
       d_proof_sha256 := sha256_bytes "screenshot" |}.
Proof.
  assert (Ho : Forall (fun e => sender e <> 7) (bob_starts ++ [] ++ bob_sends_link ++ []))
    by (repeat (constructor; [vm_compute; discriminate|]); constructor).
  assert (Hp : detect_platform env
                 (normalize_url
                    (default "" (text (says alice "https://tiktok.com/@x/video/1#comment"))))
               = Some "tt") by by_eval.
  assert (Hcode : fst (submit_got_code (says alice " C1 ")
                         (run env bob_starts
                            (step env st0
                               (EvUrl (says alice "https://tiktok.com/@x/video/1#comment")))))
                  = Ok (Next S_CAPTION)) by by_eval.
  assert (Hcap : fst (submit_got_caption (says alice "check this out!!")
                        (run env []
                           (step env
                              (run env bob_starts
                                 (step env st0
                                    (EvUrl (says alice "https://tiktok.com/@x/video/1#comment"))))
                              (EvCode (says alice " C1 ")))))
                 = Ok (Next S_PROOF)) by by_eval.
  assert (Hb : last (photo (sends_photo alice "screenshot")) = Some "screenshot") by by_eval.
  exact (staging_builds_draft env
           (says alice "https://tiktok.com/@x/video/1#comment") (says alice " C1 ")
           (says alice "check this out!!") (sends_photo alice "screenshot")
           (says alice "T1") bob_starts [] bob_sends_link [] st0 "tt" "screenshot" 7
           eq_refl eq_refl eq_refl eq_refl eq_refl Ho Hp Hcode Hcap Hb).
Defined.

(** Alice's code after her commit and Bob's staging: refused to her and
    to Bob. *)
Lemma consumed_code_is_refused_witness :
  (fst (validate_code 7 "C1"
          (run env bob_staging (snd (submit_got_tier env id1 (says alice "T1") st_staged))))
   = Ok (false, "This code is not bound to your account.") \/
   fst (validate_code 7 "C1"
          (run env bob_staging (snd (submit_got_tier env id1 (says alice "T1") st_staged))))
   = Ok (false, "Code already used/expired. Get a new one from the community bot.")) /\
  (fst (validate_code 8 "C1"
          (run env bob_staging (snd (submit_got_tier env id1 (says alice "T1") st_staged))))
   = Ok (false, "This code is not bound to your account.") \/
   fst (validate_code 8 "C1"
          (run env bob_staging (snd (submit_got_tier env id1 (says alice "T1") st_staged))))
   = Ok (false, "Code already used/expired. Get a new one from the community bot.")).
Proof.
  assert (H1 : has_draft (says alice "T1") st_staged alice_draft) by draft_by_eval.
  assert (H2 : tier_of env (says alice "T1") = "T1" \/ tier_of env (says alice "T1") = "T2")
    by (left; by_eval).
  assert (H3 : existsb (ugc_conflict
                          (submission_doc env id1 (says alice "T1") alice_draft
                             (tier_of env (says alice "T1")) (ticks st_staged)))
                 (ugc_col st_staged) = false) by by_eval.
  assert (H4 : str_strip (d_ugc_code alice_draft) = d_ugc_code alice_draft) by by_eval.
  assert (H5 : existsb (has_code (d_ugc_code alice_draft)) (code_col st_staged) = true)
    by by_eval.
  split.
  - exact (consumed_code_is_refused env id1 (says alice "T1") st_staged alice_draft
             bob_staging 7 H1 H2 H3 H4 H5).
  - exact (consumed_code_is_refused env id1 (says alice "T1") st_staged alice_draft
             bob_staging 8 H1 H2 H3 H4 H5).
Defined.

(** Alice's commit with the code collection emptied meanwhile. *)
Lemma commit_ignores_code_records_witness :
  fst (submit_got_tier env id1 (says alice "T1") (with_code (fun _ => []) st_staged))
  = fst (submit_got_tier env id1 (says alice "T1") st_staged) /\
  ugc_col (snd (submit_got_tier env id1 (says alice "T1") (with_code (fun _ => []) st_staged)))
  = ugc_col (snd (submit_got_tier env id1 (says alice "T1") st_staged)).
Proof.
  assert (H1 : has_draft (says alice "T1") st_staged alice_draft) by draft_by_eval.
  assert (H2 : tier_of env (says alice "T1") = "T1" \/ tier_of env (says alice "T1") = "T2")
    by (left; by_eval).
  destruct (commit_ignores_code_records env id1 (says alice "T1") st_staged alice_draft
              [] H1 H2) as (Ha & Hb & _).
  split; [exact Ha|exact Hb].
Defined.

(** Alice asks for the status of her submission after Bob's staging. *)
Lemma status_finds_committed_witness :
  exists x,
    s_id x = id1 /\
    status_cmd env (commands alice [str_oid id1])
      (run env bob_staging (snd (submit_got_tier env id1 (says alice "T1") st_staged)))
    = (Ok RNone,
       with_outbox
         (fun o => o ++ [(uid_of (commands alice [str_oid id1]),
                          msg_status env (str_oid id1) x)])
         (run env bob_staging (snd (submit_got_tier env id1 (says alice "T1") st_staged)))).
Proof.
  assert (H1 : has_draft (says alice "T1") st_staged alice_draft) by draft_by_eval.
  assert (H2 : tier_of env (says alice "T1") = "T1" \/ tier_of env (says alice "T1") = "T2")
    by (left; by_eval).
  assert (H3 : existsb (ugc_conflict
                          (submission_doc env id1 (says alice "T1") alice_draft
                             (tier_of env (says alice "T1")) (ticks st_staged)))
                 (ugc_col st_staged) = false) by by_eval.
  assert (H4 : oid_valid id1 = true) by by_eval.
  assert (H5 : dm_ok (commands alice [str_oid id1]) = true) by by_eval.
  assert (H6 : uid_of (commands alice [str_oid id1]) = uid_of (says alice "T1")) by by_eval.
  assert (H7 : args (commands alice [str_oid id1]) = str_oid id1 :: []) by by_eval.
  destruct (status_finds_committed env id1 (says alice "T1") (commands alice [str_oid id1])
              st_staged alice_draft bob_staging [] H1 H2 H3 H4 H5 H6 H7)
    as (x & (Hid & _) & _ & Hs).
  exists x. split; [exact Hid|exact Hs].
Defined.

(** [/status abc] in a group: the notice, and no [InvalidId]. *)
Lemma commands_refuse_group_chats_witness :
  status_cmd env in_a_group st_committed
  = (Ok RNone, replied in_a_group msg_dm_only st_committed).
Proof.
  assert (H : in_group in_a_group = true) by by_eval.
  destruct (commands_refuse_group_chats env in_a_group st_committed H) as (_ & _ & _ & Hs).
  exact Hs.
Defined.

(** Alice's refused inputs, sent when her metrics photo is due: six
    replies to her and nothing else. *)
Lemma rejected_input_stages_nothing_witness :
  exists ms,
    run env alice_fumbles st_metrics = with_outbox (fun o => o ++ ms) st_metrics /\
    map fst ms = [7; 7; 7; 7; 7; 7].
Proof.
  assert (H : all_ask_again env alice_fumbles st_metrics)
    by (vm_compute; repeat split; reflexivity).
  exact (rejected_input_stages_nothing env alice_fumbles st_metrics H).
Defined.

(** Alice's second metrics photo, her id asked for in capitals. *)
Lemma t2_reward_is_per_spelling_witness :
  exists e1,
    ledger_col (snd (metrics_got_proof env (sends_photo alice "metrics again") st_respelled))
    = ledger_col st_respelled ++ [e1] /\
    refers_to id1 alice_t2_entry = true /\ refers_to id1 e1 = true /\
    l_tier e1 = "T2" /\ e1 <> alice_t2_entry.
Proof.
  assert (H1 : oid_valid id1 = true) by by_eval.
  assert (H2 : upper (str_oid id1) <> str_oid id1) by (vm_compute; discriminate).
  assert (H3 : user_data (sends_photo alice "metrics again") st_respelled !! "metrics_ugc_id"
               = Some (upper (str_oid id1))) by by_eval.
  assert (H4 : last (photo (sends_photo alice "metrics again")) = Some "metrics again")
    by by_eval.
  assert (H5 : find_one (has_id id1) (ugc_col st_respelled) = Some alice_validated)
    by by_eval.
  assert (H6 : s_user_id alice_validated = uid_of (sends_photo alice "metrics again"))
    by by_eval.
  assert (H7 : In alice_t2_entry (ledger_col st_respelled))
    by (vm_compute; right; left; reflexivity).
  assert (H8 : ledger_key (str_oid id1) "T2" alice_t2_entry = true) by by_eval.
  assert (H9 : Forall (fun e => l_ugc_id e <> upper (str_oid id1)) (ledger_col st_respelled))
    by (repeat (constructor; [vm_compute; discriminate|]); constructor).
  destruct (t2_reward_is_per_spelling env (sends_photo alice "metrics again") st_respelled
              "metrics again" id1 alice_validated alice_t2_entry
              H1 H2 H3 H4 H5 H6 H7 H8 H9)
    as (e1 & Hl & Hr0 & _ & Hr1 & Ht1 & _ & _ & Hne).
  exists e1. split; [exact Hl|]. split; [exact Hr0|]. split; [exact Hr1|].
  split; [exact Ht1|exact Hne].
Defined.

End Witness.
